(** * orrn-spool: job scheduler and device session manager

    A shallow embedding of the scheduler (internal/core/queue.go) and of the
    printer manager (package core: PrinterStatus, Printer, PrinterManager),
    followed by the properties of the specification that concern them.

    Conventions of the embedding
    - Go [int], [int64] and [time.Duration] values are [Z]; where the source
      does arithmetic that can leave the 64-bit range ([calculateBackoff],
      [TotalPrints]) the wrap-around is written out with [wrap64].
    - Instants ([time.Time]) are [Z]; a [*time.Time] is an [option].
    - Go strings are [string]; status bytes are [byte]; a Go [error] is its
      message.
    - The SQLite tables are finite maps from the primary key to a row, a
      nullable column is an [option].  Statements are assumed to execute (no
      I/O failure of the store); the CHECK constraints on the status columns
      are modelled.
    - Every operation is a function on the state of the whole system
      ([World]): store, scheduler object, printer registry and environment.
      The environment holds the clock, the outcomes of the coming network
      operations, the bytes written, the armed timers, the launched
      goroutines and the calls made to the collaborators (the webhook
      sender, and [IncrementPrintCount] of the printer manager interface,
      which no type of the sources implements).  An operation runs to its
      end without interleaving; the start-up is also given statement by
      statement, with the goroutines it launches taking turns in between. *)

From Stdlib Require Import ZArith String Ascii Strings.Byte List Lia.
From stdpp Require Import base option gmap list strings pretty sorting.

Open Scope string_scope.
Open Scope Z_scope.

(** ** Machine integers and time *)

Definition wrap64 (z : Z) : Z := (z + 2 ^ 63) mod 2 ^ 64 - 2 ^ 63.

(** Go's [uint(n)] for a 64-bit [int]. *)
Definition to_uint64 (z : Z) : Z := z mod 2 ^ 64.

(** [x << n] on an [int64] with an unsigned shift count: counts of 64 and
    more give 0. *)
Definition shl64 (x n : Z) : Z :=
  if n <? 64 then wrap64 (Z.shiftl x n) else 0.

Definition mul64 (x y : Z) : Z := wrap64 (x * y).
Definition add64 (x y : Z) : Z := wrap64 (x + y).

Definition Time := Z.
Definition Duration := Z.

Definition Nanosecond : Duration := 1.
Definition Second : Duration := 1000000000.
Definition Minute : Duration := 60 * Second.

(** ** Device status

    Package core: [PrinterStatus] and the lookup tables, [parseStatus] and
    [determineStatusString] (internal/archive/archiver.go, lines 575 to 1020). *)

Module PrinterStatus.
Record t := mk {
  RawStatus : byte * byte * byte * byte;
  PrinterState : string;
  Warning : string;
  Error : string;
  MediaError : string;
  IsOnline : bool;
  CanPrint : bool;
  LastChecked : Time
}.

(** The zero value [PrinterStatus{}]. *)
Definition zero : t :=
  mk (x00, x00, x00, x00) "" "" "" "" false false 0.

Definition with_decoded (raw : byte * byte * byte * byte)
    (st wa er me : string) (s : t) : t :=
  mk raw st wa er me (IsOnline s) (CanPrint s) (LastChecked s).

Definition with_flags (online canprint : bool) (checked : Time) (s : t) : t :=
  mk (RawStatus s) (PrinterState s) (Warning s) (Error s) (MediaError s)
     online canprint checked.
End PrinterStatus.

Definition printerStateMap (b : byte) : option string :=
  match b with
  | "@"%byte => Some "normal"
  | "F"%byte => Some "feeding"
  | "P"%byte => Some "paused"
  | "E"%byte => Some "error"
  | "H"%byte => Some "head_open"
  | "S"%byte => Some "standby"
  | "L"%byte => Some "label_waiting"
  | "I"%byte => Some "idle"
  | _ => None
  end.

Definition warningMap (b : byte) : option string :=
  match b with
  | "@"%byte => Some "none"
  | "A"%byte => Some "paper_low"
  | "B"%byte => Some "ribbon_low"
  | "C"%byte => Some "paper_and_ribbon_low"
  | _ => None
  end.

Definition errorMap (b : byte) : option string :=
  match b with
  | "@"%byte => Some "none"
  | "A"%byte => Some "head_overheat"
  | "B"%byte => Some "motor_overheat"
  | "C"%byte => Some "head_and_motor_overheat"
  | "D"%byte => Some "head_error"
  | "E"%byte => Some "cutter_error"
  | "F"%byte => Some "rtc_error"
  | _ => None
  end.

Definition mediaErrorMap (b : byte) : option string :=
  match b with
  | "@"%byte => Some "none"
  | "A"%byte => Some "paper_empty"
  | "B"%byte => Some "ribbon_empty"
  | "C"%byte => Some "paper_and_ribbon_empty"
  | "D"%byte => Some "takeup_reel_full"
  | "`"%byte => Some "head_open"
  | _ => None
  end.

(** [parseStatus] indexes [response[0..3]]; a shorter slice panics, which is
    the [None] result.  Bytes absent from a table decode to ["unknown"]. *)
Definition parseStatus (response : list byte) : option PrinterStatus.t :=
  match response with
  | b0 :: b1 :: b2 :: b3 :: _ =>
      Some (PrinterStatus.with_decoded (b0, b1, b2, b3)
              (default "unknown" (printerStateMap b0))
              (default "unknown" (warningMap b1))
              (default "unknown" (errorMap b2))
              (default "unknown" (mediaErrorMap b3))
              PrinterStatus.zero)
  | _ => None
  end.

Definition determineStatusString (status : PrinterStatus.t) : string :=
  if negb (PrinterStatus.IsOnline status) then "offline"
  else if String.eqb (PrinterStatus.PrinterState status) "error"
          || negb (String.eqb (PrinterStatus.Error status) "none") then "error"
  else if String.eqb (PrinterStatus.PrinterState status) "paused" then "paused"
  else if negb (String.eqb (PrinterStatus.MediaError status) "none") then "error"
  else if String.eqb (PrinterStatus.PrinterState status) "feeding" then "busy"
  else "online".

(** [CanPrint] as [CheckStatus] computes it from the decoded state. *)
Definition canPrintState (state : string) : bool :=
  String.eqb state "normal" || String.eqb state "standby"
  || String.eqb state "idle".

(** The tail of [CheckStatus] once four bytes have been read: decode, mark
    online, stamp, compute [CanPrint]. *)
Definition decodeResponse (response : list byte) (now : Time)
    : option PrinterStatus.t :=
  match parseStatus response with
  | Some status =>
      Some (PrinterStatus.with_flags true
              (canPrintState (PrinterStatus.PrinterState status)) now status)
  | None => None
  end.

(** ** The precedence of the composite status, in the specification's words *)

Definition error_present (s : PrinterStatus.t) : Prop :=
  PrinterStatus.Error s ≠ "none" ∨ PrinterStatus.PrinterState s = "error".

Definition media_error_present (s : PrinterStatus.t) : Prop :=
  PrinterStatus.MediaError s ≠ "none".

#[local] Instance error_present_dec s : Decision (error_present s).
Proof. unfold error_present. apply _. Defined.

#[local] Instance media_error_present_dec s : Decision (media_error_present s).
Proof. unfold media_error_present. apply _. Defined.

(** The first rule whose guard holds decides; [dflt] when none does. *)
Fixpoint first_match (rules : list (bool * string)) (dflt : string) : string :=
  match rules with
  | [] => dflt
  | (guard, verdict) :: rest => if guard then verdict else first_match rest dflt
  end.

Definition precedence_rules (s : PrinterStatus.t) : list (bool * string) :=
  [ (bool_decide (PrinterStatus.IsOnline s = false), "offline");
    (bool_decide (error_present s), "error");
    (bool_decide (PrinterStatus.PrinterState s = "paused"), "paused");
    (bool_decide (media_error_present s), "error");
    (bool_decide (PrinterStatus.PrinterState s = "feeding"), "busy") ].

Definition composite_by_precedence (s : PrinterStatus.t) : string :=
  first_match (precedence_rules s) "online".

(** ** Errors

    A Go [error] is represented by its message; [None] is [nil]. *)

Definition error := string.

Inductive result (A : Type) : Type :=
  | Ok (a : A)
  | Err (e : error).
Arguments Ok {A} a.
Arguments Err {A} e.

(** ** Configuration (internal/config) *)

Module QueueConfig.
Record t := mk {
  MaxRetries : Z;
  RetryDelay : Duration;
  WorkerCount : Z
}.
End QueueConfig.

(** ** Jobs (internal/core/queue.go) *)

Definition JobStatus := string.

Definition JobStatusPending : JobStatus := "pending".
Definition JobStatusProcessing : JobStatus := "processing".
Definition JobStatusCompleted : JobStatus := "completed".
Definition JobStatusFailed : JobStatus := "failed".
Definition JobStatusPaused : JobStatus := "paused".
Definition JobStatusCancelled : JobStatus := "cancelled".

Module Job.
Record t := mk {
  ID : Z;
  PrinterID : Z;
  TemplateID : Z;
  VariablesJSON : string;
  TSPLContent : string;
  Status : JobStatus;
  Priority : Z;
  RetryCount : Z;
  MaxRetries : Z;
  Copies : Z;
  ErrorMessage : string;
  SubmittedBy : string;
  CreatedAt : Time;
  StartedAt : option Time;
  CompletedAt : option Time
}.

Definition with_MaxRetries (v : Z) (j : t) : t :=
  mk (ID j) (PrinterID j) (TemplateID j) (VariablesJSON j) (TSPLContent j)
     (Status j) (Priority j) (RetryCount j) v (Copies j) (ErrorMessage j)
     (SubmittedBy j) (CreatedAt j) (StartedAt j) (CompletedAt j).

Definition with_Status (v : JobStatus) (j : t) : t :=
  mk (ID j) (PrinterID j) (TemplateID j) (VariablesJSON j) (TSPLContent j)
     v (Priority j) (RetryCount j) (MaxRetries j) (Copies j) (ErrorMessage j)
     (SubmittedBy j) (CreatedAt j) (StartedAt j) (CompletedAt j).

Definition with_TSPLContent (v : string) (j : t) : t :=
  mk (ID j) (PrinterID j) (TemplateID j) (VariablesJSON j) v
     (Status j) (Priority j) (RetryCount j) (MaxRetries j) (Copies j)
     (ErrorMessage j) (SubmittedBy j) (CreatedAt j) (StartedAt j)
     (CompletedAt j).
End Job.

(** ** The store (internal/db/migrations/001_initial.sql)

    A row of [print_jobs].  [error_message], [started_at] and [completed_at]
    have no default and are not written by the INSERT of [Enqueue], so they
    can be NULL ([None]); the other columns are always written by the
    scheduler.  There is no column for the retry limit. *)

Module JobRow.
Record t := mk {
  id : Z;
  printer_id : Z;
  template_id : Z;
  variables_json : string;
  tspl_content : string;
  status : string;
  priority : Z;
  retry_count : Z;
  error_message : option string;
  copies : Z;
  submitted_by : string;
  created_at : Time;
  started_at : option Time;
  completed_at : option Time
}.

(** SET status = ?, error_message = ?, started_at = ?, completed_at = ? *)
Definition set_status_fields (st : string) (msg : option string)
    (started completed : option Time) (r : t) : t :=
  mk (id r) (printer_id r) (template_id r) (variables_json r) (tspl_content r)
     st (priority r) (retry_count r) msg (copies r) (submitted_by r)
     (created_at r) started completed.

(** SET status = ? *)
Definition set_status (st : string) (r : t) : t :=
  set_status_fields st (error_message r) (started_at r) (completed_at r) r.

(** SET status = ?, completed_at = ? *)
Definition set_status_completed (st : string) (completed : option Time)
    (r : t) : t :=
  set_status_fields st (error_message r) (started_at r) completed r.

(** SET retry_count = ? *)
Definition set_retry_count (n : Z) (r : t) : t :=
  mk (id r) (printer_id r) (template_id r) (variables_json r) (tspl_content r)
     (status r) (priority r) n (error_message r) (copies r) (submitted_by r)
     (created_at r) (started_at r) (completed_at r).

(** SET tspl_content = ? *)
Definition set_tspl_content (c : string) (r : t) : t :=
  mk (id r) (printer_id r) (template_id r) (variables_json r) c
     (status r) (priority r) (retry_count r) (error_message r) (copies r)
     (submitted_by r) (created_at r) (started_at r) (completed_at r).

(** CHECK(status IN ('pending', 'processing', 'completed', 'failed',
    'paused', 'cancelled')) *)
Definition status_allowed (st : string) : bool :=
  String.eqb st "pending" || String.eqb st "processing"
  || String.eqb st "completed" || String.eqb st "failed"
  || String.eqb st "paused" || String.eqb st "cancelled".
End JobRow.

Module PrinterRow.
Record t := mk {
  status : string;
  last_seen_at : option Time;
  total_prints : Z
}.

(** CHECK(status IN ('online', 'offline', 'paused', 'error', 'unknown')) *)
Definition status_allowed (st : string) : bool :=
  String.eqb st "online" || String.eqb st "offline" || String.eqb st "paused"
  || String.eqb st "error" || String.eqb st "unknown".
End PrinterRow.

Module DB.
Record t := mk {
  print_jobs : gmap Z JobRow.t;
  (** AUTOINCREMENT: the largest job id handed out so far. *)
  print_jobs_seq : Z;
  printers : gmap Z PrinterRow.t;
  (** keyed by (printer_id, date) *)
  print_counters : gmap (Z * Z) Z
}.

Definition with_print_jobs (f : gmap Z JobRow.t → gmap Z JobRow.t) (d : t) : t :=
  mk (f (print_jobs d)) (print_jobs_seq d) (printers d) (print_counters d).

Definition with_print_jobs_seq (n : Z) (d : t) : t :=
  mk (print_jobs d) n (printers d) (print_counters d).

Definition with_printers (f : gmap Z PrinterRow.t → gmap Z PrinterRow.t)
    (d : t) : t :=
  mk (print_jobs d) (print_jobs_seq d) (f (printers d)) (print_counters d).

Definition with_print_counters (f : gmap (Z * Z) Z → gmap (Z * Z) Z)
    (d : t) : t :=
  mk (print_jobs d) (print_jobs_seq d) (printers d) (f (print_counters d)).
End DB.

(** ** Printers (package core) *)

(** The label geometry fields ([LabelWidthMM], [LabelHeightMM], [GapMM]) are
    floating-point values that no operation below reads; they are left out. *)
Module Printer.
Record t := mk {
  ID : Z;
  Name : string;
  IPAddress : string;
  Port : Z;
  DPI : Z;
  Status : string;
  LastSeenAt : option Time;
  TotalPrints : Z
}.

Definition with_Status (st : string) (seen : option Time) (p : t) : t :=
  mk (ID p) (Name p) (IPAddress p) (Port p) (DPI p) st seen (TotalPrints p).

Definition with_TotalPrints (n : Z) (p : t) : t :=
  mk (ID p) (Name p) (IPAddress p) (Port p) (DPI p) (Status p) (LastSeenAt p) n.
End Printer.

Module PrinterManager.
Record t := mk {
  printers : gmap Z Printer.t;
  (** the printers for which a live connection is cached *)
  connections : gset Z;
  (** [webhookSender != nil] *)
  webhookSender : bool
}.

Definition with_printers (f : gmap Z Printer.t → gmap Z Printer.t) (m : t) : t :=
  mk (f (printers m)) (connections m) (webhookSender m).

Definition with_connections (f : gset Z → gset Z) (m : t) : t :=
  mk (printers m) (f (connections m)) (webhookSender m).
End PrinterManager.

(** ** The scheduler object *)

Module Queue.
Record t := mk {
  config : QueueConfig.t;
  workers : Z;
  (** [printerManager != nil] *)
  printerManager : bool;
  (** [nil], or the codec's [GenerateFromTemplate] *)
  tsplGenerator : option (Z → string → result string);
  (** [webhookSender != nil] *)
  webhookSender : bool;
  (** buffered channel of capacity 1000, oldest first *)
  jobCh : list Z;
  stopCh_closed : bool;
  pausedPrinters : gmap Z bool;
  running : bool
}.

Definition with_jobCh (ch : list Z) (q : t) : t :=
  mk (config q) (workers q) (printerManager q) (tsplGenerator q)
     (webhookSender q) ch (stopCh_closed q) (pausedPrinters q) (running q).

Definition with_pausedPrinters (f : gmap Z bool → gmap Z bool) (q : t) : t :=
  mk (config q) (workers q) (printerManager q) (tsplGenerator q)
     (webhookSender q) (jobCh q) (stopCh_closed q) (f (pausedPrinters q))
     (running q).

Definition with_running (b : bool) (q : t) : t :=
  mk (config q) (workers q) (printerManager q) (tsplGenerator q)
     (webhookSender q) (jobCh q) (stopCh_closed q) (pausedPrinters q) b.

Definition with_stopCh_closed (b : bool) (q : t) : t :=
  mk (config q) (workers q) (printerManager q) (tsplGenerator q)
     (webhookSender q) (jobCh q) b (pausedPrinters q) (running q).
End Queue.

(** ** The environment: clock, network, timers, goroutines, observers *)

Inductive IOError :=
  | EOF
  | DeadlineExceeded
  | IOFailure (msg : string).

Definition IOError_text (e : IOError) : string :=
  match e with
  | EOF => "EOF"
  | DeadlineExceeded => "context deadline exceeded"
  | IOFailure msg => msg
  end.

Inductive Goroutine :=
  | GoWorker (i : Z)
  | GoDispatcher.

(** A call of [WebhookSender.SendJobEvent]. *)
Record JobEvent := mkJobEvent {
  ev_event : string;
  ev_jobID : Z;
  ev_printerID : Z;
  ev_status : JobStatus;
  ev_errorMsg : string
}.

(** A call of [WebhookSender.SendPrinterStatusChange]. *)
Record StatusChange := mkStatusChange {
  sc_printerID : Z;
  sc_printerName : string;
  sc_oldStatus : string;
  sc_newStatus : string
}.

(** A call through [PrinterManagerInterface] made by the scheduler. *)
Inductive PMCall :=
  | CallPrint (printerID : Z) (tsplContent : string) (copies : Z)
  | CallIncrementPrintCount (printerID : Z) (count : Z).

Module Env.
Record t := mk {
  (** the successive readings of the clock *)
  clock : nat → Time;
  ticks : nat;
  (** outcomes of the coming dials and writes ([None]: success) and reads *)
  dials : list (option string);
  writes : list (option string);
  reads : list (list byte * option IOError);
  (** payloads written successfully, per printer, oldest first *)
  wire : list (Z * string);
  (** pending [time.AfterFunc] callbacks: delay and job to retry *)
  timers : list (Duration * Z);
  goroutines : list Goroutine;
  job_events : list JobEvent;
  status_changes : list StatusChange;
  pm_calls : list PMCall
}.

Definition with_ticks (n : nat) (e : t) : t :=
  mk (clock e) n (dials e) (writes e) (reads e) (wire e) (timers e)
     (goroutines e) (job_events e) (status_changes e) (pm_calls e).

Definition with_dials (l : list (option string)) (e : t) : t :=
  mk (clock e) (ticks e) l (writes e) (reads e) (wire e) (timers e)
     (goroutines e) (job_events e) (status_changes e) (pm_calls e).

Definition with_writes (l : list (option string)) (e : t) : t :=
  mk (clock e) (ticks e) (dials e) l (reads e) (wire e) (timers e)
     (goroutines e) (job_events e) (status_changes e) (pm_calls e).

Definition with_reads (l : list (list byte * option IOError)) (e : t) : t :=
  mk (clock e) (ticks e) (dials e) (writes e) l (wire e) (timers e)
     (goroutines e) (job_events e) (status_changes e) (pm_calls e).

Definition with_wire (l : list (Z * string)) (e : t) : t :=
  mk (clock e) (ticks e) (dials e) (writes e) (reads e) l (timers e)
     (goroutines e) (job_events e) (status_changes e) (pm_calls e).

Definition with_timers (l : list (Duration * Z)) (e : t) : t :=
  mk (clock e) (ticks e) (dials e) (writes e) (reads e) (wire e) l
     (goroutines e) (job_events e) (status_changes e) (pm_calls e).

Definition with_goroutines (l : list Goroutine) (e : t) : t :=
  mk (clock e) (ticks e) (dials e) (writes e) (reads e) (wire e) (timers e)
     l (job_events e) (status_changes e) (pm_calls e).

Definition with_job_events (l : list JobEvent) (e : t) : t :=
  mk (clock e) (ticks e) (dials e) (writes e) (reads e) (wire e) (timers e)
     (goroutines e) l (status_changes e) (pm_calls e).

Definition with_status_changes (l : list StatusChange) (e : t) : t :=
  mk (clock e) (ticks e) (dials e) (writes e) (reads e) (wire e) (timers e)
     (goroutines e) (job_events e) l (pm_calls e).

Definition with_pm_calls (l : list PMCall) (e : t) : t :=
  mk (clock e) (ticks e) (dials e) (writes e) (reads e) (wire e) (timers e)
     (goroutines e) (job_events e) (status_changes e) l.
End Env.

(** ** The whole system: store, scheduler, printer manager, environment *)

Record World := mkWorld {
  db : DB.t;
  q : Queue.t;
  pm : PrinterManager.t;
  env : Env.t
}.

Definition with_db (f : DB.t → DB.t) (w : World) : World :=
  mkWorld (f (db w)) (q w) (pm w) (env w).

Definition with_q (f : Queue.t → Queue.t) (w : World) : World :=
  mkWorld (db w) (f (q w)) (pm w) (env w).

Definition with_pm (f : PrinterManager.t → PrinterManager.t) (w : World) : World :=
  mkWorld (db w) (q w) (f (pm w)) (env w).

Definition with_env (f : Env.t → Env.t) (w : World) : World :=
  mkWorld (db w) (q w) (pm w) (f (env w)).

(** [time.Now()] and the store's CURRENT_TIMESTAMP: the next reading of the
    clock. *)
Definition timeNow (w : World) : Time * World :=
  (Env.clock (env w) (Env.ticks (env w)),
   with_env (Env.with_ticks (S (Env.ticks (env w)))) w).

(** ** The printer manager

    Package core, [PrinterManager]: the third Go file of
    internal/archive/archiver.go, lines 608 to 1221. *)

Definition ErrPrinterNotFound : error := "printer not found".
Definition ErrPrinterOffline : error := "printer is offline".
Definition ErrConnectionFailed : error := "connection failed".
Definition ErrInvalidStatus : error := "invalid status response".
Definition ErrPrinterCannotPrint : error := "printer cannot print in current state".
Definition ErrPrinterAlreadyExists : error := "printer already exists".

Definition statusCommand : string :=
  String (ascii_of_nat 27) "!?".
Definition statusResponseLength : nat := 4.

Definition CRLF : string :=
  String (ascii_of_nat 13) (String (ascii_of_nat 10) "").

(** [fmt.Errorf("%w: %v", ErrConnectionFailed, err)] *)
Definition connectionFailed (detail : string) : error :=
  ErrConnectionFailed +:+ ": " +:+ detail.

(** The deadline set on the connection ends a dial, write or read for which
    the environment has no outcome left. *)
Definition ioTimeout : string := "i/o timeout".

Definition GetPrinter (id : Z) (w : World) : result Printer.t :=
  match PrinterManager.printers (pm w) !! id with
  | Some p => Ok p
  | None => Err ErrPrinterNotFound
  end.

Definition connect (id : Z) (w : World) : World * option error :=
  match PrinterManager.printers (pm w) !! id with
  | None => (w, Some ErrPrinterNotFound)
  | Some _ =>
      if bool_decide (id ∈ PrinterManager.connections (pm w)) then (w, None)
      else
        match Env.dials (env w) with
        | [] => (w, Some (connectionFailed ioTimeout))
        | Some msg :: rest =>
            (with_env (Env.with_dials rest) w, Some (connectionFailed msg))
        | None :: rest =>
            (with_pm (PrinterManager.with_connections (λ c, c ∪ {[id]}))
               (with_env (Env.with_dials rest) w), None)
        end
  end.

Definition disconnect (id : Z) (w : World) : World :=
  with_pm (PrinterManager.with_connections (λ c, c ∖ {[id]})) w.

Definition reconnect (id : Z) (w : World) : World * option error :=
  connect id (disconnect id w).

(** [conn.Write(payload)] on the connection of printer [id]. *)
Definition connWrite (id : Z) (payload : string) (w : World)
    : World * option string :=
  match Env.writes (env w) with
  | [] => (w, Some ioTimeout)
  | Some msg :: rest => (with_env (Env.with_writes rest) w, Some msg)
  | None :: rest =>
      (with_env (λ e, Env.with_wire (Env.wire e ++ [(id, payload)])
                        (Env.with_writes rest e)) w, None)
  end.

Definition updatePrinterStatus (id : Z) (status : string) (w : World) : World :=
  match PrinterManager.printers (pm w) !! id with
  | None => w
  | Some p =>
      let oldStatus := Printer.Status p in
      let '(now, w) := timeNow w in
      let w := with_pm (PrinterManager.with_printers
                          <[id := Printer.with_Status status (Some now) p]>) w in
      (* UPDATE printers SET status = ?, last_seen_at = CURRENT_TIMESTAMP
         WHERE id = ?; its error is discarded *)
      let '(stamp, w) := timeNow w in
      let w :=
        if PrinterRow.status_allowed status then
          with_db (DB.with_printers
                     (alter (λ r, PrinterRow.mk status (Some stamp)
                                    (PrinterRow.total_prints r)) id)) w
        else w in
      if negb (String.eqb oldStatus status)
         && PrinterManager.webhookSender (pm w) then
        with_env (λ e, Env.with_status_changes
                         (Env.status_changes e ++
                            [mkStatusChange id (Printer.Name p) oldStatus status])
                         e) w
      else w
  end.

(** [&PrinterStatus{IsOnline: false, CanPrint: false, LastChecked: time.Now()}] *)
Definition offlineStatus (w : World) : PrinterStatus.t * World :=
  let '(now, w) := timeNow w in
  (PrinterStatus.with_flags false false now PrinterStatus.zero, w).

(** How the read loop of [CheckStatus] ends. *)
Inductive ReadOutcome :=
  | ReadStopped (got : list byte)
  | ReadFailed (e : IOError).

(** [for totalRead < statusResponseLength { n, err := conn.Read(...) ... }].
    Each entry of the script is one [Read]: the bytes it delivers, cut to the
    room left in the buffer, and its error.  The bytes delivered together with
    an error are not counted, as in the source. *)
Fixpoint readLoop (script : list (list byte * option IOError)) (got : list byte)
    : ReadOutcome * list (list byte * option IOError) :=
  if (length got <? statusResponseLength)%nat then
    match script with
    | [] => (ReadFailed (IOFailure ioTimeout), [])
    | (_, Some EOF) :: rest => (ReadStopped got, rest)
    | (_, Some DeadlineExceeded) :: rest => (ReadStopped got, rest)
    | (_, Some e) :: rest => (ReadFailed e, rest)
    | (chunk, None) :: rest =>
        readLoop rest (got ++ take (statusResponseLength - length got) chunk)
    end
  else (ReadStopped got, script).

Definition failOffline (id : Z) (err : error) (w : World)
    : World * option PrinterStatus.t * option error :=
  let '(status, w) := offlineStatus w in
  let w := updatePrinterStatus id "offline" w in
  (w, Some status, Some err).

(** The second half of [CheckStatus], once the poll command is written: read
    the response, then decode it and record the composite status. *)
Definition readStatus (id : Z) (w : World)
    : World * option PrinterStatus.t * option error :=
  let '(outcome, rest) := readLoop (Env.reads (env w)) [] in
  let w := with_env (Env.with_reads rest) w in
  match outcome with
  | ReadFailed e =>
      failOffline id (connectionFailed (IOError_text e)) (disconnect id w)
  | ReadStopped response =>
      if (length response <? statusResponseLength)%nat then
        let '(status, w) := offlineStatus w in
        let w := updatePrinterStatus id "error" w in
        (w, Some status, Some ErrInvalidStatus)
      else
        let '(now, w) := timeNow w in
        match decodeResponse response now with
        | None => (w, None, Some "index out of range")
        | Some status =>
            let newStatus := determineStatusString status in
            let w := updatePrinterStatus id newStatus w in
            (w, Some status, None)
        end
  end.

(** The first half: write the poll command, reconnecting once if the write
    fails.  The flag of a failure tells whether the connection is dropped. *)
Definition writeStatusCommand (id : Z) (w : World)
    : World * option (bool * error) :=
  match connWrite id statusCommand w with
  | (w, None) => (w, None)
  | (w, Some _) =>
      match reconnect id w with
      | (w, Some err) => (w, Some (false, err))
      | (w, None) =>
          match connWrite id statusCommand w with
          | (w, None) => (w, None)
          | (w, Some err) => (w, Some (true, err))
          end
      end
  end.

Definition CheckStatus (id : Z) (w : World)
    : World * option PrinterStatus.t * option error :=
  match PrinterManager.printers (pm w) !! id with
  | None => (w, None, Some ErrPrinterNotFound)
  | Some _ =>
      match connect id w with
      | (w, Some err) => failOffline id err w
      | (w, None) =>
          match writeStatusCommand id w with
          | (w, Some (drop, err)) =>
              failOffline id err (if drop then disconnect id w else w)
          | (w, None) => readStatus id w
          end
      end
  end.

Definition SendCommand (id : Z) (tspl : string) (w : World)
    : World * option error :=
  match PrinterManager.printers (pm w) !! id with
  | None => (w, Some ErrPrinterNotFound)
  | Some _ =>
      match connect id w with
      | (w, Some _) => (w, Some ErrPrinterOffline)
      | (w, None) =>
          match connWrite id tspl w with
          | (w, Some err) => (disconnect id w, Some (connectionFailed err))
          | (w, None) => (w, None)
          end
      end
  end.

(** [for i := 1; i < copies; i++ { fullTSPL += "\r\n" + tspl }] *)
Fixpoint appendCopies (n : nat) (tspl fullTSPL : string) : string :=
  match n with
  | O => fullTSPL
  | S n => appendCopies n tspl (fullTSPL +:+ CRLF +:+ tspl)
  end.

Definition Print (id : Z) (tspl : string) (copies : Z) (w : World)
    : World * option error :=
  match CheckStatus id w with
  | (w, _, Some err) => (w, Some err)
  | (w, None, None) => (w, Some "nil status")
  | (w, Some status, None) =>
      if negb (PrinterStatus.IsOnline status) then (w, Some ErrPrinterOffline)
      else if negb (PrinterStatus.CanPrint status) then
        (w, Some ErrPrinterCannotPrint)
      else
        let fullTSPL :=
          if 1 <? copies then appendCopies (Z.to_nat (copies - 1)) tspl tspl
          else tspl in
        match SendCommand id fullTSPL w with
        | (w, Some err) => (w, Some err)
        | (w, None) =>
            let w := with_pm (PrinterManager.with_printers
                       (alter (λ p, Printer.with_TotalPrints
                                      (add64 (Printer.TotalPrints p) copies) p)
                              id)) w in
            (* UPDATE printers SET total_prints = total_prints + ? WHERE id = ? *)
            let w := with_db (DB.with_printers
                       (alter (λ r, PrinterRow.mk (PrinterRow.status r)
                                      (PrinterRow.last_seen_at r)
                                      (PrinterRow.total_prints r + copies))
                              id)) w in
            (w, None)
        end
  end.

(** ** The scheduler (internal/core/queue.go) *)

Definition jobChCapacity : nat := 1000.

(** [NewQueue]: a nil configuration is replaced by the defaults and a worker
    count below 1 by 2; the channel and the paused set start empty. *)
Definition NewQueue (pm : bool) (tg : option (Z → string → result string))
    (ws : bool) (cfg : option QueueConfig.t) : Queue.t :=
  let cfg := default (QueueConfig.mk 3 (10 * Second) 2) cfg in
  let cfg := if QueueConfig.WorkerCount cfg <? 1
             then QueueConfig.mk (QueueConfig.MaxRetries cfg)
                    (QueueConfig.RetryDelay cfg) 2
             else cfg in
  Queue.mk cfg (QueueConfig.WorkerCount cfg) pm tg ws [] false ∅ false.

(** [select { case q.jobCh <- id: default: }]; the flag tells whether the
    identifier was accepted. *)
Definition offer (id : Z) (w : World) : World * bool :=
  if (length (Queue.jobCh (q w)) <? jobChCapacity)%nat then
    (with_q (Queue.with_jobCh (Queue.jobCh (q w) ++ [id])) w, true)
  else (w, false).

(** The stored row of a job. *)
Definition jobRow (id : Z) (w : World) : option JobRow.t :=
  DB.print_jobs (db w) !! id.

(** [q.pausedPrinters[printerID]] *)
Definition printerPaused (printerID : Z) (w : World) : bool :=
  default false (Queue.pausedPrinters (q w) !! printerID).

Definition sendJobEvent (event : string) (jobID printerID : Z)
    (status : JobStatus) (errMsg : string) (w : World) : World :=
  if Queue.webhookSender (q w) then
    with_env (λ e, Env.with_job_events
                     (Env.job_events e ++
                        [mkJobEvent event jobID printerID status errMsg]) e) w
  else w.

(** UPDATE print_jobs SET status = ?, error_message = ?, started_at = ?,
    completed_at = ? WHERE id = ?.  The result of [Exec] is discarded, so a
    status the CHECK constraint refuses changes nothing. *)
Definition updateJobStatus (jobID : Z) (status : JobStatus) (errMsg : string)
    (startedAt completedAt : option Time) (w : World) : World :=
  if JobRow.status_allowed status then
    with_db (DB.with_print_jobs
               (alter (JobRow.set_status_fields status (Some errMsg)
                         startedAt completedAt) jobID)) w
  else w.

(** UPDATE print_jobs SET retry_count = retry_count + 1 WHERE id = ? *)
Definition incrementRetryCount (jobID : Z) (w : World) : World :=
  with_db (DB.with_print_jobs
             (alter (λ r, JobRow.set_retry_count (JobRow.retry_count r + 1) r)
                    jobID)) w.

(** UPDATE print_jobs SET tspl_content = ? WHERE id = ? *)
Definition updateJobTSPL (jobID : Z) (tspl : string) (w : World) : World :=
  with_db (DB.with_print_jobs (alter (JobRow.set_tspl_content tspl) jobID)) w.

(** The calendar day of an instant, the key of the daily counters. *)
Definition dayOf (t : Time) : Z := t / (86400 * Second).

(** INSERT INTO print_counters ... ON CONFLICT(printer_id, date)
    DO UPDATE SET count = count + ? *)
Definition incrementPrintCounter (printerID count : Z) (w : World) : World :=
  let '(now, w) := timeNow w in
  let key := (printerID, dayOf now) in
  with_db (DB.with_print_counters
             (λ m, <[key := match m !! key with
                            | Some c => c + count
                            | None => count
                            end]> m)) w.

Definition calculateBackoff (cfg : QueueConfig.t) (retryCount : Z) : Duration :=
  let baseDelay := QueueConfig.RetryDelay cfg in
  let baseDelay := if baseDelay =? 0 then 10 * Second else baseDelay in
  let backoff := mul64 baseDelay (shl64 1 (to_uint64 retryCount)) in
  let maxBackoff := 5 * Minute in
  if maxBackoff <? backoff then maxBackoff else backoff.

(** SELECT ... FROM print_jobs WHERE id = ?, scanned into a [Job].  The retry
    limit is not stored, so [MaxRetries] keeps its zero value; scanning a NULL
    [error_message] into a Go string is refused by database/sql. *)
Definition GetJob (id : Z) (w : World) : result Job.t :=
  match DB.print_jobs (db w) !! id with
  | None => Err ("job not found: " +:+ pretty id)
  | Some r =>
      match JobRow.error_message r with
      | None =>
          Err "failed to query job: converting NULL to string is unsupported"
      | Some msg =>
          Ok (Job.mk (JobRow.id r) (JobRow.printer_id r) (JobRow.template_id r)
                (JobRow.variables_json r) (JobRow.tspl_content r)
                (JobRow.status r) (JobRow.priority r) (JobRow.retry_count r)
                0 (JobRow.copies r) msg (JobRow.submitted_by r)
                (JobRow.created_at r) (JobRow.started_at r)
                (JobRow.completed_at r))
      end
  end.

Definition retryJob (jobID : Z) (w : World) : World :=
  let w := updateJobStatus jobID JobStatusPending "" None None w in
  fst (offer jobID w).

Definition handleJobFailure (job : Job.t) (errMsg : string) (w : World) : World :=
  if Job.RetryCount job <? Job.MaxRetries job then
    let delay := calculateBackoff (Queue.config (q w)) (Job.RetryCount job) in
    (* time.AfterFunc(delay, func() { q.retryJob(job.ID) }) *)
    let w := with_env (λ e, Env.with_timers
                              (Env.timers e ++ [(delay, Job.ID job)]) e) w in
    incrementRetryCount (Job.ID job) w
  else
    let '(now, w) := timeNow w in
    let w := updateJobStatus (Job.ID job) JobStatusFailed errMsg None (Some now) w in
    sendJobEvent "job_failed" (Job.ID job) (Job.PrinterID job) JobStatusFailed
      errMsg w.

(** The runtime running the [n]-th pending timer callback. *)
Definition fireTimer (n : nat) (w : World) : World :=
  match Env.timers (env w) !! n with
  | None => w
  | Some (_, jobID) =>
      retryJob jobID
        (with_env (λ e, Env.with_timers (delete n (Env.timers e)) e) w)
  end.

(** The second half of [processJob], from the transition to processing on:
    [job] is the record fetched at the start, with its content resolved. *)
Definition transmitJob (jobID : Z) (job : Job.t) (w : World) : World :=
  let '(now, w) := timeNow w in
  let w := updateJobStatus jobID JobStatusProcessing "" (Some now) None w in
  let w := sendJobEvent "job_started" jobID (Job.PrinterID job)
             JobStatusProcessing "" w in
  if negb (Queue.printerManager (q w)) then
    handleJobFailure job "printer manager not configured" w
  else
    let w := with_env (λ e, Env.with_pm_calls
               (Env.pm_calls e ++
                  [CallPrint (Job.PrinterID job) (Job.TSPLContent job)
                     (Job.Copies job)]) e) w in
    match Print (Job.PrinterID job) (Job.TSPLContent job) (Job.Copies job) w with
    | (w, Some err) => handleJobFailure job err w
    | (w, None) =>
        let '(now, w) := timeNow w in
        let w := updateJobStatus jobID JobStatusCompleted "" None (Some now) w in
        let w := sendJobEvent "job_completed" jobID (Job.PrinterID job)
                   JobStatusCompleted "" w in
        (* q.printerManager.IncrementPrintCount(job.PrinterID, job.Copies):
           a call through the interface, made like the webhook calls to a
           collaborator; no type of the sources has this method, so the call
           is recorded and no effect on the state is attributed to it *)
        let w := with_env (λ e, Env.with_pm_calls
                   (Env.pm_calls e ++
                      [CallIncrementPrintCount (Job.PrinterID job)
                         (Job.Copies job)]) e) w in
        incrementPrintCounter (Job.PrinterID job) (Job.Copies job) w
    end.

Definition processJob (jobID : Z) (w : World) : World :=
  match GetJob jobID w with
  | Err _ => w
  | Ok job =>
      if negb (String.eqb (Job.Status job) JobStatusPending) then w
      else if printerPaused (Job.PrinterID job) w then
        updateJobStatus jobID JobStatusPaused "" None None w
      else
        match Queue.tsplGenerator (q w) with
        | Some generate =>
            if String.eqb (Job.TSPLContent job) "" then
              match generate (Job.TemplateID job) (Job.VariablesJSON job) with
              | Err e =>
                  handleJobFailure job ("TSPL generation failed: " +:+ e) w
              | Ok tspl =>
                  transmitJob jobID (Job.with_TSPLContent tspl job)
                    (updateJobTSPL jobID tspl w)
              end
            else transmitJob jobID job w
        | None => transmitJob jobID job w
        end
  end.

Definition Enqueue (job : Job.t) (w : World) : World * Job.t * result Z :=
  let job := if Job.MaxRetries job =? 0
             then Job.with_MaxRetries (QueueConfig.MaxRetries (Queue.config (q w))) job
             else job in
  let job := if String.eqb (Job.Status job) ""
             then Job.with_Status JobStatusPending job else job in
  (* INSERT INTO print_jobs (printer_id, template_id, variables_json,
     tspl_content, status, priority, copies, submitted_by) VALUES (...) *)
  if negb (JobRow.status_allowed (Job.Status job)) then
    (w, job, Err "failed to insert job: CHECK constraint failed: status")
  else
    let jobID := DB.print_jobs_seq (db w) + 1 in
    let '(stamp, w) := timeNow w in
    let row := JobRow.mk jobID (Job.PrinterID job) (Job.TemplateID job)
                 (Job.VariablesJSON job) (Job.TSPLContent job) (Job.Status job)
                 (Job.Priority job) 0 None (Job.Copies job) (Job.SubmittedBy job)
                 stamp None None in
    let w := with_db (λ d, DB.with_print_jobs_seq jobID
                             (DB.with_print_jobs <[jobID := row]> d)) w in
    let w := fst (offer jobID w) in
    (w, job, Ok jobID).

(** UPDATE print_jobs SET status = 'cancelled', completed_at = CURRENT_TIMESTAMP
    WHERE id = ? AND status IN ('pending', 'paused') *)
Definition CancelJob (id : Z) (w : World) : World * option error :=
  match DB.print_jobs (db w) !! id with
  | Some r =>
      if String.eqb (JobRow.status r) "pending"
         || String.eqb (JobRow.status r) "paused" then
        let '(stamp, w) := timeNow w in
        (with_db (DB.with_print_jobs
                    <[id := JobRow.set_status_completed "cancelled" (Some stamp) r]>)
           w, None)
      else (w, Some "job cannot be cancelled (not in pending/paused state)")
  | None => (w, Some "job cannot be cancelled (not in pending/paused state)")
  end.

(** UPDATE print_jobs SET status = 'paused'
    WHERE id = ? AND status IN ('pending', 'processing') *)
Definition PauseJob (id : Z) (w : World) : World * option error :=
  match DB.print_jobs (db w) !! id with
  | Some r =>
      if String.eqb (JobRow.status r) "pending"
         || String.eqb (JobRow.status r) "processing" then
        (with_db (DB.with_print_jobs <[id := JobRow.set_status "paused" r]>) w,
         None)
      else (w, Some "job cannot be paused")
  | None => (w, Some "job cannot be paused")
  end.

Definition RetryJob (id : Z) (w : World) : World * option error :=
  match GetJob id w with
  | Err e => (w, Some e)
  | Ok job =>
      if negb (String.eqb (Job.Status job) JobStatusFailed) then
        (w, Some "only failed jobs can be retried")
      else
        (* UPDATE print_jobs SET status = 'pending', retry_count = 0,
           error_message = '', started_at = NULL, completed_at = NULL
           WHERE id = ? *)
        let w := with_db (DB.with_print_jobs
                   (alter (λ r, JobRow.set_retry_count 0
                                  (JobRow.set_status_fields "pending" (Some "")
                                     None None r)) id)) w in
        (fst (offer id w), None)
  end.

Definition ReprintJob (id : Z) (w : World) : World * result Z :=
  match GetJob id w with
  | Err e => (w, Err e)
  | Ok job =>
      let newJob := Job.mk 0 (Job.PrinterID job) (Job.TemplateID job)
                      (Job.VariablesJSON job) (Job.TSPLContent job)
                      JobStatusPending (Job.Priority job) 0 (Job.MaxRetries job)
                      (Job.Copies job) "" (Job.SubmittedBy job) 0 None None in
      let '(w, _, r) := Enqueue newJob w in
      (w, r)
  end.

Definition ResumeJob (id : Z) (w : World) : World * option error :=
  match GetJob id w with
  | Err e => (w, Some e)
  | Ok job =>
      if negb (String.eqb (Job.Status job) JobStatusPaused) then
        (w, Some "only paused jobs can be resumed")
      else if printerPaused (Job.PrinterID job) w then
        (w, Some "printer is paused, resume printer first")
      else
        let w := updateJobStatus id JobStatusPending "" None None w in
        (fst (offer id w), None)
  end.

(** *** Queries over [print_jobs] *)

Definition by_id (a b : Z * JobRow.t) : Prop := a.1 ≤ b.1.

(** ORDER BY priority DESC, created_at ASC *)
Definition dispatch_before (a b : Z * JobRow.t) : Prop :=
  JobRow.priority b.2 < JobRow.priority a.2
  ∨ (JobRow.priority a.2 = JobRow.priority b.2
     ∧ JobRow.created_at a.2 ≤ JobRow.created_at b.2).

#[local] Instance by_id_dec a b : Decision (by_id a b).
Proof. unfold by_id. apply _. Defined.

#[local] Instance dispatch_before_dec a b : Decision (dispatch_before a b).
Proof. unfold dispatch_before. apply _. Defined.

(** The rows satisfying [cond], in rowid order. *)
Definition selectWhere (cond : JobRow.t → bool) (d : DB.t) : list (Z * JobRow.t) :=
  filter (λ kr, cond kr.2 = true)
    (merge_sort by_id (map_to_list (DB.print_jobs d))).

(** SELECT id FROM print_jobs WHERE status = 'pending'
    ORDER BY priority DESC, created_at ASC *)
Definition selectPending (d : DB.t) : list Z :=
  (merge_sort dispatch_before
     (selectWhere (λ r, String.eqb (JobRow.status r) "pending") d)).*1.

(** *** Start-up, dispatch, workers *)

(** What [Start] does that other threads can observe, in program order. *)
Inductive Action :=
  | ActResetProcessing
  | ActSelectPending
  | ActOffer (id : Z) (accepted : bool)
  | ActGo (g : Goroutine).

(** [for rows.Next() { ... select { case q.jobCh <- jobID: default: } }] *)
Fixpoint offerAll (ids : list Z) (w : World) : World * list Action :=
  match ids with
  | [] => (w, [])
  | id :: rest =>
      let '(w, accepted) := offer id w in
      let '(w, acts) := offerAll rest w in
      (w, ActOffer id accepted :: acts)
  end.

(** UPDATE print_jobs SET status = 'pending' WHERE status = 'processing' *)
Definition resetProcessing (w : World) : World :=
  with_db (DB.with_print_jobs
             (fmap (λ r, if String.eqb (JobRow.status r) "processing"
                         then JobRow.set_status "pending" r else r))) w.

Definition recoverJobs (w : World) : World * option error * list Action :=
  let w := resetProcessing w in
  let ids := selectPending (db w) in
  let '(w, offers) := offerAll ids w in
  (w, None, ActResetProcessing :: ActSelectPending :: offers).

Definition go (g : Goroutine) (w : World) : World :=
  with_env (λ e, Env.with_goroutines (Env.goroutines e ++ [g]) e) w.

(** [for i := 0; i < q.workers; i++ { go q.worker(i) }] *)
Definition workerGoroutines (workers : Z) : list Goroutine :=
  (λ i, GoWorker (Z.of_nat i)) <$> seq 0 (Z.to_nat workers).

Definition Start (w : World) : World * option error * list Action :=
  if Queue.running (q w) then (w, None, [])
  else
    let w := with_q (Queue.with_running true) w in
    match recoverJobs w with
    | (w, Some err, acts) => (w, Some ("failed to recover jobs: " +:+ err), acts)
    | (w, None, acts) =>
        let gs := (workerGoroutines (Queue.workers (q w)) ++ [GoDispatcher])%list in
        (foldl (λ w g, go g w) w gs, None, (acts ++ (ActGo <$> gs))%list)
    end.

(** [Stop]: closing [stopCh] a second time panics ([None]); the channel is
    made once, in [NewQueue], and never replaced. *)
Definition Stop (w : World) : option World :=
  if Queue.running (q w) then
    let w := with_q (Queue.with_running false) w in
    if Queue.stopCh_closed (q w) then None
    else Some (with_q (Queue.with_stopCh_closed true) w)
  else Some w.

(** [select { case q.jobCh <- jobID: default: return }] over the batch *)
Fixpoint offerUntilFull (ids : list Z) (w : World) : World :=
  match ids with
  | [] => w
  | id :: rest =>
      match offer id w with
      | (w, true) => offerUntilFull rest w
      | (w, false) => w
      end
  end.

(** One tick of the dispatcher: the query has LIMIT 100. *)
Definition enqueuePendingJobs (w : World) : World :=
  offerUntilFull (take 100 (selectPending (db w))) w.

(** A worker receiving from [jobCh]. *)
Definition workerReceive (w : World) : World :=
  match Queue.jobCh (q w) with
  | [] => w
  | jobID :: rest => processJob jobID (with_q (Queue.with_jobCh rest) w)
  end.

Definition PausePrinter (printerID : Z) (w : World) : World * option error :=
  let w := with_q (Queue.with_pausedPrinters <[printerID := true]>) w in
  (* UPDATE print_jobs SET status = 'paused'
     WHERE printer_id = ? AND status = 'pending' *)
  (with_db (DB.with_print_jobs
              (fmap (λ r, if (JobRow.printer_id r =? printerID)
                             && String.eqb (JobRow.status r) "pending"
                          then JobRow.set_status "paused" r else r))) w,
   None).

Definition ResumePrinter (printerID : Z) (w : World) : World * option error :=
  let w := with_q (Queue.with_pausedPrinters (delete printerID)) w in
  let jobIDs := (selectWhere (λ r, (JobRow.printer_id r =? printerID)
                                   && String.eqb (JobRow.status r) "paused")
                   (db w)).*1 in
  (foldl (λ w id, fst (offer id (updateJobStatus id JobStatusPending "" None None w)))
     w jobIDs, None).

(** ** The specified backoff *)

(** The delay the specification states: [min(base_delay * 2^n, 5min)] with
    the base delay defaulting to ten seconds. *)
Definition effectiveBaseDelay (cfg : QueueConfig.t) : Duration :=
  if QueueConfig.RetryDelay cfg =? 0 then 10 * Second
  else QueueConfig.RetryDelay cfg.

Definition specifiedBackoff (cfg : QueueConfig.t) (n : Z) : Duration :=
  Z.min (effectiveBaseDelay cfg * 2 ^ n) (5 * Minute).

Definition defaultQueueConfig : QueueConfig.t :=
  QueueConfig.mk 3 (10 * Second) 2.

(** ** The lifetime print counter of a printer, in the registry and in the store *)

Definition lifetime (printerID : Z) (w : World) : option Z :=
  Printer.TotalPrints <$> PrinterManager.printers (pm w) !! printerID.

Definition lifetime_persisted (printerID : Z) (w : World) : option Z :=
  PrinterRow.total_prints <$> DB.printers (db w) !! printerID.

(** ** A small installation used in the examples below

    One printer (id 7) whose lifetime counter stands at 40, an empty job
    table, the default queue configuration, a codec that knows template 1,
    and a device that accepts one dial and answers the poll with "@@@@". *)

Definition exampleGenerator (templateID : Z) (variablesJSON : string)
    : result string :=
  if templateID =? 1 then Ok "PRINT 1" else Err "template not found".

Definition exampleQueue : Queue.t :=
  NewQueue true (Some exampleGenerator) true None.

Definition examplePrinter : Printer.t :=
  Printer.mk 7 "dock" "10.0.0.7" 9100 203 "online" None 40.

Definition exampleDB : DB.t :=
  DB.mk ∅ 0 {[ 7 := PrinterRow.mk "online" None 40 ]} ∅.

Definition exampleEnv : Env.t :=
  Env.mk (λ n, 1000 + Z.of_nat n) 0
    [None] [None; None]
    [(["@"%byte; "@"%byte; "@"%byte; "@"%byte], None)]
    [] [] [] [] [] [].

Definition exampleWorld : World :=
  mkWorld exampleDB exampleQueue
    (PrinterManager.mk {[ 7 := examplePrinter ]} ∅ true) exampleEnv.

(** A submission with priority 5 and two copies, as the HTTP handler builds
    it. *)
Definition exampleJob : Job.t :=
  Job.mk 0 7 1 "{}" "" JobStatusPending 5 0 0 2 "" "10.0.0.1" 0 None None.

(** The same submission with a zero copy count. *)
Definition zeroCopiesJob : Job.t :=
  Job.mk 0 7 1 "{}" "" JobStatusPending 5 0 0 0 "" "10.0.0.1" 0 None None.

(** The job has been submitted, its printer paused and resumed: the job is
    pending again, with an empty error message. *)
Definition submittedWorld : World :=
  let w := (Enqueue exampleJob exampleWorld).1.1 in
  let w := (PausePrinter 7 w).1 in
  (ResumePrinter 7 w).1.

Definition pendingRow : JobRow.t :=
  JobRow.mk 1 7 1 "{}" "" "pending" 5 0 (Some "") 2 "10.0.0.1" 1000 None None.

Definition pausedRow : JobRow.t := JobRow.set_status "paused" pendingRow.

Definition processingRow : JobRow.t :=
  JobRow.set_status_fields "processing" (Some "") (Some 2000) None pendingRow.

(** The job paused by the operator; its printer is not paused. *)
Definition pausedJobWorld : World := (PauseJob 1 submittedWorld).1.

(** The job claimed by a worker. *)
Definition processingWorld : World :=
  updateJobStatus 1 JobStatusProcessing "" (Some 2000) None submittedWorld.

(** The job as a caller with a retry limit of 3 hands it to the failure
    handler. *)
Definition retryableJob : Job.t :=
  Job.mk 1 7 1 "{}" "" JobStatusPending 5 0 3 2 "" "10.0.0.1" 1000 None None.

(** A first failure with retries left: a timer is armed. *)
Definition backoffWorld : World :=
  handleJobFailure retryableJob "printer is offline" processingWorld.

(** During the backoff the job is paused and then cancelled. *)
Definition cancelledDuringBackoff : World :=
  (CancelJob 1 (PauseJob 1 backoffWorld).1).1.

(** A crashed run left the job processing; the scheduler is not running. *)
Definition crashedWorld : World := processingWorld.

(** What polling and transmitting leave alone: the lifetime counters, the job
    table, the scheduler object and the record of calls made through
    [PrinterManagerInterface]. *)
Record pm_frame (w w' : World) : Prop := mk_pm_frame {
  frame_lifetime : ∀ id, lifetime id w' = lifetime id w;
  frame_persisted : ∀ id, lifetime_persisted id w' = lifetime_persisted id w;
  frame_jobs : DB.print_jobs (db w') = DB.print_jobs (db w);
  frame_q : q w' = q w;
  frame_calls : Env.pm_calls (env w') = Env.pm_calls (env w);
  frame_timers : Env.timers (env w') = Env.timers (env w)
}.

(** ** The scenario of a successful print *)



(** ** Further operations of the scheduler *)

(** The pending rows in dispatch order; [selectPending] lists their keys. *)
Definition selectPendingRows (d : DB.t) : list (Z * JobRow.t) :=
  merge_sort dispatch_before
    (selectWhere (λ r, String.eqb (JobRow.status r) "pending") d).

(** [Dequeue]: inside one transaction, SELECT ... WHERE status = 'pending'
    ORDER BY priority DESC, created_at ASC LIMIT 1, then
    UPDATE print_jobs SET status = 'processing', started_at = ? WHERE id = ?.
    No row gives [(nil, nil)]; a row that cannot be scanned rolls back. *)
Definition Dequeue (w : World) : World * result (option Job.t) :=
  match selectPendingRows (db w) with
  | [] => (w, Ok None)
  | (_, r) :: _ =>
      match JobRow.error_message r with
      | None =>
          (w, Err "failed to query job: converting NULL to string is unsupported")
      | Some msg =>
          let '(now, w) := timeNow w in
          let w := with_db (DB.with_print_jobs
                     (alter (λ r, JobRow.set_status_fields "processing"
                                    (JobRow.error_message r) (Some now)
                                    (JobRow.completed_at r) r)
                            (JobRow.id r))) w in
          (w, Ok (Some (Job.mk (JobRow.id r) (JobRow.printer_id r)
                          (JobRow.template_id r) (JobRow.variables_json r)
                          (JobRow.tspl_content r) JobStatusProcessing
                          (JobRow.priority r) (JobRow.retry_count r) 0
                          (JobRow.copies r) msg (JobRow.submitted_by r)
                          (JobRow.created_at r) (Some now)
                          (JobRow.completed_at r))))
      end
  end.

(** SELECT COUNT( * ) FROM print_jobs WHERE status = ? *)
Definition CountByStatus (status : JobStatus) (w : World) : Z :=
  Z.of_nat (length (selectWhere (λ r, String.eqb (JobRow.status r) status) (db w))).

Module QueueStats.
Record t := mk {
  Pending : Z;
  Processing : Z;
  Completed : Z;
  Failed : Z;
  Paused : Z;
  Cancelled : Z;
  Total : Z
}.

Definition zero : t := mk 0 0 0 0 0 0 0.
End QueueStats.

(** One more row of status [s] in the groups of GROUP BY status. *)
Fixpoint bump (s : string) (groups : list (string * Z)) : list (string * Z) :=
  match groups with
  | [] => [(s, 1)]
  | (s', n) :: rest =>
      if String.eqb s s' then (s', n + 1) :: rest else (s', n) :: bump s rest
  end.

(** SELECT status, COUNT( * ) FROM print_jobs GROUP BY status *)
Definition groupByStatus (d : DB.t) : list (string * Z) :=
  foldr (λ kr groups, bump (JobRow.status kr.2) groups) []
    (selectWhere (λ _, true) d).

(** The body of the loop of [GetStats] for one group. *)
Definition addGroup (stats : QueueStats.t) (group : string * Z) : QueueStats.t :=
  let '(status, count) := group in
  let total := QueueStats.Total stats + count in
  let '(QueueStats.mk pe pr co fa pa ca _) := stats in
  if String.eqb status JobStatusPending then QueueStats.mk count pr co fa pa ca total
  else if String.eqb status JobStatusProcessing then QueueStats.mk pe count co fa pa ca total
  else if String.eqb status JobStatusCompleted then QueueStats.mk pe pr count fa pa ca total
  else if String.eqb status JobStatusFailed then QueueStats.mk pe pr co count pa ca total
  else if String.eqb status JobStatusPaused then QueueStats.mk pe pr co fa count ca total
  else if String.eqb status JobStatusCancelled then QueueStats.mk pe pr co fa pa count total
  else QueueStats.mk pe pr co fa pa ca total.

Definition GetStats (w : World) : QueueStats.t :=
  foldl addGroup QueueStats.zero (groupByStatus (db w)).

Definition IsPrinterPaused (printerID : Z) (w : World) : bool :=
  printerPaused printerID w.

(** The keys of [pausedPrinters]; Go leaves their order open, here it is
    ascending. *)
Definition GetPausedPrinters (w : World) : list Z :=
  merge_sort Z.le (map_to_list (Queue.pausedPrinters (q w))).*1.

(** ** Further operations of the printer manager *)

Module Manager.

(** UPDATE printers SET status = ?, last_seen_at = CURRENT_TIMESTAMP
    WHERE id = ?, with the result discarded, as [PausePrinter] and
    [ResumePrinter] issue it. *)
Definition setStatus (id : Z) (status : string) (w : World)
    : World * option error :=
  match PrinterManager.printers (pm w) !! id with
  | None => (w, Some ErrPrinterNotFound)
  | Some p =>
      let oldStatus := Printer.Status p in
      let w := with_pm (PrinterManager.with_printers
                 <[id := Printer.with_Status status (Printer.LastSeenAt p) p]>) w in
      let '(stamp, w) := timeNow w in
      let w :=
        if PrinterRow.status_allowed status then
          with_db (DB.with_printers
                     (alter (λ r, PrinterRow.mk status (Some stamp)
                                    (PrinterRow.total_prints r)) id)) w
        else w in
      let w :=
        if negb (String.eqb oldStatus status)
           && PrinterManager.webhookSender (pm w) then
          with_env (λ e, Env.with_status_changes
                           (Env.status_changes e ++
                              [mkStatusChange id (Printer.Name p) oldStatus status])
                           e) w
        else w in
      (w, None)
  end.

Definition PausePrinter (id : Z) (w : World) : World * option error :=
  setStatus id "paused" w.

Definition ResumePrinter (id : Z) (w : World) : World * option error :=
  setStatus id "online" w.

(** [RemovePrinter]: the cached connection is dropped before the registry is
    consulted; DELETE FROM printers WHERE id = ?. *)
Definition RemovePrinter (id : Z) (w : World) : World * option error :=
  let w := with_pm (PrinterManager.with_connections (λ c, c ∖ {[id]})) w in
  match PrinterManager.printers (pm w) !! id with
  | None => (w, Some ErrPrinterNotFound)
  | Some _ =>
      let w := with_db (DB.with_printers (delete id)) w in
      (with_pm (PrinterManager.with_printers (delete id)) w, None)
  end.

End Manager.

(** ** The label codec (package core, TSPL2Generator) *)

Module VariableDef.
Record t := mk {
  Type_ : string;
  Required : bool;
  Default : string
}.
End VariableDef.

(** [!provided || value == ""] *)
Definition notProvided (variables : gmap string string) (name : string) : bool :=
  match variables !! name with
  | Some value => String.eqb value ""
  | None => true
  end.

(** [ValidateVariables], over the variable definitions of the schema.  Go
    visits the map in no fixed order; the first definition found wanting gives
    the error. *)
Definition ValidateVariables (schemaVariables : gmap string VariableDef.t)
    (variables : gmap string string) : option error :=
  match filter (λ nd : string * VariableDef.t,
                  notProvided variables nd.1 = true
                  ∧ VariableDef.Required nd.2 = true
                  ∧ VariableDef.Default nd.2 = "")
               (map_to_list schemaVariables) with
  | [] => None
  | (name, _) :: _ => Some ("required variable '" +:+ name +:+ "' is missing")
  end.

(** [MergeVariablesWithDefaults]: the non-empty defaults first, then every
    given value over them. *)
Definition MergeVariablesWithDefaults (schemaVariables : gmap string VariableDef.t)
    (variables : gmap string string) : gmap string string :=
  variables ∪ (VariableDef.Default <$>
                 filter (λ nd : string * VariableDef.t,
                           VariableDef.Default nd.2 ≠ "") schemaVariables).

(** [GetRequiredVariables], as a set: the order of the slice is that of the
    map iteration. *)
Definition GetRequiredVariables (schemaVariables : gmap string VariableDef.t)
    : list string :=
  (filter (λ nd : string * VariableDef.t, VariableDef.Required nd.2 = true)
     (map_to_list schemaVariables)).*1.

(** [strings.ReplaceAll(s, old, new)] for a pattern of one byte. *)
Fixpoint replaceAllByte (old : ascii) (new : string) (s : string) : string :=
  match s with
  | EmptyString => EmptyString
  | String c rest =>
      if Ascii.eqb c old then new +:+ replaceAllByte old new rest
      else String c (replaceAllByte old new rest)
  end.

Definition backslash : ascii := ascii_of_nat 92.
Definition quote : ascii := ascii_of_nat 34.
Definition LF : ascii := ascii_of_nat 10.
Definition CR : ascii := ascii_of_nat 13.
Definition TAB : ascii := ascii_of_nat 9.

Definition escapeTSPLString (s : string) : string :=
  let s := replaceAllByte backslash (String backslash (String backslash "")) s in
  let s := replaceAllByte quote (String backslash (String quote "")) s in
  let s := replaceAllByte LF (String backslash "n") s in
  let s := replaceAllByte CR (String backslash "r") s in
  let s := replaceAllByte TAB (String backslash "t") s in
  s.

(** Reading an escaped string back: a backslash announces an escaped byte. *)
Fixpoint unescapeTSPLString (s : string) : string :=
  match s with
  | EmptyString => EmptyString
  | String c rest =>
      if Ascii.eqb c backslash then
        match rest with
        | EmptyString => String c EmptyString
        | String d rest' =>
            let decoded :=
              if Ascii.eqb d "n" then LF
              else if Ascii.eqb d "r" then CR
              else if Ascii.eqb d "t" then TAB
              else d in
            String decoded (unescapeTSPLString rest')
        end
      else String c (unescapeTSPLString rest)
  end.

(** ** Vocabulary of the further properties *)

(** [n] copies of a label, joined by CR LF. *)
Fixpoint joinedCopies (n : nat) (tspl : string) : string :=
  match n with
  | O => ""
  | S O => tspl
  | S n => tspl +:+ CRLF +:+ joinedCopies n tspl
  end.

Definition registryStatus (id : Z) (w : World) : option string :=
  Printer.Status <$> PrinterManager.printers (pm w) !! id.

Definition storedStatus (id : Z) (w : World) : option string :=
  PrinterRow.status <$> DB.printers (db w) !! id.

(** No connection is cached for a printer that is not registered. *)
Definition connections_registered (w : World) : Prop :=
  ∀ id, id ∈ PrinterManager.connections (pm w) →
        is_Some (PrinterManager.printers (pm w) !! id).

(** The channel holds no more identifiers than its capacity. *)
Definition channel_bounded (w : World) : Prop :=
  (length (Queue.jobCh (q w)) ≤ jobChCapacity)%nat.

(** Every row is stored under its own identifier, and no identifier is
    beyond the last one handed out. *)
Definition jobs_wf (w : World) : Prop :=
  ∀ id r, jobRow id w = Some r →
          JobRow.id r = id ∧ id ≤ DB.print_jobs_seq (db w).

(** How a poll of printer [id] ends: in a state [w0] that still has the
    registry and the store of the start, the status [st] is recorded; the
    decoded status [s] is returned, online with [st] its composite when there
    is no error, and not online with [st] offline or error otherwise. *)
Definition poll_shape (id : Z) (w : World)
    (r : World * option PrinterStatus.t * option error) : Prop :=
  ∃ w0 s st,
    PrinterManager.printers (pm w0) = PrinterManager.printers (pm w)
    ∧ db w0 = db w
    ∧ r.1.1 = updatePrinterStatus id st w0
    ∧ r.1.2 = Some s
    ∧ match r.2 with
      | None =>
          PrinterStatus.IsOnline s = true
          ∧ PrinterStatus.CanPrint s
            = canPrintState (PrinterStatus.PrinterState s)
          ∧ st = determineStatusString s
      | Some _ =>
          PrinterStatus.IsOnline s = false
          ∧ PrinterStatus.CanPrint s = false
          ∧ (st = "offline" ∨ st = "error")
      end.

(** What polling and transmitting do to the registry and the connection
    cache, at most: the same printers stay registered, and a connection that
    was not cached before belongs to a registered printer. *)
Definition pm_step (w w' : World) : Prop :=
  (∀ id, is_Some (PrinterManager.printers (pm w) !! id)
         ↔ is_Some (PrinterManager.printers (pm w') !! id))
  ∧ (∀ id, id ∈ PrinterManager.connections (pm w') →
           id ∈ PrinterManager.connections (pm w)
           ∨ is_Some (PrinterManager.printers (pm w) !! id)).

(** ** Further states of the example installation *)

(** The device is printing: it answers the poll with "F@@@". *)
Definition feedingWorld : World :=
  with_env (Env.with_reads [(["F"%byte; "@"%byte; "@"%byte; "@"%byte], None)])
    exampleWorld.

(** The device refuses the connection. *)
Definition unreachableWorld : World :=
  with_env (Env.with_dials [Some "connection refused"]) exampleWorld.

(** The field of the statistics that belongs to a status. *)
Definition statField (status : string) (stats : QueueStats.t) : Z :=
  if String.eqb status JobStatusPending then QueueStats.Pending stats
  else if String.eqb status JobStatusProcessing then QueueStats.Processing stats
  else if String.eqb status JobStatusCompleted then QueueStats.Completed stats
  else if String.eqb status JobStatusFailed then QueueStats.Failed stats
  else if String.eqb status JobStatusPaused then QueueStats.Paused stats
  else if String.eqb status JobStatusCancelled then QueueStats.Cancelled stats
  else 0.

Definition jobStatuses : list string :=
  [JobStatusPending; JobStatusProcessing; JobStatusCompleted; JobStatusFailed;
   JobStatusPaused; JobStatusCancelled].

(** The count that the groups give for a status, and their sum. *)
Definition groupCount (status : string) (groups : list (string * Z)) : Z :=
  foldr (λ g acc, if String.eqb g.1 status then g.2 + acc else acc) 0 groups.

Definition groupTotal (groups : list (string * Z)) : Z :=
  foldr (λ g acc, g.2 + acc) 0 groups.

(** The number of rows of a status in a list of rows. *)
Definition countStatus (status : string) (rows : list (Z * JobRow.t)) : Z :=
  Z.of_nat (length (filter (λ kr : Z * JobRow.t,
                              String.eqb (JobRow.status kr.2) status = true) rows)).

(** Every flag kept in [pausedPrinters] is [true]. *)
Definition paused_flags_true (w : World) : Prop :=
  ∀ id b, Queue.pausedPrinters (q w) !! id = Some b → b = true.

(** What one byte of the input becomes in the escaped string, and the
    escaping byte by byte. *)
Definition escapedByte (c : ascii) : string :=
  if Ascii.eqb c backslash then String backslash (String backslash "")
  else if Ascii.eqb c quote then String backslash (String quote "")
  else if Ascii.eqb c LF then String backslash "n"
  else if Ascii.eqb c CR then String backslash "r"
  else if Ascii.eqb c TAB then String backslash "t"
  else String c "".

Fixpoint escapeBytes (s : string) : string :=
  match s with
  | EmptyString => EmptyString
  | String c rest => escapedByte c +:+ escapeBytes rest
  end.

(** The byte [c] occurs in [s]. *)
Fixpoint occurs (c : ascii) (s : string) : bool :=
  match s with
  | EmptyString => false
  | String d rest => Ascii.eqb d c || occurs c rest
  end.

(** The definition of [name] asks for a value that [variables] do not give. *)
Definition wanting (schemaVariables : gmap string VariableDef.t)
    (variables : gmap string string) (name : string) : Prop :=
  ∃ def, schemaVariables !! name = Some def
         ∧ VariableDef.Required def = true
         ∧ VariableDef.Default def = ""
         ∧ notProvided variables name = true.

(** The job failed for good. *)
Definition failedRow : JobRow.t :=
  JobRow.set_status_fields "failed" (Some "printer is offline") (Some 2000)
    (Some 3000) pendingRow.

Definition failedWorld : World :=
  updateJobStatus 1 JobStatusFailed "printer is offline" (Some 2000) (Some 3000)
    submittedWorld.

(** The printer is paused while the failed job is retried: the job is pending
    on a paused printer. *)
Definition parkedWorld : World := (RetryJob 1 (PausePrinter 7 failedWorld).1).1.

(** The scheduler of the example installation, started. *)
Definition runningWorld : World := (Start exampleWorld).1.1.

(** From [w] to [w'] no row has appeared or changed its identifier, and the
    AUTOINCREMENT counter of the job table is the same. *)
Definition ids_kept (w w' : World) : Prop :=
  DB.print_jobs_seq (db w') = DB.print_jobs_seq (db w)
  ∧ ∀ id r', jobRow id w' = Some r' →
             ∃ r, jobRow id w = Some r ∧ JobRow.id r' = JobRow.id r.

(** ** Start-up among the goroutines

    [Start] runs on the thread of its caller while the goroutines it has
    launched, and the retry timers, run beside it.  Here the statements of
    [Start] and [recoverJobs] that touch the shared state are taken one at a
    time, in the order of the source; between any two of them a launched
    goroutine or an armed timer may take a turn. *)

(** The UPDATE that resets, the SELECT of the pending jobs, one non-blocking
    send for each selected row, one [go] statement for each goroutine. *)
Inductive StartStmt :=
  | StmtResetProcessing
  | StmtSelectPending
  | StmtOffer (id : Z)
  | StmtGo (g : Goroutine).

(** What is left of [Start] once [running] is set: [recoverJobs], then the
    [go] statements. *)
Definition startBody (w : World) : list StartStmt :=
  StmtResetProcessing :: StmtSelectPending
  :: (StmtGo <$> (workerGoroutines (Queue.workers (q w)) ++ [GoDispatcher])%list).

(** One statement, with the statements that follow it; the SELECT leaves the
    sends of its rows to be done next. *)
Definition stmtStep (s : StartStmt) (w : World) (rest : list StartStmt)
    : World * list StartStmt :=
  match s with
  | StmtResetProcessing => (resetProcessing w, rest)
  | StmtSelectPending =>
      (w, ((StmtOffer <$> selectPending (db w)) ++ rest)%list)
  | StmtOffer id => ((offer id w).1, rest)
  | StmtGo g => (go g w, rest)
  end.

(** One turn of a launched goroutine: a worker receives from the channel and
    processes the job, the dispatcher makes a sweep. *)
Definition goroutineTurn (g : Goroutine) (w : World) : World :=
  match g with
  | GoWorker _ => workerReceive w
  | GoDispatcher => enqueuePendingJobs w
  end.

(** A step of the system while [Start] is under way. *)
Inductive startStep : World * list StartStmt → World * list StartStmt → Prop :=
  | step_stmt s rest w :
      startStep (w, s :: rest) (stmtStep s w rest)
  | step_goroutine g w rest :
      g ∈ Env.goroutines (env w) →
      startStep (w, rest) (goroutineTurn g w, rest)
  | step_timer n w rest :
      startStep (w, rest) (fireTimer n w, rest).

(** * Properties *)

(** ** Device status decoding *)

Lemma eqb_bool_decide (a b : string) : String.eqb a b = bool_decide (a = b).
Proof.
  destruct (String.eqb_spec a b) as [->|Hne].
  - by rewrite bool_decide_eq_true_2.
  - by rewrite bool_decide_eq_false_2.
Qed.

Lemma parseStatus_four b0 b1 b2 b3 :
  parseStatus [b0; b1; b2; b3]
  = Some (PrinterStatus.mk (b0, b1, b2, b3)
            (default "unknown" (printerStateMap b0))
            (default "unknown" (warningMap b1))
            (default "unknown" (errorMap b2))
            (default "unknown" (mediaErrorMap b3)) false false 0).
Proof. reflexivity. Qed.

Lemma errorMap_none b : default "unknown" (errorMap b) = "none" ↔ b = "@"%byte.
Proof. split; [destruct b; simpl; congruence | by intros ->]. Qed.

(** C5: the composite status computed by [determineStatusString] is the verdict
    of the first applicable rule in the order offline, decoded error present,
    paused state, media error present, feeding state (busy), and online when no
    rule applies. *)
Theorem determineStatusString_precedence (s : PrinterStatus.t) :
  determineStatusString s = composite_by_precedence s.
Proof.
  unfold determineStatusString, composite_by_precedence, precedence_rules,
    error_present, media_error_present.
  destruct s as [raw st wa er me online cp lc]; simpl.
  rewrite !eqb_bool_decide.
  destruct online; simpl; [|done].
  destruct (decide (st = "error")) as [->|Hst].
  - simpl. rewrite (bool_decide_eq_true_2 (_ ∨ _)); [done | by right].
  - rewrite (bool_decide_eq_false_2 (st = "error")) by done. simpl.
    destruct (decide (er = "none")) as [->|Her].
    + rewrite (bool_decide_eq_false_2 (_ ∨ _)) by (intros [?|?]; done).
      simpl. repeat case_bool_decide; simpl; try done.
    + rewrite (bool_decide_eq_false_2 (er = "none")) by done. simpl.
      rewrite (bool_decide_eq_true_2 (_ ∨ _)); [done | by left].
Qed.

(** C4, as stated, fails: with a decoded error in the third byte the composite
    status of a paused printer is "error". *)
Lemma paused_byte_composite_counterexample :
  ¬ (∀ (b1 b2 b3 : byte) (now : Time) (s : PrinterStatus.t),
       decodeResponse ["P"%byte; b1; b2; b3] now = Some s →
       PrinterStatus.PrinterState s = "paused"
       ∧ determineStatusString s = "paused").
Proof.
  intros H.
  destruct (H "@"%byte "A"%byte "@"%byte 0 _ eq_refl) as [_ Hc].
  vm_compute in Hc. discriminate Hc.
Qed.

(** C4, amended: a response whose first byte is 'P' decodes to printer-state
    "paused" whatever the other three bytes are; its composite status is
    "paused" when the error byte is '@' and "error" otherwise, whatever the
    warning and media-error bytes are. *)
Theorem paused_byte_composite (b1 b2 b3 : byte) (now : Time) :
  ∃ s, decodeResponse ["P"%byte; b1; b2; b3] now = Some s
       ∧ PrinterStatus.PrinterState s = "paused"
       ∧ determineStatusString s
         = if Byte.eqb b2 "@"%byte then "paused" else "error".
Proof.
  eexists. split; [reflexivity|]. split; [reflexivity|].
  unfold determineStatusString. simpl.
  destruct (Byte.eqb b2 "@") eqn:Hb.
  - apply Byte.byte_dec_bl in Hb. subst b2. reflexivity.
  - assert (Hne : default "unknown" (errorMap b2) ≠ "none").
    { rewrite errorMap_none. intros ->. discriminate Hb. }
    apply String.eqb_neq in Hne. rewrite Hne. reflexivity.
Qed.

(** ** Retry backoff *)

Lemma wrap64_small z : - 2 ^ 63 ≤ z < 2 ^ 63 → wrap64 z = z.
Proof.
  intros Hz. unfold wrap64.
  rewrite Z.mod_small by lia. lia.
Qed.

Lemma shl64_one_small n : 0 ≤ n < 63 → shl64 1 (to_uint64 n) = 2 ^ n.
Proof.
  intros Hn. unfold shl64, to_uint64.
  rewrite Z.mod_small by lia.
  destruct (Z.ltb_spec n 64); [|lia].
  rewrite Z.shiftl_1_l. apply wrap64_small.
  split.
  - pose proof (Z.pow_pos_nonneg 2 n). lia.
  - apply Z.pow_lt_mono_r; lia.
Qed.

(** Where nothing leaves the 64-bit range the code computes the specified
    delay. *)
Lemma calculateBackoff_in_range (cfg : QueueConfig.t) (n : Z) :
  0 ≤ n < 63 →
  - 2 ^ 63 ≤ effectiveBaseDelay cfg * 2 ^ n < 2 ^ 63 →
  calculateBackoff cfg n = specifiedBackoff cfg n.
Proof.
  intros Hn Hrange. unfold calculateBackoff, specifiedBackoff. cbv zeta.
  change (if QueueConfig.RetryDelay cfg =? 0 then 10 * Second
          else QueueConfig.RetryDelay cfg) with (effectiveBaseDelay cfg).
  rewrite shl64_one_small by done.
  unfold mul64. rewrite wrap64_small by done.
  destruct (Z.ltb_spec (5 * Minute) (effectiveBaseDelay cfg * 2 ^ n)); lia.
Qed.

(** With the default ten seconds the first thirty attempts are in range, so
    the delay is the specified one and does not decrease. *)
Lemma calculateBackoff_default_first_attempts (n : Z) :
  0 ≤ n < 30 →
  calculateBackoff defaultQueueConfig n = specifiedBackoff defaultQueueConfig n.
Proof.
  intros Hn. apply calculateBackoff_in_range; [lia|].
  change (effectiveBaseDelay defaultQueueConfig) with 10000000000.
  assert (0 < 2 ^ n) by (apply Z.pow_pos_nonneg; lia).
  assert (2 ^ n ≤ 2 ^ 29) by (apply Z.pow_le_mono_r; lia).
  change (2 ^ 29) with 536870912 in *. change (2 ^ 63) with 9223372036854775808.
  lia.
Qed.

Lemma specifiedBackoff_monotone (cfg : QueueConfig.t) (n m : Z) :
  0 ≤ effectiveBaseDelay cfg → 0 ≤ n ≤ m →
  specifiedBackoff cfg n ≤ specifiedBackoff cfg m.
Proof.
  intros Hb Hnm. unfold specifiedBackoff.
  assert (2 ^ n ≤ 2 ^ m) by (apply Z.pow_le_mono_r; lia).
  assert (effectiveBaseDelay cfg * 2 ^ n ≤ effectiveBaseDelay cfg * 2 ^ m)
    by (apply Z.mul_le_mono_nonneg_l; lia).
  lia.
Qed.

(** So the delays of the first thirty attempts do not decrease. *)
Lemma calculateBackoff_default_monotone (n m : Z) :
  0 ≤ n ≤ m → m < 30 →
  calculateBackoff defaultQueueConfig n ≤ calculateBackoff defaultQueueConfig m.
Proof.
  intros Hnm Hm.
  rewrite !calculateBackoff_default_first_attempts by lia.
  apply specifiedBackoff_monotone; [done|lia].
Qed.




(** ** Scheduler operations on single jobs *)

Lemma offer_db id w : db (offer id w).1 = db w.
Proof. unfold offer. by case_match. Qed.

Lemma offer_env id w : env (offer id w).1 = env w.
Proof. unfold offer. by case_match. Qed.

Lemma offer_pausedPrinters id w :
  Queue.pausedPrinters (q (offer id w).1) = Queue.pausedPrinters (q w).
Proof. unfold offer. by case_match. Qed.

Lemma jobRow_updateJobStatus id st msg started completed w r :
  JobRow.status_allowed st = true →
  jobRow id w = Some r →
  jobRow id (updateJobStatus id st msg started completed w)
  = Some (JobRow.set_status_fields st (Some msg) started completed r).
Proof.
  intros Hst Hr. unfold updateJobStatus, jobRow in *. rewrite Hst. simpl.
  by rewrite lookup_alter_eq, Hr.
Qed.

Lemma jobRow_updateJobStatus_ne id id' st msg started completed w :
  id ≠ id' →
  jobRow id' (updateJobStatus id st msg started completed w) = jobRow id' w.
Proof.
  intros Hne. unfold updateJobStatus, jobRow. case_match; [|done]. simpl.
  by rewrite lookup_alter_ne.
Qed.

(** C3, as stated, fails: a job submitted with a zero copy count is persisted
    with a zero copy count. *)
Lemma Enqueue_zero_copies_counterexample :
  ¬ (∀ (job : Job.t) (w w' : World) (job' : Job.t) (id : Z),
       Job.Copies job = 0 →
       Enqueue job w = (w', job', Ok id) →
       ∃ r, jobRow id w' = Some r ∧ JobRow.copies r = 1).
Proof.
  intros H.
  destruct (H zeroCopiesJob exampleWorld _ _ _ eq_refl eq_refl) as (r & Hr & Hc).
  vm_compute in Hr. injection Hr as <-. discriminate Hc.
Qed.

(** C3, amended: for every job passed to [Enqueue] with an empty or pending
    status, [Enqueue] persists the job as pending with the copy count it was
    given, unchanged (so a zero copy count is persisted as zero and a count of
    at least 1 stays at least 1), and returns the store-assigned identifier,
    which it also offers to the dispatch channel. *)
Theorem Enqueue_persists_given_copies (job : Job.t) (w : World) :
  Job.Status job = "" ∨ Job.Status job = JobStatusPending →
  ∃ w' job' r,
    let id := DB.print_jobs_seq (db w) + 1 in
    Enqueue job w = (w', job', Ok id)
    ∧ DB.print_jobs_seq (db w') = id
    ∧ jobRow id w' = Some r
    ∧ JobRow.status r = "pending"
    ∧ JobRow.copies r = Job.Copies job
    ∧ (1 ≤ Job.Copies job → 1 ≤ JobRow.copies r)
    ∧ JobRow.retry_count r = 0
    ∧ (∀ id', id' ≠ id → jobRow id' w' = jobRow id' w)
    ∧ ((length (Queue.jobCh (q w)) < jobChCapacity)%nat →
       Queue.jobCh (q w') = (Queue.jobCh (q w) ++ [id])%list).
Proof.
  intros Hst. unfold Enqueue.
  set (job1 := if Job.MaxRetries job =? 0 then _ else job).
  assert (Hst1 : Job.Status job1 = "" ∨ Job.Status job1 = JobStatusPending).
  { subst job1. by case_match. }
  set (job2 := if String.eqb (Job.Status job1) "" then _ else job1).
  assert (Hst2 : Job.Status job2 = "pending").
  { subst job2. destruct Hst1 as [H|H]; rewrite H; simpl; [reflexivity|exact H]. }
  assert (Hc : Job.Copies job2 = Job.Copies job).
  { subst job2 job1. repeat case_match; reflexivity. }
  rewrite Hst2. simpl.
  eexists _, _, _. split; [reflexivity|].
  rewrite !offer_db. simpl. unfold jobRow. rewrite !offer_db. simpl.
  split; [done|]. split; [apply lookup_insert_eq|]. simpl.
  split; [done|]. split; [done|]. split; [lia|]. split; [done|].
  split.
  - intros id' Hne. by rewrite lookup_insert_ne.
  - intros Hlen. unfold offer. simpl.
    destruct (Nat.ltb_spec (length (Queue.jobCh (q w))) jobChCapacity); [done|lia].
Qed.

Lemma Enqueue_persists_given_copies_witness :
  ∃ w' job' r,
    let id := DB.print_jobs_seq (db exampleWorld) + 1 in
    Enqueue zeroCopiesJob exampleWorld = (w', job', Ok id)
    ∧ DB.print_jobs_seq (db w') = id
    ∧ jobRow id w' = Some r
    ∧ JobRow.status r = "pending"
    ∧ JobRow.copies r = Job.Copies zeroCopiesJob
    ∧ (1 ≤ Job.Copies zeroCopiesJob → 1 ≤ JobRow.copies r)
    ∧ JobRow.retry_count r = 0
    ∧ (∀ id', id' ≠ id → jobRow id' w' = jobRow id' exampleWorld)
    ∧ ((length (Queue.jobCh (q exampleWorld)) < jobChCapacity)%nat →
       Queue.jobCh (q w') = (Queue.jobCh (q exampleWorld) ++ [id])%list).
Proof.
  apply (Enqueue_persists_given_copies zeroCopiesJob exampleWorld).
  right. reflexivity.
Defined.

Lemma eqb_or_true (s a b : string) :
  String.eqb s a || String.eqb s b = true ↔ s = a ∨ s = b.
Proof.
  rewrite orb_true_iff, !String.eqb_eq. tauto.
Qed.

(** C6: for a job that exists, [CancelJob] succeeds exactly when its status is
    pending or paused; then the row gets status cancelled and the current
    timestamp as completion time, nothing else changing; otherwise an error
    is returned and the whole state, the job record included, is unchanged. *)
Theorem CancelJob_exactly_pending_or_paused (id : Z) (w : World) (r : JobRow.t) :
  jobRow id w = Some r →
  let '(w', err) := CancelJob id w in
  (err = None ↔ JobRow.status r = "pending" ∨ JobRow.status r = "paused")
  ∧ (err = None →
       jobRow id w'
       = Some (JobRow.set_status_completed "cancelled"
                 (Some (Env.clock (env w) (Env.ticks (env w)))) r)
       ∧ ∀ id', id' ≠ id → jobRow id' w' = jobRow id' w)
  ∧ (err ≠ None → w' = w).
Proof.
  intros Hr. unfold CancelJob. unfold jobRow in Hr. rewrite Hr.
  destruct (String.eqb (JobRow.status r) "pending"
            || String.eqb (JobRow.status r) "paused") eqn:Hst; simpl.
  - apply eqb_or_true in Hst. split; [done|]. split; [|done].
    intros _. unfold jobRow. simpl. split.
    + by rewrite lookup_insert_eq.
    + intros id' Hne. by rewrite lookup_insert_ne.
  - split; [|done]. split; [done|].
    intros Hs. apply eqb_or_true in Hs. congruence.
Qed.

(** A job absent from the store cannot be cancelled either. *)
Lemma CancelJob_unknown (id : Z) (w : World) :
  jobRow id w = None →
  CancelJob id w = (w, Some "job cannot be cancelled (not in pending/paused state)").
Proof. intros Hr. unfold CancelJob. unfold jobRow in Hr. by rewrite Hr. Qed.

(** C9: for a job that exists, [ResumeJob] succeeds only if the job is paused
    and its printer is not in the paused-printer set; the job is then pending;
    if the job is not paused or its printer is paused, and on any other
    error, an error is returned and nothing is changed. *)
Theorem ResumeJob_only_paused_on_running_printer (id : Z) (w : World)
    (r : JobRow.t) :
  jobRow id w = Some r →
  let '(w', err) := ResumeJob id w in
  (err = None →
     JobRow.status r = "paused"
     ∧ printerPaused (JobRow.printer_id r) w = false
     ∧ jobRow id w'
       = Some (JobRow.set_status_fields "pending" (Some "") None None r)
     ∧ ∀ id', id' ≠ id → jobRow id' w' = jobRow id' w)
  ∧ (JobRow.status r ≠ "paused" ∨ printerPaused (JobRow.printer_id r) w = true →
     err ≠ None)
  ∧ (err ≠ None → w' = w)
  ∧ (JobRow.status r = "paused" →
     printerPaused (JobRow.printer_id r) w = false →
     is_Some (JobRow.error_message r) → err = None).
Proof.
  intros Hr. unfold ResumeJob, GetJob. unfold jobRow in Hr. rewrite Hr.
  destruct (JobRow.error_message r) as [msg|] eqn:Hmsg; simpl.
  2:{ split; [done|]. split; [done|]. split; [done|].
      intros _ _ [? ?]. done. }
  destruct (String.eqb_spec (JobRow.status r) JobStatusPaused) as [Hst|Hst]; simpl.
  2:{ split; [done|]. split; [done|]. split; [done|]. intros. done. }
  destruct (printerPaused (JobRow.printer_id r) w) eqn:Hp; simpl.
  { split; [done|]. split; [done|]. split; [done|]. intros. done. }
  split.
  - intros _. split; [done|]. split; [done|].
    unfold jobRow. rewrite !offer_db. split.
    + apply jobRow_updateJobStatus; done.
    + intros id' Hne. by apply jobRow_updateJobStatus_ne.
  - split; [|done]. intros [?|?]; done.
Qed.

(** A job absent from the store cannot be resumed. *)
Lemma ResumeJob_unknown (id : Z) (w : World) :
  jobRow id w = None →
  ResumeJob id w = (w, Some ("job not found: " +:+ pretty id)).
Proof. intros Hr. unfold ResumeJob, GetJob. unfold jobRow in Hr. by rewrite Hr. Qed.

(** C10: the callback of a retry timer puts the job back to pending and clears
    its error message, start time and completion time whatever the row held
    when the delay elapsed; the status is not looked at. *)
Theorem retryJob_unconditional (jobID : Z) (w : World) (r : JobRow.t) :
  jobRow jobID w = Some r →
  jobRow jobID (retryJob jobID w)
  = Some (JobRow.set_status_fields "pending" (Some "") None None r)
  ∧ ((length (Queue.jobCh (q w)) < jobChCapacity)%nat →
     Queue.jobCh (q (retryJob jobID w)) = (Queue.jobCh (q w) ++ [jobID])%list).
Proof.
  intros Hr. unfold retryJob. split.
  - unfold jobRow. rewrite offer_db. by apply jobRow_updateJobStatus.
  - intros Hlen. unfold offer. simpl.
    destruct (Nat.ltb_spec (length (Queue.jobCh (q w))) jobChCapacity); [done|lia].
Qed.

(** C2: the failure handler, for a job whose row exists.  With retries left it
    adds one to the stored retry count, arms one timer and leaves the status
    alone; with the retry count at (or beyond) the limit it stores status
    failed with the error message and a completion timestamp, arms no timer
    and leaves the retry count alone.  So, when the job record it was handed
    agrees with the stored count, the stored count exceeds the limit only if
    the status is failed. *)
Theorem handleJobFailure_respects_retry_limit (job : Job.t) (errMsg : string)
    (w : World) (r : JobRow.t) :
  jobRow (Job.ID job) w = Some r →
  let w' := handleJobFailure job errMsg w in
  (Job.RetryCount job < Job.MaxRetries job →
     jobRow (Job.ID job) w'
     = Some (JobRow.set_retry_count (JobRow.retry_count r + 1) r)
     ∧ Env.timers (env w')
       = (Env.timers (env w)
          ++ [(calculateBackoff (Queue.config (q w)) (Job.RetryCount job),
               Job.ID job)])%list)
  ∧ (Job.MaxRetries job ≤ Job.RetryCount job →
     jobRow (Job.ID job) w'
     = Some (JobRow.set_status_fields JobStatusFailed (Some errMsg) None
               (Some (Env.clock (env w) (Env.ticks (env w)))) r)
     ∧ Env.timers (env w') = Env.timers (env w)
     ∧ Queue.jobCh (q w') = Queue.jobCh (q w))
  ∧ (JobRow.retry_count r = Job.RetryCount job →
     ∃ r', jobRow (Job.ID job) w' = Some r'
           ∧ (JobRow.status r' = JobStatusFailed
              ∨ JobRow.retry_count r' ≤ Job.MaxRetries job)
           ∧ (JobRow.status r' ≠ JobStatusFailed →
              JobRow.status r' = JobRow.status r)).
Proof.
  intros Hr. unfold handleJobFailure. unfold jobRow in *.
  destruct (Z.ltb_spec (Job.RetryCount job) (Job.MaxRetries job)) as [Hlt|Hge];
    simpl.
  - assert (Hrow : DB.print_jobs (db (incrementRetryCount (Job.ID job)
                     (with_env (λ e, Env.with_timers
                        (Env.timers e ++
                           [(calculateBackoff (Queue.config (q w))
                               (Job.RetryCount job), Job.ID job)]) e) w)))
                   !! Job.ID job
                   = Some (JobRow.set_retry_count (JobRow.retry_count r + 1) r)).
    { unfold incrementRetryCount. simpl. by rewrite lookup_alter_eq, Hr. }
    split; [done|]. split; [lia|].
    intros Hsnap. eexists. split; [exact Hrow|]. simpl. split; [right; lia|done].
  - assert (Hrow : DB.print_jobs (db (sendJobEvent "job_failed" (Job.ID job)
                     (Job.PrinterID job) JobStatusFailed errMsg
                     (updateJobStatus (Job.ID job) JobStatusFailed errMsg None
                        (Some (Env.clock (env w) (Env.ticks (env w))))
                        (with_env (Env.with_ticks (S (Env.ticks (env w)))) w))))
                   !! Job.ID job
                   = Some (JobRow.set_status_fields JobStatusFailed (Some errMsg)
                             None (Some (Env.clock (env w) (Env.ticks (env w)))) r)).
    { unfold sendJobEvent, updateJobStatus. simpl.
      case_match; simpl; by rewrite lookup_alter_eq, Hr. }
    split; [lia|]. split.
    + intros _. split; [exact Hrow|].
      unfold sendJobEvent, updateJobStatus. simpl. by case_match.
    + intros _. eexists. split; [exact Hrow|]. simpl. split; [by left|done].
Qed.

(** ** Start-up recovery *)

Lemma offerAll_db ids w : db (offerAll ids w).1 = db w.
Proof.
  revert w. induction ids as [|id ids IH]; intros w; simpl; [done|].
  destruct (offer id w) as [w1 ok] eqn:Ho.
  specialize (IH w1). destruct (offerAll ids w1) as [w2 acts]. simpl in *.
  rewrite IH. change w1 with (w1, ok).1. rewrite <- Ho. apply offer_db.
Qed.

Lemma offerAll_env ids w : env (offerAll ids w).1 = env w.
Proof.
  revert w. induction ids as [|id ids IH]; intros w; simpl; [done|].
  destruct (offer id w) as [w1 ok] eqn:Ho.
  specialize (IH w1). destruct (offerAll ids w1) as [w2 acts]. simpl in *.
  rewrite IH. change w1 with (w1, ok).1. rewrite <- Ho. apply offer_env.
Qed.

Lemma offerAll_workers_running ids w :
  Queue.workers (q (offerAll ids w).1) = Queue.workers (q w)
  ∧ Queue.running (q (offerAll ids w).1) = Queue.running (q w).
Proof.
  revert w. induction ids as [|id ids IH]; intros w; simpl; [done|].
  destruct (offer id w) as [w1 ok] eqn:Ho.
  specialize (IH w1). destruct (offerAll ids w1) as [w2 acts]. simpl in *.
  destruct IH as [-> ->].
  unfold offer in Ho. case_match; injection Ho as <- <-; done.
Qed.

Lemma offerAll_actions ids w a :
  a ∈ (offerAll ids w).2 → ∃ id ok, a = ActOffer id ok ∧ id ∈ ids.
Proof.
  revert w. induction ids as [|id ids IH]; intros w; simpl.
  - intros H. by apply elem_of_nil in H.
  - destruct (offer id w) as [w1 ok].
    specialize (IH w1). destruct (offerAll ids w1) as [w2 acts]. simpl in *.
    intros [->|Hin]%elem_of_cons.
    + exists id, ok. split; [done|]. by left.
    + destruct (IH Hin) as (id' & ok' & -> & Hid).
      exists id', ok'. split; [done|]. by right.
Qed.

Lemma selectPending_pending d id :
  id ∈ selectPending d →
  ∃ r, DB.print_jobs d !! id = Some r ∧ JobRow.status r = "pending".
Proof.
  unfold selectPending, selectWhere. intros Hin.
  apply list_elem_of_fmap in Hin as ([k r] & -> & Hin).
  rewrite merge_sort_Permutation in Hin.
  apply list_elem_of_filter in Hin as [Hst Hin]. simpl in Hst.
  rewrite merge_sort_Permutation in Hin.
  apply elem_of_map_to_list in Hin.
  exists r. split; [done|]. by apply String.eqb_eq.
Qed.

Lemma goroutines_launch gs w :
  Env.goroutines (env (foldl (λ w g, go g w) w gs))
  = (Env.goroutines (env w) ++ gs)%list
  ∧ db (foldl (λ w g, go g w) w gs) = db w.
Proof.
  revert w. induction gs as [|g gs IH]; intros w; simpl.
  - by rewrite app_nil_r.
  - destruct (IH (go g w)) as [-> ->]. simpl. by rewrite <- app_assoc.
Qed.

(** What [Start] returns on a scheduler that is not running: every processing
    job is pending, the pending jobs have been offered to the channel, and
    the workers and the dispatcher are launched. *)
Lemma Start_recovers (w : World) :
  Queue.running (q w) = false →
  ∃ w' offers,
    let launched :=
      (workerGoroutines (Queue.workers (q w)) ++ [GoDispatcher])%list in
    Start w = (w', None,
               (ActResetProcessing :: ActSelectPending :: offers
                ++ (ActGo <$> launched))%list)
    ∧ (∀ a, a ∈ offers →
         ∃ id ok r, a = ActOffer id ok ∧ jobRow id w' = Some r
                    ∧ JobRow.status r = "pending")
    ∧ (∀ id r, jobRow id w = Some r →
         jobRow id w'
         = Some (if String.eqb (JobRow.status r) "processing"
                 then JobRow.set_status "pending" r else r))
    ∧ (∀ id r, jobRow id w' = Some r → JobRow.status r ≠ "processing")
    ∧ Env.goroutines (env w') = (Env.goroutines (env w) ++ launched)%list
    ∧ Queue.running (q w') = true.
Proof.
  intros Hrun. unfold Start. rewrite Hrun. unfold recoverJobs.
  set (w1 := resetProcessing (with_q (Queue.with_running true) w)).
  pose proof (offerAll_db (selectPending (db w1)) w1) as Hdb.
  pose proof (offerAll_env (selectPending (db w1)) w1) as Henv.
  pose proof (offerAll_actions (selectPending (db w1)) w1) as Hacts.
  pose proof (offerAll_workers_running (selectPending (db w1)) w1) as Hq.
  destruct (offerAll (selectPending (db w1)) w1) as [w2 offers]. simpl in *.
  destruct Hq as [Hwk Hrn]. rewrite Hwk.
  change (Queue.workers (q w1)) with (Queue.workers (q w)).
  change (Queue.running (q w1)) with true in Hrn.
  set (launched := (workerGoroutines (Queue.workers (q w)) ++ [GoDispatcher])%list).
  destruct (goroutines_launch launched w2) as [Hg Hd].
  assert (Hrows : ∀ id, jobRow id (foldl (λ w g, go g w) w2 launched)
                        = (λ r, if String.eqb (JobRow.status r) "processing"
                                then JobRow.set_status "pending" r else r)
                          <$> jobRow id w).
  { intros id. unfold jobRow. rewrite Hd, Hdb. subst w1. simpl.
    by rewrite lookup_fmap. }
  eexists _, offers. split; [reflexivity|].
  split; [|split; [|split; [|split]]].
  - intros a Ha. destruct (Hacts a Ha) as (id & ok & -> & Hid).
    apply selectPending_pending in Hid as (r & Hr & Hst).
    exists id, ok, r. split; [done|]. split; [|done].
    unfold jobRow. by rewrite Hd, Hdb.
  - intros id r Hr. by rewrite Hrows, Hr.
  - intros id r. rewrite Hrows.
    destruct (jobRow id w) as [r0|]; simpl; [|done].
    intros [= <-].
    destruct (String.eqb_spec (JobRow.status r0) "processing"); simpl; done.
  - by rewrite Hg, Henv.
  - clear -Hrn. revert Hrn. generalize w2.
    induction launched as [|g gs IH]; intros w0 H0; simpl; [done|].
    by apply IH.
Qed.

Lemma offers_run ids w rest :
  rtc startStep (w, ((StmtOffer <$> ids) ++ rest)%list) ((offerAll ids w).1, rest).
Proof.
  revert w. induction ids as [|id ids IH]; intros w; simpl; [done|].
  eapply rtc_l; [apply step_stmt|]. simpl.
  specialize (IH (offer id w).1).
  destruct (offer id w) as [w1 ok]. simpl in *.
  by destruct (offerAll ids w1) as [w2 acts].
Qed.

Lemma launches_run gs w :
  rtc startStep (w, StmtGo <$> gs) (foldl (λ w g, go g w) w gs, []).
Proof.
  revert w. induction gs as [|g gs IH]; intros w; simpl; [done|].
  eapply rtc_l; [apply step_stmt|]. simpl. apply IH.
Qed.

Lemma fireTimer_idle n w : Env.timers (env w) = [] → fireTimer n w = w.
Proof. unfold fireTimer. by intros ->. Qed.

(** The reset is not made a second time. *)
Lemma reset_stays_done c c' :
  rtc startStep c c' →
  StmtResetProcessing ∉ c.2 → StmtResetProcessing ∉ c'.2.
Proof.
  induction 1 as [|c1 c2 c3 Hstep _ IH]; [done|].
  intros Hnot. apply IH. clear IH.
  inversion Hstep as [s rest w Hs Hres|g w rest Hin Hs Hres|n w rest Hs Hres];
    subst; simpl in *; [|done..].
  apply not_elem_of_cons in Hnot as [Hne Hnot].
  destruct s; simpl; try done.
  rewrite elem_of_app. intros [Hin|Hin]; [|done].
  apply list_elem_of_fmap in Hin as (id & Heq & _). discriminate Heq.
Qed.

(** C8: while [Start] is under way on a scheduler that was not running, in a
    process that has no goroutine and no timer yet, the workers and the
    dispatcher it launches taking their turns whenever they can: every run
    begins with the reset, made on the job table as the prior run left it.
    As long as the reset is still to be made nothing has changed.  The reset
    turns each processing job into a pending one and leaves no job
    processing, and at that point no goroutine is launched; whatever a worker
    or the dispatcher does comes after it.  [Start] itself returns the state
    of the run in which the goroutines wait until it is through. *)
Theorem Start_resets_before_launching (w : World) :
  Queue.running (q w) = false →
  Env.goroutines (env w) = [] →
  Env.timers (env w) = [] →
  let w0 := with_q (Queue.with_running true) w in
  (∀ w1 rest1,
     rtc startStep (w0, startBody w0) (w1, rest1) →
     (w1, rest1) = (w0, startBody w0)
     ∨ rtc startStep (resetProcessing w0, tail (startBody w0)) (w1, rest1))
  ∧ (∀ w1 rest1,
       rtc startStep (w0, startBody w0) (w1, rest1) →
       StmtResetProcessing ∈ rest1 → w1 = w0)
  ∧ (∀ id r, jobRow id w = Some r →
       jobRow id (resetProcessing w0)
       = Some (if String.eqb (JobRow.status r) "processing"
               then JobRow.set_status "pending" r else r))
  ∧ (∀ id r, jobRow id (resetProcessing w0) = Some r →
       JobRow.status r ≠ "processing")
  ∧ Env.goroutines (env (resetProcessing w0)) = []
  ∧ Queue.jobCh (q (resetProcessing w0)) = Queue.jobCh (q w)
  ∧ rtc startStep (w0, startBody w0) ((Start w).1.1, []).
Proof.
  intros Hrun Hgo Htimers w0.
  assert (Hrows : ∀ id, jobRow id (resetProcessing w0)
                        = (λ r, if String.eqb (JobRow.status r) "processing"
                                then JobRow.set_status "pending" r else r)
                          <$> jobRow id w).
  { intros id. unfold jobRow. simpl. by rewrite lookup_fmap. }
  assert (Hfirst : ∀ c, rtc startStep (w0, startBody w0) c →
            c = (w0, startBody w0)
            ∨ rtc startStep (resetProcessing w0, tail (startBody w0)) c).
  { apply (rtc_ind_r
             (λ c, c = (w0, startBody w0)
                   ∨ rtc startStep (resetProcessing w0, tail (startBody w0)) c));
      [by left|].
    intros c c' Hsteps Hstep [->|Hafter]; [|right; by eapply rtc_r].
    inversion Hstep as [s rest w' Hs Hres|g w' rest Hin Hs Hres|n w' rest Hs Hres].
    + right. simpl. done.
    + subst w0. simpl in Hin. rewrite Hgo in Hin. by apply elem_of_nil in Hin.
    + left. f_equal. apply fireTimer_idle. subst w0. by simpl. }
  split; [|split; [|split; [|split; [|split; [|split]]]]].
  - intros w1 rest1 Hrtc. by apply Hfirst.
  - intros w1 rest1 Hrtc Hin.
    destruct (Hfirst _ Hrtc) as [[= -> _]|Hafter]; [done|].
    apply reset_stays_done in Hafter; [done|].
    unfold startBody. simpl. intros [Heq|H]%elem_of_cons; [discriminate Heq|].
    apply list_elem_of_fmap in H as (g & Heq & _). discriminate Heq.
  - intros id r Hr. by rewrite Hrows, Hr.
  - intros id r. rewrite Hrows.
    destruct (jobRow id w) as [r0|]; simpl; [|done].
    intros [= <-].
    destruct (String.eqb_spec (JobRow.status r0) "processing"); simpl; done.
  - by simpl.
  - by simpl.
  - unfold Start. rewrite Hrun. unfold recoverJobs, startBody. fold w0.
    set (w1 := resetProcessing w0).
    pose proof (offers_run (selectPending (db w1)) w1
                  (StmtGo <$> (workerGoroutines (Queue.workers (q w0))
                                ++ [GoDispatcher])%list)) as Hoffers.
    pose proof (offerAll_workers_running (selectPending (db w1)) w1) as [Hwk _].
    destruct (offerAll (selectPending (db w1)) w1) as [w2 acts].
    cbn [fst snd] in *.
    change (Queue.workers (q w1)) with (Queue.workers (q w0)) in Hwk.
    eapply rtc_l; [apply step_stmt|]. cbn [stmtStep]. fold w1.
    eapply rtc_l; [apply step_stmt|]. cbn [stmtStep].
    etrans; [exact Hoffers|]. rewrite Hwk. apply launches_run.
Qed.

(** *** Polling and transmitting do not count prints *)

Lemma pm_frame_refl w : pm_frame w w.
Proof. by split. Qed.

Lemma pm_frame_trans w1 w2 w3 : pm_frame w1 w2 → pm_frame w2 w3 → pm_frame w1 w3.
Proof.
  intros [A1 B1 C1 D1 E1 F1] [A2 B2 C2 D2 E2 F2].
  split; intros; congruence.
Qed.

Lemma timeNow_frame w : pm_frame w (timeNow w).2.
Proof. by split. Qed.

Lemma connect_frame id w : pm_frame w (connect id w).1.
Proof. unfold connect. repeat case_match; by split. Qed.

Lemma disconnect_frame id w : pm_frame w (disconnect id w).
Proof. by split. Qed.

Lemma connWrite_frame id payload w : pm_frame w (connWrite id payload w).1.
Proof. unfold connWrite. repeat case_match; by split. Qed.

Lemma updatePrinterStatus_frame id st w : pm_frame w (updatePrinterStatus id st w).
Proof.
  unfold updatePrinterStatus.
  destruct (PrinterManager.printers (pm w) !! id) as [p|] eqn:Hp;
    [|apply pm_frame_refl].
  simpl.
  assert (Hl : ∀ id0 now,
            Printer.TotalPrints <$>
              <[id := Printer.with_Status st now p]> (PrinterManager.printers (pm w))
              !! id0
            = Printer.TotalPrints <$> PrinterManager.printers (pm w) !! id0).
  { intros id0 now. destruct (decide (id = id0)) as [<-|Hne].
    - by rewrite lookup_insert_eq, Hp.
    - by rewrite lookup_insert_ne. }
  assert (Hd : ∀ id0 stamp,
            PrinterRow.total_prints <$>
              alter (λ r, PrinterRow.mk st stamp (PrinterRow.total_prints r)) id
                (DB.printers (db w)) !! id0
            = PrinterRow.total_prints <$> DB.printers (db w) !! id0).
  { intros id0 stamp. destruct (decide (id = id0)) as [<-|Hne].
    - rewrite lookup_alter_eq. by destruct (DB.printers (db w) !! id).
    - by rewrite lookup_alter_ne. }
  repeat case_match; split; unfold lifetime, lifetime_persisted; simpl;
    intros; try done; try apply Hl; try apply Hd.
Qed.

Create HintDb frame.
#[local] Hint Resolve pm_frame_refl timeNow_frame connect_frame disconnect_frame
  connWrite_frame updatePrinterStatus_frame : frame.

Lemma failOffline_frame id err w : pm_frame w (failOffline id err w).1.1.
Proof.
  unfold failOffline, offlineStatus. simpl.
  eapply pm_frame_trans; [apply timeNow_frame|apply updatePrinterStatus_frame].
Qed.

Lemma writeStatusCommand_frame id w : pm_frame w (writeStatusCommand id w).1.
Proof.
  unfold writeStatusCommand, reconnect.
  pose proof (connWrite_frame id statusCommand w) as H1.
  destruct (connWrite id statusCommand w) as [w1 [e1|]]; [|exact H1].
  pose proof (connect_frame id (disconnect id w1)) as H2.
  pose proof (disconnect_frame id w1) as Hd.
  destruct (connect id (disconnect id w1)) as [w2 [e2|]];
    [eauto using pm_frame_trans|].
  pose proof (connWrite_frame id statusCommand w2) as H3.
  destruct (connWrite id statusCommand w2) as [w3 [e3|]];
    eauto 10 using pm_frame_trans.
Qed.

Lemma readStatus_frame id w : pm_frame w (readStatus id w).1.1.
Proof.
  unfold readStatus.
  destruct (readLoop (Env.reads (env w)) []) as [[got|e] rest].
  - assert (pm_frame w (with_env (Env.with_reads rest) w)) as H0 by by split.
    case_match.
    + unfold offlineStatus. cbn [timeNow fst snd].
      eapply pm_frame_trans; [exact H0|].
      eapply pm_frame_trans; [|apply updatePrinterStatus_frame]. by split.
    + cbn [timeNow fst snd]. case_match.
      * eapply pm_frame_trans; [exact H0|].
        eapply pm_frame_trans; [|apply updatePrinterStatus_frame]. by split.
      * eapply pm_frame_trans; [exact H0|]. by split.
  - eapply pm_frame_trans; [|apply failOffline_frame]. by split.
Qed.

Lemma CheckStatus_frame id w : pm_frame w (CheckStatus id w).1.1.
Proof.
  unfold CheckStatus.
  destruct (PrinterManager.printers (pm w) !! id); [|apply pm_frame_refl].
  pose proof (connect_frame id w) as Hc.
  destruct (connect id w) as [w1 [err|]].
  { eapply pm_frame_trans; [exact Hc|apply failOffline_frame]. }
  pose proof (writeStatusCommand_frame id w1) as Hw.
  destruct (writeStatusCommand id w1) as [w2 [[drop e]|]].
  - eapply pm_frame_trans; [|apply failOffline_frame].
    destruct drop; eauto using pm_frame_trans with frame.
  - eapply pm_frame_trans; [|apply readStatus_frame].
    eauto using pm_frame_trans.
Qed.

Lemma SendCommand_frame id tspl w : pm_frame w (SendCommand id tspl w).1.
Proof.
  unfold SendCommand.
  destruct (PrinterManager.printers (pm w) !! id); [|apply pm_frame_refl].
  pose proof (connect_frame id w) as Hc.
  destruct (connect id w) as [w1 [err|]]; simpl in *; [done|].
  pose proof (connWrite_frame id tspl w1) as Hw.
  destruct (connWrite id tspl w1) as [w2 [e|]]; simpl in *;
    eauto using pm_frame_trans with frame.
Qed.

Lemma Print_frame_jobs id tspl copies w :
  let w' := (Print id tspl copies w).1 in
  DB.print_jobs (db w') = DB.print_jobs (db w) ∧ q w' = q w
  ∧ Env.pm_calls (env w') = Env.pm_calls (env w)
  ∧ Env.timers (env w') = Env.timers (env w).
Proof.
  unfold Print.
  pose proof (CheckStatus_frame id w) as Hc.
  destruct (CheckStatus id w) as [[w1 [status|]] [err|]]; simpl in Hc;
    try by destruct Hc.
  do 2 (case_match; [by destruct Hc|]).
  set (full := if 1 <? copies then _ else tspl).
  pose proof (SendCommand_frame id full w1) as Hs.
  destruct (SendCommand id full w1) as [w2 [err|]]; simpl in *;
    destruct Hc, Hs; simpl; repeat split; congruence.
Qed.

(** A successful [Print] adds the copies to the lifetime counter, in the
    registry and in the store. *)
Lemma Print_success id tspl copies w w' :
  Print id tspl copies w = (w', None) →
  lifetime id w' = (λ n, add64 n copies) <$> lifetime id w
  ∧ lifetime_persisted id w' = (λ n, n + copies) <$> lifetime_persisted id w.
Proof.
  unfold Print.
  pose proof (CheckStatus_frame id w) as Hc.
  destruct (CheckStatus id w) as [[w1 [status|]] [err|]]; simpl in Hc;
    try done.
  do 2 (case_match; [done|]).
  set (full := if 1 <? copies then _ else tspl).
  pose proof (SendCommand_frame id full w1) as Hs.
  destruct (SendCommand id full w1) as [w2 [err|]]; simpl in Hs; [done|].
  intros [= <-].
  destruct Hc as [Hl1 Hp1 _ _ _ _], Hs as [Hl2 Hp2 _ _ _ _].
  rewrite <- Hl1, <- Hp1, <- Hl2, <- Hp2.
  unfold lifetime, lifetime_persisted. simpl.
  rewrite !lookup_alter_eq.
  split.
  - by destruct (PrinterManager.printers (pm w2) !! id).
  - by destruct (DB.printers (db w2) !! id).
Qed.

(** After the failure handler a row is failed or has the status it had. *)
Lemma handleJobFailure_status job msg w id r :
  jobRow id w = Some r →
  ∃ r', jobRow id (handleJobFailure job msg w) = Some r'
        ∧ (JobRow.status r' = "failed" ∨ JobRow.status r' = JobRow.status r).
Proof.
  intros Hr. unfold handleJobFailure, jobRow in *.
  assert (Halter : ∀ (f : JobRow.t → JobRow.t),
            alter f (Job.ID job) (DB.print_jobs (db w)) !! id
            = Some (if decide (Job.ID job = id) then f r else r)).
  { intros f. case_decide as Heq.
    - rewrite Heq, lookup_alter_eq, Hr. done.
    - rewrite lookup_alter_ne by done. done. }
  destruct (Job.RetryCount job <? Job.MaxRetries job); simpl.
  - unfold incrementRetryCount. simpl. rewrite Halter.
    eexists. split; [reflexivity|]. right. by case_decide.
  - unfold sendJobEvent, updateJobStatus. simpl.
    destruct (Queue.webhookSender (q w)); simpl; rewrite Halter;
      (eexists; split; [reflexivity|]); case_decide; simpl; auto.
Qed.

Lemma incrementPrintCounter_counters printerID count w :
  Env.pm_calls (env (incrementPrintCounter printerID count w))
  = Env.pm_calls (env w)
  ∧ ∀ id, lifetime id (incrementPrintCounter printerID count w) = lifetime id w
          ∧ lifetime_persisted id (incrementPrintCounter printerID count w)
            = lifetime_persisted id w.
Proof. done. Qed.

Lemma transmitJob_completed (jobID : Z) (job : Job.t) (w : World) (r : JobRow.t) :
  jobRow jobID w = Some r →
  JobRow.status r ≠ "completed" →
  JobRow.status <$> jobRow jobID (transmitJob jobID job w) = Some "completed" →
  Env.pm_calls (env (transmitJob jobID job w))
  = (Env.pm_calls (env w)
     ++ [CallPrint (Job.PrinterID job) (Job.TSPLContent job) (Job.Copies job);
         CallIncrementPrintCount (Job.PrinterID job) (Job.Copies job)])%list
  ∧ lifetime (Job.PrinterID job) (transmitJob jobID job w)
    = (λ n, add64 n (Job.Copies job)) <$> lifetime (Job.PrinterID job) w
  ∧ lifetime_persisted (Job.PrinterID job) (transmitJob jobID job w)
    = (λ n, n + Job.Copies job) <$> lifetime_persisted (Job.PrinterID job) w.
Proof.
  intros Hr Hnc. unfold transmitJob. cbn [timeNow].
  set (now := Env.clock (env w) (Env.ticks (env w))).
  set (w1 := sendJobEvent "job_started" jobID (Job.PrinterID job)
               JobStatusProcessing ""
               (updateJobStatus jobID JobStatusProcessing "" (Some now) None
                  (with_env (Env.with_ticks (S (Env.ticks (env w)))) w))).
  assert (Hr1 : jobRow jobID w1
                = Some (JobRow.set_status_fields "processing" (Some "")
                          (Some now) None r)).
  { subst w1. unfold sendJobEvent, updateJobStatus, jobRow in *. simpl.
    case_match; simpl; by rewrite lookup_alter_eq, Hr. }
  assert (Hc1 : Env.pm_calls (env w1) = Env.pm_calls (env w)
                ∧ ∀ id, lifetime id w1 = lifetime id w
                        ∧ lifetime_persisted id w1 = lifetime_persisted id w).
  { subst w1. unfold sendJobEvent, updateJobStatus. simpl. by case_match. }
  destruct Hc1 as [Hcalls1 Hcount1].
  assert (Hfail : ∀ msg w2,
            DB.print_jobs (db w2) = DB.print_jobs (db w1) →
            JobRow.status <$> jobRow jobID (handleJobFailure job msg w2)
            ≠ Some "completed").
  { intros msg w2 Hjobs.
    destruct (handleJobFailure_status job msg w2 jobID
                (JobRow.set_status_fields "processing" (Some "") (Some now) None r))
      as (r' & -> & [Hs|Hs]).
    - unfold jobRow in *. by rewrite Hjobs.
    - simpl. rewrite Hs. done.
    - simpl. rewrite Hs. done. }
  destruct (Queue.printerManager (q w1)); cbn [negb].
  2:{ intros Hdone. by apply Hfail in Hdone. }
  set (w2 := with_env _ w1).
  pose proof (Print_frame_jobs (Job.PrinterID job) (Job.TSPLContent job)
                (Job.Copies job) w2) as Hframe.
  pose proof (Print_success (Job.PrinterID job) (Job.TSPLContent job)
                (Job.Copies job) w2) as Hsucc.
  destruct (Print (Job.PrinterID job) (Job.TSPLContent job) (Job.Copies job) w2)
    as [w3 [err|]]; simpl in Hframe.
  { intros Hdone. apply Hfail in Hdone; [done|]. by destruct Hframe as [-> _]. }
  intros _. destruct Hframe as (_ & _ & Hcalls3 & _).
  destruct (Hsucc w3 eq_refl) as [Hl3 Hp3].
  cbn [timeNow].
  set (w4 := with_env _ (sendJobEvent _ _ _ _ _ (updateJobStatus _ _ _ _ _ _))).
  assert (Hc4 : Env.pm_calls (env w4)
                = (Env.pm_calls (env w3)
                   ++ [CallIncrementPrintCount (Job.PrinterID job)
                         (Job.Copies job)])%list
                ∧ ∀ id, lifetime id w4 = lifetime id w3
                        ∧ lifetime_persisted id w4 = lifetime_persisted id w3).
  { subst w4. unfold sendJobEvent, updateJobStatus. simpl. by case_match. }
  destruct Hc4 as [Hcalls4 Hcount4]. clearbody w4.
  destruct (incrementPrintCounter_counters (Job.PrinterID job) (Job.Copies job) w4)
    as [Hcalls6 Hcount6].
  destruct (Hcount6 (Job.PrinterID job)) as [-> ->].
  rewrite Hcalls6.
  destruct (Hcount4 (Job.PrinterID job)) as [-> ->].
  rewrite Hl3, Hp3.
  assert (Hw2 : Env.pm_calls (env w3)
                = (Env.pm_calls (env w)
                   ++ [CallPrint (Job.PrinterID job) (Job.TSPLContent job)
                         (Job.Copies job)])%list
                ∧ lifetime (Job.PrinterID job) w2 = lifetime (Job.PrinterID job) w
                ∧ lifetime_persisted (Job.PrinterID job) w2
                  = lifetime_persisted (Job.PrinterID job) w).
  { rewrite Hcalls3. subst w2. simpl. rewrite Hcalls1.
    split; [done|]. apply (Hcount1 (Job.PrinterID job)). }
  destruct Hw2 as (Hcalls2 & -> & ->).
  split; [|done].
  simpl. rewrite Hcalls4, Hcalls2, <- app_assoc. done.
Qed.

(** Whenever a worker takes a pending job to completed, [Print] has been
    called once, with the job's copy count, and the lifetime counter of the
    printer has received the copies once. *)
Lemma processJob_completed_counts_once (id : Z) (w : World) (r : JobRow.t) :
  jobRow id w = Some r →
  JobRow.status r = "pending" →
  JobRow.status <$> jobRow id (processJob id w) = Some "completed" →
  ∃ tspl,
    Env.pm_calls (env (processJob id w))
    = (Env.pm_calls (env w)
       ++ [CallPrint (JobRow.printer_id r) tspl (JobRow.copies r);
           CallIncrementPrintCount (JobRow.printer_id r) (JobRow.copies r)])%list
    ∧ lifetime (JobRow.printer_id r) (processJob id w)
      = (λ n, add64 n (JobRow.copies r)) <$> lifetime (JobRow.printer_id r) w
    ∧ lifetime_persisted (JobRow.printer_id r) (processJob id w)
      = (λ n, n + JobRow.copies r) <$> lifetime_persisted (JobRow.printer_id r) w.
Proof.
  intros Hr Hst. unfold processJob, GetJob.
  pose proof Hr as Hr0. unfold jobRow in Hr0. rewrite Hr0.
  destruct (JobRow.error_message r) as [msg|].
  2:{ rewrite Hr. simpl. rewrite Hst. done. }
  cbn [Job.Status Job.PrinterID Job.TSPLContent Job.TemplateID Job.VariablesJSON].
  replace (String.eqb (JobRow.status r) JobStatusPending) with true
    by (by rewrite Hst).
  cbn [negb].
  destruct (printerPaused (JobRow.printer_id r) w).
  { intros Hdone. erewrite jobRow_updateJobStatus in Hdone by done. done. }
  set (job := Job.mk _ _ _ _ _ _ _ _ _ _ _ _ _ _ _).
  assert (Hdirect : JobRow.status <$> jobRow id (transmitJob id job w)
                    = Some "completed" →
            ∃ tspl,
              Env.pm_calls (env (transmitJob id job w))
              = (Env.pm_calls (env w)
                 ++ [CallPrint (JobRow.printer_id r) tspl (JobRow.copies r);
                     CallIncrementPrintCount (JobRow.printer_id r)
                       (JobRow.copies r)])%list
              ∧ lifetime (JobRow.printer_id r) (transmitJob id job w)
                = (λ n, add64 n (JobRow.copies r))
                  <$> lifetime (JobRow.printer_id r) w
              ∧ lifetime_persisted (JobRow.printer_id r) (transmitJob id job w)
                = (λ n, n + JobRow.copies r)
                  <$> lifetime_persisted (JobRow.printer_id r) w).
  { intros Hdone. exists (Job.TSPLContent job).
    apply (transmitJob_completed id job w r Hr); [by rewrite Hst | done]. }
  destruct (Queue.tsplGenerator (q w)) as [generate|]; [|exact Hdirect].
  destruct (String.eqb (JobRow.tspl_content r) ""); [|exact Hdirect].
  destruct (generate (JobRow.template_id r) (JobRow.variables_json r))
    as [tspl|e].
  - intros Hdone. exists tspl.
    apply (transmitJob_completed id (Job.with_TSPLContent tspl job)
             (updateJobTSPL id tspl w) (JobRow.set_tspl_content tspl r));
      [|by simpl; rewrite Hst|done].
    unfold updateJobTSPL, jobRow. simpl. by rewrite lookup_alter_eq, Hr0.
  - intros Hdone.
    destruct (handleJobFailure_status job ("TSPL generation failed: " +:+ e)
                w id r Hr) as (r' & Hr' & [Hs|Hs]);
      rewrite Hr' in Hdone; simpl in Hdone; congruence.
Qed.

(** ** A worker processing a job *)

(** The retry limit is not read back from the store. *)
Lemma GetJob_MaxRetries (id : Z) (w : World) (job : Job.t) :
  GetJob id w = Ok job → Job.MaxRetries job = 0.
Proof.
  unfold GetJob. repeat case_match; try discriminate. by intros [= <-].
Qed.









(** ** The properties at work on the example installation *)

Lemma CancelJob_exactly_pending_or_paused_witness :
  jobRow 1 pausedJobWorld = Some pausedRow
  ∧ (CancelJob 1 pausedJobWorld).2 = None
  ∧ JobRow.status <$> jobRow 1 (CancelJob 1 pausedJobWorld).1 = Some "cancelled".
Proof.
  assert (Hrow : jobRow 1 pausedJobWorld = Some pausedRow)
    by (vm_compute; reflexivity).
  pose proof (CancelJob_exactly_pending_or_paused 1 pausedJobWorld pausedRow Hrow)
    as H.
  destruct (CancelJob 1 pausedJobWorld) as [w' err].
  destruct H as (Hiff & Hok & _).
  assert (Herr : err = None) by (apply Hiff; right; reflexivity).
  split; [exact Hrow|]. split; [exact Herr|]. simpl.
  destruct (Hok Herr) as [-> _]. reflexivity.
Defined.

Lemma ResumeJob_only_paused_on_running_printer_witness :
  jobRow 1 pausedJobWorld = Some pausedRow
  ∧ (ResumeJob 1 pausedJobWorld).2 = None
  ∧ JobRow.status <$> jobRow 1 (ResumeJob 1 pausedJobWorld).1 = Some "pending".
Proof.
  assert (Hrow : jobRow 1 pausedJobWorld = Some pausedRow)
    by (vm_compute; reflexivity).
  pose proof (ResumeJob_only_paused_on_running_printer 1 pausedJobWorld
                pausedRow Hrow) as H.
  destruct (ResumeJob 1 pausedJobWorld) as [w' err].
  destruct H as (Hok & _ & _ & Hsucc).
  assert (Herr : err = None).
  { apply Hsucc; [reflexivity | vm_compute; reflexivity | by eexists]. }
  split; [exact Hrow|]. split; [exact Herr|]. simpl.
  destruct (Hok Herr) as (_ & _ & -> & _). reflexivity.
Defined.

(** A job whose retry timer is pending is paused and then cancelled; when the
    timer fires the cancelled job is pending again. *)
Lemma retryJob_unconditional_witness :
  JobRow.status <$> jobRow 1 cancelledDuringBackoff = Some "cancelled"
  ∧ Env.timers (env cancelledDuringBackoff) = [(10 * Second, 1)]
  ∧ jobRow 1 (fireTimer 0 cancelledDuringBackoff)
    = Some (JobRow.set_status_fields "pending" (Some "") None None
              (JobRow.mk 1 7 1 "{}" "" "cancelled" 5 1 (Some "") 2 "10.0.0.1"
                 1000 (Some 2000) (Some 1001))).
Proof.
  split; [vm_compute; reflexivity|]. split; [vm_compute; reflexivity|].
  change (fireTimer 0 cancelledDuringBackoff)
    with (retryJob 1 (with_env (λ e, Env.with_timers (delete 0%nat (Env.timers e)) e)
                        cancelledDuringBackoff)).
  apply (retryJob_unconditional 1).
  vm_compute. reflexivity.
Defined.

Lemma handleJobFailure_respects_retry_limit_witness :
  jobRow (Job.ID retryableJob) processingWorld = Some processingRow
  ∧ Job.RetryCount retryableJob < Job.MaxRetries retryableJob
  ∧ jobRow 1 backoffWorld = Some (JobRow.set_retry_count 1 processingRow)
  ∧ Env.timers (env backoffWorld) = [(10 * Second, 1)].
Proof.
  assert (Hrow : jobRow (Job.ID retryableJob) processingWorld = Some processingRow)
    by (vm_compute; reflexivity).
  assert (Hlt : Job.RetryCount retryableJob < Job.MaxRetries retryableJob)
    by (vm_compute; reflexivity).
  destruct (handleJobFailure_respects_retry_limit retryableJob
              "printer is offline" processingWorld processingRow Hrow)
    as (Hretry & _ & _).
  destruct (Hretry Hlt) as [Hr Ht].
  split; [exact Hrow|]. split; [exact Hlt|]. split; [exact Hr|exact Ht].
Defined.

Lemma Start_resets_before_launching_witness :
  Queue.running (q crashedWorld) = false
  ∧ Env.goroutines (env crashedWorld) = []
  ∧ Env.timers (env crashedWorld) = []
  ∧ JobRow.status <$> jobRow 1 crashedWorld = Some "processing"
  ∧ JobRow.status
      <$> jobRow 1 (resetProcessing (with_q (Queue.with_running true) crashedWorld))
    = Some "pending"
  ∧ rtc startStep
      (with_q (Queue.with_running true) crashedWorld,
       startBody (with_q (Queue.with_running true) crashedWorld))
      ((Start crashedWorld).1.1, []).
Proof.
  assert (Hrun : Queue.running (q crashedWorld) = false) by reflexivity.
  assert (Hgo : Env.goroutines (env crashedWorld) = [])
    by (vm_compute; reflexivity).
  assert (Htm : Env.timers (env crashedWorld) = [])
    by (vm_compute; reflexivity).
  destruct (Start_resets_before_launching crashedWorld Hrun Hgo Htm)
    as (_ & _ & Hrows & _ & _ & _ & Hstart).
  split; [exact Hrun|]. split; [exact Hgo|]. split; [exact Htm|].
  split; [vm_compute; reflexivity|]. split; [|exact Hstart].
  rewrite (Hrows 1 processingRow); [reflexivity | vm_compute; reflexivity].
Defined.




(** * Further properties *)

(** ** Decoding and polling *)

(** X1: a decoded response is online and stamped, and it is ready to print
    exactly when its first byte is '@', 'S' or 'I', whatever the warning,
    error and media-error bytes are. *)
Theorem decodeResponse_CanPrint (b0 b1 b2 b3 : byte) (now : Time) :
  ∃ s, decodeResponse [b0; b1; b2; b3] now = Some s
       ∧ PrinterStatus.RawStatus s = (b0, b1, b2, b3)
       ∧ PrinterStatus.IsOnline s = true
       ∧ PrinterStatus.LastChecked s = now
       ∧ (PrinterStatus.CanPrint s = true
          ↔ b0 = "@"%byte ∨ b0 = "S"%byte ∨ b0 = "I"%byte).
Proof.
  eexists. split; [reflexivity|]. simpl.
  split; [done|]. split; [done|]. split; [done|].
  destruct b0; simpl; split; intros H; try done;
    try (destruct H as [H|[H|H]]; discriminate H); auto.
Qed.

(** The composite status is one of five words; "unknown" is never derived. *)
Lemma determineStatusString_range (s : PrinterStatus.t) :
  determineStatusString s ∈ ["offline"; "error"; "paused"; "busy"; "online"].
Proof.
  unfold determineStatusString. repeat case_match; set_solver.
Qed.

Lemma decodeResponse_enough (response : list byte) (now : Time) :
  (statusResponseLength ≤ length response)%nat →
  ∃ s, decodeResponse response now = Some s
       ∧ PrinterStatus.IsOnline s = true
       ∧ PrinterStatus.CanPrint s = canPrintState (PrinterStatus.PrinterState s).
Proof.
  intros Hlen. unfold decodeResponse, parseStatus.
  destruct response as [|b0 [|b1 [|b2 [|b3 rest]]]]; simpl in Hlen;
    unfold statusResponseLength in Hlen; try lia.
  eexists. split; [reflexivity|]. done.
Qed.

(** *** The registry through the network operations *)

Lemma connect_printers id w :
  PrinterManager.printers (pm (connect id w).1) = PrinterManager.printers (pm w)
  ∧ db (connect id w).1 = db w
  ∧ Env.wire (env (connect id w).1) = Env.wire (env w).
Proof. unfold connect. repeat case_match; done. Qed.

Lemma connWrite_printers id payload w :
  PrinterManager.printers (pm (connWrite id payload w).1)
  = PrinterManager.printers (pm w)
  ∧ db (connWrite id payload w).1 = db w.
Proof. unfold connWrite. repeat case_match; done. Qed.

Lemma connWrite_wire id payload w :
  Env.wire (env (connWrite id payload w).1)
  = match (connWrite id payload w).2 with
    | None => (Env.wire (env w) ++ [(id, payload)])%list
    | Some _ => Env.wire (env w)
    end.
Proof. unfold connWrite. repeat case_match; done. Qed.

Lemma writeStatusCommand_printers id w :
  PrinterManager.printers (pm (writeStatusCommand id w).1)
  = PrinterManager.printers (pm w)
  ∧ db (writeStatusCommand id w).1 = db w.
Proof.
  unfold writeStatusCommand, reconnect.
  pose proof (connWrite_printers id statusCommand w) as [H1 H1'].
  destruct (connWrite id statusCommand w) as [w1 [e1|]]; simpl in *; [|done].
  pose proof (connect_printers id (disconnect id w1)) as (H2 & H2' & _).
  destruct (connect id (disconnect id w1)) as [w2 [e2|]]; simpl in *.
  { split; congruence. }
  pose proof (connWrite_printers id statusCommand w2) as [H3 H3'].
  destruct (connWrite id statusCommand w2) as [w3 [e3|]]; simpl in *;
    split; congruence.
Qed.

Lemma writeStatusCommand_wire id w :
  Env.wire (env (writeStatusCommand id w).1)
  = match (writeStatusCommand id w).2 with
    | None => (Env.wire (env w) ++ [(id, statusCommand)])%list
    | Some _ => Env.wire (env w)
    end.
Proof.
  unfold writeStatusCommand, reconnect.
  pose proof (connWrite_wire id statusCommand w) as H1.
  destruct (connWrite id statusCommand w) as [w1 [e1|]]; simpl in *; [|done].
  pose proof (connect_printers id (disconnect id w1)) as (_ & _ & H2).
  destruct (connect id (disconnect id w1)) as [w2 [e2|]]; simpl in *.
  { congruence. }
  pose proof (connWrite_wire id statusCommand w2) as H3.
  destruct (connWrite id statusCommand w2) as [w3 [e3|]]; simpl in *; congruence.
Qed.

Lemma updatePrinterStatus_registry id st w p :
  PrinterManager.printers (pm w) !! id = Some p →
  PrinterManager.printers (pm (updatePrinterStatus id st w))
  = <[id := Printer.with_Status st (Some (Env.clock (env w) (Env.ticks (env w)))) p]>
      (PrinterManager.printers (pm w))
  ∧ Env.wire (env (updatePrinterStatus id st w)) = Env.wire (env w)
  ∧ storedStatus id (updatePrinterStatus id st w)
    = (λ old, if PrinterRow.status_allowed st then st else old)
      <$> storedStatus id w.
Proof.
  intros Hp. unfold updatePrinterStatus, storedStatus. rewrite Hp. simpl.
  destruct (PrinterRow.status_allowed st) eqn:Hst; simpl.
  - repeat case_match; simpl; rewrite ?lookup_alter_eq;
      (split; [done|]); (split; [done|]);
      by destruct (DB.printers (db w) !! id).
  - repeat case_match; simpl; (split; [done|]); (split; [done|]);
      by destruct (DB.printers (db w) !! id).
Qed.

Lemma failOffline_shape id err w w1 :
  PrinterManager.printers (pm w1) = PrinterManager.printers (pm w) →
  db w1 = db w →
  poll_shape id w (failOffline id err w1).
Proof.
  intros Hp Hd. unfold failOffline, offlineStatus. cbn [timeNow].
  eexists _, _, "offline". cbn [fst snd].
  split; [|split; [|split; [reflexivity|split; [reflexivity|]]]];
    [exact Hp | exact Hd |]. simpl. auto.
Qed.

Lemma readStatus_shape id w w1 :
  PrinterManager.printers (pm w1) = PrinterManager.printers (pm w) →
  db w1 = db w →
  poll_shape id w (readStatus id w1).
Proof.
  intros Hp Hd. unfold readStatus.
  destruct (readLoop (Env.reads (env w1)) []) as [[got|e] rest].
  - destruct (Nat.ltb_spec (length got) statusResponseLength) as [Hlt|Hge].
    + unfold offlineStatus. cbn [timeNow].
      eexists _, _, "error". cbn [fst snd].
      split; [|split; [|split; [reflexivity|split; [reflexivity|]]]];
        [exact Hp | exact Hd |]. simpl. auto.
    + cbn [timeNow].
      destruct (decodeResponse_enough got
                  (Env.clock (env (with_env (Env.with_reads rest) w1))
                     (Env.ticks (env (with_env (Env.with_reads rest) w1)))) Hge)
        as (s & -> & Hon & Hcp).
      eexists _, s, _. cbn [fst snd].
      split; [|split; [|split; [reflexivity|split; [reflexivity|]]]];
        [exact Hp | exact Hd |]. simpl. auto.
  - apply failOffline_shape; done.
Qed.

Lemma CheckStatus_shape id w p :
  PrinterManager.printers (pm w) !! id = Some p →
  poll_shape id w (CheckStatus id w).
Proof.
  intros Hp. unfold CheckStatus. rewrite Hp.
  pose proof (connect_printers id w) as (Hc & Hcd & _).
  destruct (connect id w) as [w1 [err|]]; simpl in Hc, Hcd.
  { by apply failOffline_shape. }
  pose proof (writeStatusCommand_printers id w1) as [Hw Hwd].
  destruct (writeStatusCommand id w1) as [w2 [[drop e]|]]; simpl in Hw, Hwd.
  - apply failOffline_shape; destruct drop; simpl; congruence.
  - apply readStatus_shape; congruence.
Qed.

(** X2: polling a registered printer always returns a status and records the
    outcome in the registry with a fresh last-seen time.  Without an error
    the returned status is online and the recorded status is its composite,
    whatever was recorded before; with an error the returned status is
    neither online nor ready and the recorded status is offline or error. *)
Theorem CheckStatus_records_outcome (id : Z) (w : World) (p : Printer.t) :
  PrinterManager.printers (pm w) !! id = Some p →
  ∃ s st seen,
    (CheckStatus id w).1.2 = Some s
    ∧ PrinterManager.printers (pm (CheckStatus id w).1.1) !! id
      = Some (Printer.with_Status st (Some seen) p)
    ∧ match (CheckStatus id w).2 with
      | None =>
          PrinterStatus.IsOnline s = true
          ∧ PrinterStatus.CanPrint s
            = canPrintState (PrinterStatus.PrinterState s)
          ∧ st = determineStatusString s
      | Some _ =>
          PrinterStatus.IsOnline s = false
          ∧ PrinterStatus.CanPrint s = false
          ∧ (st = "offline" ∨ st = "error")
      end.
Proof.
  intros Hp.
  destruct (CheckStatus_shape id w p Hp) as (w0 & s & st & Hp0 & Hd0 & Hw & Hs & Hm).
  rewrite <- Hp0 in Hp.
  destruct (updatePrinterStatus_registry id st w0 p Hp) as (Hreg & _ & _).
  exists s, st, (Env.clock (env w0) (Env.ticks (env w0))).
  split; [exact Hs|]. split; [|exact Hm].
  rewrite Hw, Hreg. apply lookup_insert_eq.
Qed.

(** X3: after a poll without error the registry holds the composite status,
    but the store holds it only if the CHECK constraint of [printers.status]
    admits it: for a feeding printer the registry says "busy" while the stored
    status stays what it was. *)
Theorem CheckStatus_busy_not_stored (id : Z) (w : World) (p : Printer.t)
    (s : PrinterStatus.t) :
  PrinterManager.printers (pm w) !! id = Some p →
  (CheckStatus id w).1.2 = Some s →
  (CheckStatus id w).2 = None →
  registryStatus id (CheckStatus id w).1.1 = Some (determineStatusString s)
  ∧ storedStatus id (CheckStatus id w).1.1
    = (λ old, if String.eqb (determineStatusString s) "busy" then old
              else determineStatusString s) <$> storedStatus id w.
Proof.
  intros Hp Hst Herr.
  destruct (CheckStatus_shape id w p Hp) as (w0 & s0 & st & Hp0 & Hd0 & Hw & Hs & Hm).
  rewrite Herr in Hm. rewrite Hst in Hs.
  injection Hs as <-. destruct Hm as (_ & _ & ->).
  rewrite <- Hp0 in Hp.
  destruct (updatePrinterStatus_registry id (determineStatusString s) w0 p Hp)
    as (Hreg & _ & Hsto).
  unfold registryStatus. rewrite Hw, Hreg, lookup_insert_eq. split; [done|].
  rewrite Hsto. unfold storedStatus. rewrite Hd0.
  pose proof (determineStatusString_range s) as Hr.
  destruct (DB.printers (db w) !! id); simpl; [|done]. f_equal.
  repeat (apply elem_of_cons in Hr as [->|Hr]; [reflexivity|]).
  by apply elem_of_nil in Hr.
Qed.

(** ** Transmission *)

Lemma updatePrinterStatus_wire id st w :
  Env.wire (env (updatePrinterStatus id st w)) = Env.wire (env w).
Proof.
  unfold updatePrinterStatus.
  destruct (PrinterManager.printers (pm w) !! id); [|done].
  simpl. repeat case_match; done.
Qed.

Lemma failOffline_wire id err w :
  Env.wire (env (failOffline id err w).1.1) = Env.wire (env w).
Proof.
  unfold failOffline, offlineStatus. cbn [timeNow fst snd].
  by rewrite updatePrinterStatus_wire.
Qed.

Lemma readStatus_wire id w :
  Env.wire (env (readStatus id w).1.1) = Env.wire (env w).
Proof.
  unfold readStatus.
  destruct (readLoop (Env.reads (env w)) []) as [[got|e] rest].
  - case_match.
    + unfold offlineStatus. cbn [timeNow fst snd].
      by rewrite updatePrinterStatus_wire.
    + cbn [timeNow]. case_match; cbn [fst snd]; [|done].
      by rewrite updatePrinterStatus_wire.
  - by rewrite failOffline_wire.
Qed.

Lemma failOffline_err id err w : (failOffline id err w).2 = Some err.
Proof. done. Qed.

Lemma CheckStatus_wire id w :
  (CheckStatus id w).2 = None →
  Env.wire (env (CheckStatus id w).1.1)
  = (Env.wire (env w) ++ [(id, statusCommand)])%list.
Proof.
  unfold CheckStatus.
  destruct (PrinterManager.printers (pm w) !! id); [|done].
  pose proof (connect_printers id w) as (_ & _ & Hc).
  destruct (connect id w) as [w1 [err|]]; simpl in Hc; [done|].
  pose proof (writeStatusCommand_wire id w1) as Hw.
  destruct (writeStatusCommand id w1) as [w2 [[drop e]|]]; simpl in Hw; [done|].
  intros _. rewrite readStatus_wire. congruence.
Qed.

Lemma SendCommand_wire id tspl w :
  (SendCommand id tspl w).2 = None →
  Env.wire (env (SendCommand id tspl w).1)
  = (Env.wire (env w) ++ [(id, tspl)])%list.
Proof.
  unfold SendCommand.
  destruct (PrinterManager.printers (pm w) !! id); [|done].
  pose proof (connect_printers id w) as (_ & _ & Hc).
  destruct (connect id w) as [w1 [err|]]; simpl in Hc; [done|].
  pose proof (connWrite_wire id tspl w1) as Hw.
  destruct (connWrite id tspl w1) as [w2 [e|]]; simpl in Hw; [done|].
  intros _. simpl. congruence.
Qed.

Lemma string_app_assoc (a b c : string) : (a +:+ b) +:+ c = a +:+ (b +:+ c).
Proof.
  induction a as [|x a IH]; [done|].
  change ((String x a +:+ b) +:+ c) with (String x ((a +:+ b) +:+ c)).
  change (String x a +:+ b +:+ c) with (String x (a +:+ b +:+ c)).
  by rewrite IH.
Qed.

Lemma joinedCopies_snoc (n : nat) (tspl : string) :
  joinedCopies (S n) tspl +:+ CRLF +:+ tspl = joinedCopies (S (S n)) tspl.
Proof.
  induction n as [|n IH]; [done|].
  change (joinedCopies (S (S n)) tspl)
    with (tspl +:+ CRLF +:+ joinedCopies (S n) tspl) at 1.
  change (joinedCopies (S (S (S n))) tspl)
    with (tspl +:+ CRLF +:+ joinedCopies (S (S n)) tspl).
  rewrite <- IH. by rewrite !string_app_assoc.
Qed.

Lemma appendCopies_joined (n k : nat) (tspl : string) :
  appendCopies n tspl (joinedCopies (S k) tspl) = joinedCopies (S (n + k)) tspl.
Proof.
  revert k. induction n as [|n IH]; intros k; [done|].
  cbn [appendCopies]. rewrite joinedCopies_snoc, IH. f_equal. lia.
Qed.

Lemma Print_payload (copies : Z) (tspl : string) :
  (if 1 <? copies then appendCopies (Z.to_nat (copies - 1)) tspl tspl else tspl)
  = joinedCopies (Z.to_nat (Z.max 1 copies)) tspl.
Proof.
  destruct (Z.ltb_spec 1 copies) as [Hlt|Hge].
  - change tspl with (joinedCopies 1 tspl) at 2.
    rewrite appendCopies_joined. f_equal. lia.
  - replace (Z.max 1 copies) with 1 by lia. done.
Qed.

(** X4: a successful [Print] puts on the wire the status poll and then one
    payload, the label [max 1 copies] times joined by CR LF, and adds [copies]
    to the lifetime counter in the registry (with 64-bit wrap-around) and in
    the store.  With a copy count of zero or less one label is still sent
    while the counter does not rise. *)
Theorem Print_transmits_copies (id : Z) (tspl : string) (copies : Z) (w : World) :
  (Print id tspl copies w).2 = None →
  Env.wire (env (Print id tspl copies w).1)
  = (Env.wire (env w)
     ++ [(id, statusCommand);
         (id, joinedCopies (Z.to_nat (Z.max 1 copies)) tspl)])%list
  ∧ lifetime id (Print id tspl copies w).1
    = (λ n, add64 n copies) <$> lifetime id w
  ∧ lifetime_persisted id (Print id tspl copies w).1
    = (λ n, n + copies) <$> lifetime_persisted id w.
Proof.
  intros Hok.
  destruct (Print id tspl copies w) as [w' err] eqn:HP. simpl in Hok. subst err.
  split; [|by apply (Print_success id tspl copies w w')].
  revert HP. unfold Print. rewrite Print_payload.
  pose proof (CheckStatus_wire id w) as Hc.
  destruct (CheckStatus id w) as [[w1 [status|]] [err|]]; simpl in Hc; try done.
  do 2 (case_match; [done|]).
  pose proof (SendCommand_wire id
                (joinedCopies (Z.to_nat (Z.max 1 copies)) tspl) w1) as Hs.
  destruct (SendCommand id _ w1) as [w2 [err|]]; simpl in Hs; [done|].
  intros [= <-]. simpl. rewrite Hs, Hc by done. by rewrite <- app_assoc.
Qed.

Lemma Print_failure_frame id tspl copies w :
  (Print id tspl copies w).2 ≠ None → pm_frame w (Print id tspl copies w).1.
Proof.
  unfold Print.
  pose proof (CheckStatus_frame id w) as Hc.
  destruct (CheckStatus id w) as [[w1 [status|]] [err|]]; simpl in Hc; try done.
  do 2 (case_match; [done|]).
  set (full := if 1 <? copies then _ else tspl).
  pose proof (SendCommand_frame id full w1) as Hs.
  destruct (SendCommand id full w1) as [w2 [err|]]; simpl in *; [|done].
  intros _. eauto using pm_frame_trans.
Qed.

(** X5: a [Print] that returns an error counts nothing and touches neither
    the job table nor the scheduler: the lifetime counters of every printer, in
    the registry and in the store, are what they were. *)
Theorem Print_failure_counts_nothing (id : Z) (tspl : string) (copies : Z)
    (w : World) :
  (Print id tspl copies w).2 ≠ None →
  (∀ id', lifetime id' (Print id tspl copies w).1 = lifetime id' w
          ∧ lifetime_persisted id' (Print id tspl copies w).1
            = lifetime_persisted id' w)
  ∧ DB.print_jobs (db (Print id tspl copies w).1) = DB.print_jobs (db w)
  ∧ q (Print id tspl copies w).1 = q w.
Proof.
  intros Herr. destruct (Print_failure_frame id tspl copies w Herr).
  split; [|done]. intros id'. split; done.
Qed.

(** ** The connection cache *)

Lemma pm_step_refl w : pm_step w w.
Proof. split; auto. Qed.

Lemma pm_step_trans w1 w2 w3 : pm_step w1 w2 → pm_step w2 w3 → pm_step w1 w3.
Proof.
  intros [P1 C1] [P2 C2]. split.
  - intros id. by rewrite P1, P2.
  - intros id Hin. destruct (C2 id Hin) as [H|H].
    + destruct (C1 id H); auto.
    + right. by apply P1.
Qed.

Lemma pm_step_same w w' : pm w' = pm w → pm_step w w'.
Proof. intros H. split; intros id; rewrite H; auto. Qed.

Lemma connect_step id w : pm_step w (connect id w).1.
Proof.
  unfold connect.
  destruct (PrinterManager.printers (pm w) !! id) eqn:Hp; [|apply pm_step_refl].
  repeat case_match; try by apply pm_step_same.
  split; [done|]. simpl. intros id' [Hin|Hin]%elem_of_union; [by left|right].
  apply elem_of_singleton in Hin as ->. by rewrite Hp.
Qed.

Lemma disconnect_step id w : pm_step w (disconnect id w).
Proof.
  split; [done|]. simpl. intros id' Hin. left.
  by apply elem_of_difference in Hin as [Hin _].
Qed.

Lemma connWrite_step id payload w : pm_step w (connWrite id payload w).1.
Proof. unfold connWrite. repeat case_match; by apply pm_step_same. Qed.

Lemma updatePrinterStatus_step id st w : pm_step w (updatePrinterStatus id st w).
Proof.
  unfold updatePrinterStatus.
  destruct (PrinterManager.printers (pm w) !! id) as [p|] eqn:Hp;
    [|apply pm_step_refl].
  simpl.
  assert (Hdom : ∀ id' now,
            is_Some (PrinterManager.printers (pm w) !! id')
            ↔ is_Some (<[id := Printer.with_Status st now p]>
                         (PrinterManager.printers (pm w)) !! id')).
  { intros id' now. destruct (decide (id = id')) as [<-|Hne].
    - rewrite lookup_insert_eq, Hp. split; eauto.
    - by rewrite lookup_insert_ne. }
  repeat case_match; (split; [intros id'; apply Hdom|simpl; intros; by left]).
Qed.

Lemma failOffline_step id err w : pm_step w (failOffline id err w).1.1.
Proof.
  unfold failOffline, offlineStatus. cbn [timeNow fst snd].
  eapply pm_step_trans; [|apply updatePrinterStatus_step]. by apply pm_step_same.
Qed.

Lemma writeStatusCommand_step id w : pm_step w (writeStatusCommand id w).1.
Proof.
  unfold writeStatusCommand, reconnect.
  pose proof (connWrite_step id statusCommand w) as H1.
  destruct (connWrite id statusCommand w) as [w1 [e1|]]; [|exact H1].
  pose proof (connect_step id (disconnect id w1)) as H2.
  pose proof (disconnect_step id w1) as Hd.
  destruct (connect id (disconnect id w1)) as [w2 [e2|]];
    [eauto using pm_step_trans|].
  pose proof (connWrite_step id statusCommand w2) as H3.
  destruct (connWrite id statusCommand w2) as [w3 [e3|]];
    eauto 10 using pm_step_trans.
Qed.

Lemma readStatus_step id w : pm_step w (readStatus id w).1.1.
Proof.
  unfold readStatus.
  destruct (readLoop (Env.reads (env w)) []) as [[got|e] rest].
  - case_match.
    + unfold offlineStatus. cbn [timeNow fst snd].
      eapply pm_step_trans; [|apply updatePrinterStatus_step].
      by apply pm_step_same.
    + cbn [timeNow fst snd]. case_match.
      * eapply pm_step_trans; [|apply updatePrinterStatus_step].
        by apply pm_step_same.
      * by apply pm_step_same.
  - eapply pm_step_trans; [|apply failOffline_step].
    eapply pm_step_trans; [|apply disconnect_step]. by apply pm_step_same.
Qed.

Lemma CheckStatus_step id w : pm_step w (CheckStatus id w).1.1.
Proof.
  unfold CheckStatus.
  destruct (PrinterManager.printers (pm w) !! id); [|apply pm_step_refl].
  pose proof (connect_step id w) as Hc.
  destruct (connect id w) as [w1 [err|]].
  { eapply pm_step_trans; [exact Hc|apply failOffline_step]. }
  pose proof (writeStatusCommand_step id w1) as Hw.
  destruct (writeStatusCommand id w1) as [w2 [[drop e]|]].
  - eapply pm_step_trans; [|apply failOffline_step].
    destruct drop; eauto using pm_step_trans, disconnect_step.
  - eapply pm_step_trans; [|apply readStatus_step].
    eauto using pm_step_trans.
Qed.

Lemma SendCommand_step id tspl w : pm_step w (SendCommand id tspl w).1.
Proof.
  unfold SendCommand.
  destruct (PrinterManager.printers (pm w) !! id); [|apply pm_step_refl].
  pose proof (connect_step id w) as Hc.
  destruct (connect id w) as [w1 [err|]]; simpl in *; [done|].
  pose proof (connWrite_step id tspl w1) as Hw.
  destruct (connWrite id tspl w1) as [w2 [e|]]; simpl in *;
    eauto using pm_step_trans, disconnect_step.
Qed.

Lemma Print_step id tspl copies w : pm_step w (Print id tspl copies w).1.
Proof.
  unfold Print.
  pose proof (CheckStatus_step id w) as Hc.
  destruct (CheckStatus id w) as [[w1 [status|]] [err|]]; simpl in Hc; try done.
  do 2 (case_match; [done|]).
  set (full := if 1 <? copies then _ else tspl).
  pose proof (SendCommand_step id full w1) as Hs.
  destruct (SendCommand id full w1) as [w2 [err|]]; simpl in *;
    [eauto using pm_step_trans|].
  eapply pm_step_trans; [exact Hc|]. eapply pm_step_trans; [exact Hs|].
  split; simpl; [|auto].
  intros id'. rewrite lookup_alter. case_decide as Heq; [|done].
  subst id'. rewrite fmap_is_Some. done.
Qed.

Lemma pm_step_registered w w' :
  pm_step w w' → connections_registered w → connections_registered w'.
Proof.
  intros [P C] Hreg id Hin. apply P. destruct (C id Hin); auto.
Qed.

(** X6: polling, sending and printing keep the connection cache within the
    registry: if no connection is cached for an unregistered printer before
    [CheckStatus], [SendCommand] or [Print], none is afterwards, whatever the
    network does; and the same printers stay registered. *)
Theorem connections_stay_registered (id : Z) (tspl : string) (copies : Z)
    (w : World) :
  connections_registered w →
  connections_registered (CheckStatus id w).1.1
  ∧ connections_registered (SendCommand id tspl w).1
  ∧ connections_registered (Print id tspl copies w).1
  ∧ ∀ id', is_Some (PrinterManager.printers (pm w) !! id')
           ↔ is_Some (PrinterManager.printers (pm (Print id tspl copies w).1) !! id').
Proof.
  intros Hreg.
  split; [eapply pm_step_registered; [apply CheckStatus_step|done]|].
  split; [eapply pm_step_registered; [apply SendCommand_step|done]|].
  split; [eapply pm_step_registered; [apply Print_step|done]|].
  apply Print_step.
Qed.

(** ** Pausing and removing a printer in the printer manager *)

(** X7: pausing a registered printer in the printer manager records "paused"
    in the registry and in the store and leaves the scheduler, its paused set
    included, and the lifetime counter alone; the pause does not outlast the
    next poll, since a poll without error records the composite status of the
    device in its place. *)
Theorem Manager_pause_overwritten_by_poll (id : Z) (w : World) (p : Printer.t) :
  PrinterManager.printers (pm w) !! id = Some p →
  (Manager.PausePrinter id w).2 = None
  ∧ registryStatus id (Manager.PausePrinter id w).1 = Some "paused"
  ∧ storedStatus id (Manager.PausePrinter id w).1
    = (λ _, "paused") <$> storedStatus id w
  ∧ q (Manager.PausePrinter id w).1 = q w
  ∧ lifetime id (Manager.PausePrinter id w).1 = lifetime id w
  ∧ ((CheckStatus id (Manager.PausePrinter id w).1).2 = None →
     ∃ s, (CheckStatus id (Manager.PausePrinter id w).1).1.2 = Some s
          ∧ registryStatus id (CheckStatus id (Manager.PausePrinter id w).1).1.1
            = Some (determineStatusString s)).
Proof.
  intros Hp.
  assert (Hreg : PrinterManager.printers (pm (Manager.PausePrinter id w).1)
                 = <[id := Printer.with_Status "paused" (Printer.LastSeenAt p) p]>
                     (PrinterManager.printers (pm w))
                 ∧ (Manager.PausePrinter id w).2 = None
                 ∧ q (Manager.PausePrinter id w).1 = q w
                 ∧ storedStatus id (Manager.PausePrinter id w).1
                   = (λ _, "paused") <$> storedStatus id w).
  { unfold Manager.PausePrinter, Manager.setStatus, storedStatus. rewrite Hp.
    simpl. case_match; simpl; rewrite lookup_alter_eq;
      (repeat split; try done); by destruct (DB.printers (db w) !! id). }
  destruct Hreg as (Hreg & Herr & Hq & Hsto).
  split; [done|]. split.
  { unfold registryStatus. by rewrite Hreg, lookup_insert_eq. }
  split; [done|]. split; [done|]. split.
  { unfold lifetime. by rewrite Hreg, lookup_insert_eq, Hp. }
  intros Hok.
  set (w1 := (Manager.PausePrinter id w).1) in *.
  assert (Hp1 : PrinterManager.printers (pm w1) !! id
                = Some (Printer.with_Status "paused" (Printer.LastSeenAt p) p))
    by by rewrite Hreg, lookup_insert_eq.
  destruct (CheckStatus_shape id w1 _ Hp1)
    as (w0 & s & st & Hp0 & Hd0 & Hw & Hs & Hm).
  rewrite Hok in Hm. destruct Hm as (_ & _ & ->).
  exists s. split; [done|].
  rewrite <- Hp0 in Hp1.
  destruct (updatePrinterStatus_registry id (determineStatusString s) w0 _ Hp1)
    as (Hreg' & _ & _).
  unfold registryStatus. by rewrite Hw, Hreg', lookup_insert_eq.
Qed.

(** X8: removing a registered printer drops its registry entry, its stored row
    and its cached connection and nothing else; the jobs that name it stay,
    and from then on polling it or printing on it fails with "printer not
    found" without any effect. *)
Theorem RemovePrinter_forgets (id : Z) (w : World) (p : Printer.t)
    (tspl : string) (copies : Z) :
  PrinterManager.printers (pm w) !! id = Some p →
  (Manager.RemovePrinter id w).2 = None
  ∧ let w1 := (Manager.RemovePrinter id w).1 in
    PrinterManager.printers (pm w1) = delete id (PrinterManager.printers (pm w))
    ∧ DB.printers (db w1) = delete id (DB.printers (db w))
    ∧ PrinterManager.connections (pm w1)
      = PrinterManager.connections (pm w) ∖ {[id]}
    ∧ DB.print_jobs (db w1) = DB.print_jobs (db w)
    ∧ q w1 = q w
    ∧ GetPrinter id w1 = Err ErrPrinterNotFound
    ∧ CheckStatus id w1 = (w1, None, Some ErrPrinterNotFound)
    ∧ Print id tspl copies w1 = (w1, Some ErrPrinterNotFound)
    ∧ (connections_registered w → connections_registered w1).
Proof.
  intros Hp. unfold Manager.RemovePrinter. simpl. rewrite Hp. simpl.
  split; [done|]. do 5 (split; [done|]).
  unfold GetPrinter, Print, CheckStatus. simpl. rewrite lookup_delete_eq.
  do 3 (split; [done|]).
  intros Hreg id' Hin. simpl in *.
  apply elem_of_difference in Hin as [Hin Hne].
  rewrite lookup_delete_ne by set_solver. by apply Hreg.
Qed.

(** Removing a printer that is not registered is refused. *)
Lemma RemovePrinter_unknown (id : Z) (w : World) :
  PrinterManager.printers (pm w) !! id = None →
  (Manager.RemovePrinter id w).2 = Some ErrPrinterNotFound.
Proof. intros Hp. unfold Manager.RemovePrinter. simpl. by rewrite Hp. Qed.

(** ** Selecting and dequeuing pending jobs *)

#[local] Instance dispatch_before_total : Total dispatch_before.
Proof. intros a b. unfold dispatch_before. lia. Qed.

#[local] Instance dispatch_before_trans : Transitive dispatch_before.
Proof. intros a b c. unfold dispatch_before. lia. Qed.

Lemma selectWhere_elem cond d k r :
  (k, r) ∈ selectWhere cond d ↔ DB.print_jobs d !! k = Some r ∧ cond r = true.
Proof.
  unfold selectWhere. rewrite list_elem_of_filter, merge_sort_Permutation.
  rewrite elem_of_map_to_list. simpl. tauto.
Qed.

Lemma selectWhere_NoDup cond d : NoDup (selectWhere cond d).*1.
Proof.
  unfold selectWhere.
  eapply sublist_NoDup; [|apply fmap_sublist, sublist_filter].
  rewrite merge_sort_Permutation. apply NoDup_fst_map_to_list.
Qed.

Lemma selectPendingRows_elem d k r :
  (k, r) ∈ selectPendingRows d
  ↔ DB.print_jobs d !! k = Some r ∧ JobRow.status r = "pending".
Proof.
  unfold selectPendingRows. rewrite merge_sort_Permutation, selectWhere_elem.
  by rewrite String.eqb_eq.
Qed.

(** X9: the pending query returns exactly the pending jobs, each once, in
    dispatch order: a job never comes after one of lower priority, nor after
    one of the same priority created later. *)
Theorem selectPending_exact_and_ordered (d : DB.t) :
  (∀ id, id ∈ selectPending d
         ↔ ∃ r, DB.print_jobs d !! id = Some r ∧ JobRow.status r = "pending")
  ∧ NoDup (selectPending d)
  ∧ selectPending d = (selectPendingRows d).*1
  ∧ (∀ k r, (k, r) ∈ selectPendingRows d → DB.print_jobs d !! k = Some r)
  ∧ (∀ i j a b, selectPendingRows d !! i = Some a →
                selectPendingRows d !! j = Some b → (i < j)%nat →
                JobRow.priority b.2 ≤ JobRow.priority a.2
                ∧ (JobRow.priority b.2 = JobRow.priority a.2 →
                   JobRow.created_at a.2 ≤ JobRow.created_at b.2)).
Proof.
  split; [|split; [|split; [done|split]]].
  - intros id. change (selectPending d) with (selectPendingRows d).*1.
    rewrite list_elem_of_fmap. split.
    + intros ([k r] & -> & Hin). exists r. by apply selectPendingRows_elem.
    + intros (r & Hr). exists (id, r). split; [done|].
      by apply selectPendingRows_elem.
  - change (selectPending d) with (selectPendingRows d).*1.
    unfold selectPendingRows. rewrite merge_sort_Permutation.
    apply selectWhere_NoDup.
  - intros k r Hin. by apply selectPendingRows_elem in Hin as [? _].
  - pose proof (StronglySorted_merge_sort dispatch_before
                  (selectWhere (λ r, String.eqb (JobRow.status r) "pending") d))
      as Hsorted.
    fold (selectPendingRows d) in Hsorted.
    revert Hsorted. generalize (selectPendingRows d). clear.
    intros l Hsorted. induction Hsorted as [|x l Hs IH Hall]; intros i j a b Hi Hj Hij.
    { by rewrite lookup_nil in Hi. }
    destruct j as [|j]; [lia|]. simpl in Hj.
    destruct i as [|i]; simpl in Hi.
    + injection Hi as ->. rewrite Forall_forall in Hall.
      assert (dispatch_before a b) as Hab.
      { apply Hall. by eapply list_elem_of_lookup_2. }
      unfold dispatch_before in Hab. lia.
    + eapply (IH i j); eauto. lia.
Qed.

Lemma selectPendingRows_sorted d :
  StronglySorted dispatch_before (selectPendingRows d).
Proof. apply StronglySorted_merge_sort; apply _. Qed.

(** X10: [Dequeue] on a well-formed job table.  With no pending job it
    returns no job and changes nothing.  Otherwise it takes a pending job of
    the highest priority, the earliest created among those, stores it as
    processing with the current time as start, everything else staying as it
    was, and returns it as processing; if the error message of that job is
    NULL the scan fails and nothing changes. *)
Theorem Dequeue_takes_first_pending (w : World) :
  jobs_wf w →
  match (Dequeue w).2 with
  | Ok None =>
      (Dequeue w).1 = w
      ∧ ∀ id r, jobRow id w = Some r → JobRow.status r ≠ "pending"
  | Ok (Some job) =>
      ∃ r, jobRow (Job.ID job) w = Some r
           ∧ JobRow.status r = "pending"
           ∧ (∀ id' r', jobRow id' w = Some r' → JobRow.status r' = "pending" →
                JobRow.priority r' ≤ Job.Priority job
                ∧ (JobRow.priority r' = Job.Priority job →
                   Job.CreatedAt job ≤ JobRow.created_at r'))
           ∧ jobRow (Job.ID job) (Dequeue w).1
             = Some (JobRow.set_status_fields "processing"
                       (JobRow.error_message r)
                       (Some (Env.clock (env w) (Env.ticks (env w))))
                       (JobRow.completed_at r) r)
           ∧ (∀ id', id' ≠ Job.ID job → jobRow id' (Dequeue w).1 = jobRow id' w)
           ∧ Job.Status job = JobStatusProcessing
           ∧ Job.StartedAt job = Some (Env.clock (env w) (Env.ticks (env w)))
           ∧ Job.PrinterID job = JobRow.printer_id r
           ∧ Job.Copies job = JobRow.copies r
           ∧ Job.TSPLContent job = JobRow.tspl_content r
  | Err _ => (Dequeue w).1 = w
  end.
Proof.
  intros Hwf. unfold Dequeue.
  pose proof (selectPendingRows_sorted (db w)) as Hsorted.
  pose proof (selectPendingRows_elem (db w)) as Helem.
  destruct (selectPendingRows (db w)) as [|[k r] rest].
  - simpl. split; [done|]. intros id r Hr Hst.
    assert ((id, r) ∈ (@nil (Z * JobRow.t))) as Hin by by apply Helem.
    by apply elem_of_nil in Hin.
  - destruct (Helem k r) as [Hhead _].
    destruct Hhead as [Hr Hst]; [by left|].
    destruct (Hwf k r Hr) as [Hid _].
    destruct (JobRow.error_message r) as [msg|] eqn:Hmsg; [|done].
    simpl. rewrite Hid. exists r.
    split; [done|]. split; [done|]. split.
    { intros id' r' Hr' Hst'.
      assert ((id', r') ∈ (k, r) :: rest) as Hin by by apply Helem.
      apply elem_of_cons in Hin as [[= -> ->]|Hin]; [lia|].
      apply StronglySorted_inv in Hsorted as [_ Hall].
      rewrite Forall_forall in Hall. specialize (Hall _ Hin).
      unfold dispatch_before in Hall. simpl in Hall. lia. }
    unfold jobRow in *. simpl. rewrite lookup_alter_eq, Hr, Hmsg.
    split; [simpl; by rewrite Hmsg|]. split; [|done].
    intros id' Hne. by rewrite lookup_alter_ne.
Qed.

(** ** The dispatch channel *)

Lemma offer_bounded id w : channel_bounded w → channel_bounded (offer id w).1.
Proof.
  unfold channel_bounded, offer. intros Hb.
  destruct (Nat.ltb_spec (length (Queue.jobCh (q w))) jobChCapacity); simpl;
    [|done].
  rewrite length_app. simpl. lia.
Qed.

Lemma updateJobStatus_q id st msg started completed w :
  q (updateJobStatus id st msg started completed w) = q w
  ∧ env (updateJobStatus id st msg started completed w) = env w
  ∧ pm (updateJobStatus id st msg started completed w) = pm w.
Proof. unfold updateJobStatus. by case_match. Qed.

Lemma sendJobEvent_q ev id pid st msg w :
  q (sendJobEvent ev id pid st msg w) = q w
  ∧ db (sendJobEvent ev id pid st msg w) = db w
  ∧ pm (sendJobEvent ev id pid st msg w) = pm w.
Proof. unfold sendJobEvent. by case_match. Qed.

Lemma handleJobFailure_q job msg w : q (handleJobFailure job msg w) = q w.
Proof.
  unfold handleJobFailure. case_match; [done|]. cbn [timeNow].
  destruct (sendJobEvent_q "job_failed" (Job.ID job) (Job.PrinterID job)
              JobStatusFailed msg
              (updateJobStatus (Job.ID job) JobStatusFailed msg None
                 (Some (Env.clock (env w) (Env.ticks (env w))))
                 (with_env (Env.with_ticks (S (Env.ticks (env w)))) w)))
    as (-> & _).
  by destruct (updateJobStatus_q (Job.ID job) JobStatusFailed msg None
                 (Some (Env.clock (env w) (Env.ticks (env w))))
                 (with_env (Env.with_ticks (S (Env.ticks (env w)))) w))
    as (-> & _).
Qed.

Lemma transmitJob_q jobID job w : q (transmitJob jobID job w) = q w.
Proof.
  unfold transmitJob. cbn [timeNow].
  set (w1 := sendJobEvent _ _ _ _ _ _).
  assert (Hq1 : q w1 = q w).
  { subst w1. destruct (sendJobEvent_q "job_started" jobID (Job.PrinterID job)
        JobStatusProcessing ""
        (updateJobStatus jobID JobStatusProcessing ""
           (Some (Env.clock (env w) (Env.ticks (env w)))) None
           (with_env (Env.with_ticks (S (Env.ticks (env w)))) w))) as (-> & _).
    by destruct (updateJobStatus_q jobID JobStatusProcessing ""
           (Some (Env.clock (env w) (Env.ticks (env w)))) None
           (with_env (Env.with_ticks (S (Env.ticks (env w)))) w)) as (-> & _). }
  clearbody w1.
  destruct (Queue.printerManager (q w1)); cbn [negb];
    [|by rewrite handleJobFailure_q].
  set (w2 := with_env _ w1).
  pose proof (Print_frame_jobs (Job.PrinterID job) (Job.TSPLContent job)
                (Job.Copies job) w2) as (_ & Hq2 & _).
  destruct (Print _ _ _ w2) as [w3 [err|]]; simpl in Hq2.
  { rewrite handleJobFailure_q. congruence. }
  cbn [timeNow]. unfold incrementPrintCounter. simpl.
  destruct (sendJobEvent_q "job_completed" jobID (Job.PrinterID job)
              JobStatusCompleted ""
              (updateJobStatus jobID JobStatusCompleted "" None
                 (Some (Env.clock (env w3) (Env.ticks (env w3))))
                 (with_env (Env.with_ticks (S (Env.ticks (env w3)))) w3)))
    as (-> & _).
  destruct (updateJobStatus_q jobID JobStatusCompleted "" None
              (Some (Env.clock (env w3) (Env.ticks (env w3))))
              (with_env (Env.with_ticks (S (Env.ticks (env w3)))) w3))
    as (-> & _).
  simpl. congruence.
Qed.

Lemma processJob_q jobID w : q (processJob jobID w) = q w.
Proof.
  unfold processJob. destruct (GetJob jobID w) as [job|e]; [|done].
  case_match; [done|].
  case_match; [by destruct (updateJobStatus_q jobID JobStatusPaused "" None None w)|].
  repeat case_match; rewrite ?transmitJob_q, ?handleJobFailure_q; done.
Qed.

Lemma offerUntilFull_bounded ids w :
  channel_bounded w → channel_bounded (offerUntilFull ids w).
Proof.
  revert w. induction ids as [|id ids IH]; intros w Hb; simpl; [done|].
  pose proof (offer_bounded id w Hb) as Ho.
  destruct (offer id w) as [w1 [|]]; simpl in Ho; auto.
Qed.

Lemma offerAll_bounded ids w :
  channel_bounded w → channel_bounded (offerAll ids w).1.
Proof.
  revert w. induction ids as [|id ids IH]; intros w Hb; simpl; [done|].
  pose proof (offer_bounded id w Hb) as Ho.
  destruct (offer id w) as [w1 ok]; simpl in Ho.
  specialize (IH w1 Ho). by destruct (offerAll ids w1).
Qed.

Lemma resume_fold_bounded ids w :
  channel_bounded w →
  channel_bounded
    (foldl (λ w id, (offer id (updateJobStatus id JobStatusPending "" None None w)).1)
       w ids).
Proof.
  revert w. induction ids as [|id ids IH]; intros w Hb; simpl; [done|].
  apply IH, offer_bounded. unfold channel_bounded.
  by destruct (updateJobStatus_q id JobStatusPending "" None None w) as (-> & _).
Qed.

Lemma go_fold_bounded gs w :
  channel_bounded w → channel_bounded (foldl (λ w g, go g w) w gs).
Proof.
  revert w. induction gs as [|g gs IH]; intros w Hb; simpl; [done|]. by apply IH.
Qed.

(** X11: the dispatch channel never holds more than its 1000 identifiers:
    every operation of the scheduler that offers to it, and a worker taking
    from it and processing the job, keeps the bound. *)
Theorem channel_stays_bounded (w : World) (job : Job.t) (id : Z) (n : nat) :
  channel_bounded w →
  channel_bounded (Enqueue job w).1.1
  ∧ channel_bounded (ReprintJob id w).1
  ∧ channel_bounded (RetryJob id w).1
  ∧ channel_bounded (ResumeJob id w).1
  ∧ channel_bounded (ResumePrinter id w).1
  ∧ channel_bounded (fireTimer n w)
  ∧ channel_bounded (enqueuePendingJobs w)
  ∧ channel_bounded (Start w).1.1
  ∧ channel_bounded (workerReceive w).
Proof.
  intros Hb.
  assert (HE : ∀ j, channel_bounded (Enqueue j w).1.1).
  { intros j. unfold Enqueue. case_match; [done|]. cbn [timeNow fst snd].
    by apply offer_bounded. }
  split; [apply HE|]. split.
  { unfold ReprintJob. destruct (GetJob id w); [|done].
    pose proof (HE (Job.mk 0 (Job.PrinterID a) (Job.TemplateID a)
                      (Job.VariablesJSON a) (Job.TSPLContent a) JobStatusPending
                      (Job.Priority a) 0 (Job.MaxRetries a) (Job.Copies a) ""
                      (Job.SubmittedBy a) 0 None None)) as H.
    by destruct (Enqueue _ w) as [[w' j'] r]. }
  split.
  { unfold RetryJob. destruct (GetJob id w); [|done]. case_match; [done|].
    by apply offer_bounded. }
  split.
  { unfold ResumeJob. destruct (GetJob id w); [|done].
    do 2 (case_match; [done|]). apply offer_bounded. unfold channel_bounded.
    by destruct (updateJobStatus_q id JobStatusPending "" None None w) as (-> & _). }
  split; [by apply resume_fold_bounded|].
  split.
  { unfold fireTimer. destruct (Env.timers (env w) !! n) as [[d jid]|]; [|done].
    unfold retryJob. apply offer_bounded. unfold channel_bounded.
    by destruct (updateJobStatus_q jid JobStatusPending "" None None
                   (with_env (λ e, Env.with_timers (delete n (Env.timers e)) e) w))
      as (-> & _). }
  split; [by apply offerUntilFull_bounded|].
  split.
  { unfold Start. case_match; [done|]. unfold recoverJobs.
    set (w1 := resetProcessing _).
    pose proof (offerAll_bounded (selectPending (db w1)) w1 Hb) as Ho.
    destruct (offerAll (selectPending (db w1)) w1) as [w2 acts]. simpl in *.
    by apply go_fold_bounded. }
  unfold workerReceive. destruct (Queue.jobCh (q w)) as [|jid rest] eqn:Hch;
    [done|].
  unfold channel_bounded in *. rewrite processJob_q. simpl.
  rewrite Hch in Hb. simpl in Hb. lia.
Qed.

Lemma offerUntilFull_prefix ids w :
  ∃ n, (n ≤ length ids)%nat
       ∧ Queue.jobCh (q (offerUntilFull ids w))
         = (Queue.jobCh (q w) ++ take n ids)%list
       ∧ db (offerUntilFull ids w) = db w
       ∧ env (offerUntilFull ids w) = env w
       ∧ ((n < length ids)%nat →
          (jobChCapacity ≤ length (Queue.jobCh (q (offerUntilFull ids w))))%nat).
Proof.
  revert w. induction ids as [|id ids IH]; intros w; simpl.
  { exists 0%nat. rewrite app_nil_r. repeat split; try done. lia. }
  unfold offer.
  destruct (Nat.ltb_spec (length (Queue.jobCh (q w))) jobChCapacity) as [Hlt|Hge].
  - destruct (IH (with_q (Queue.with_jobCh (Queue.jobCh (q w) ++ [id])) w))
      as (n & Hn & Hch & Hdb & Henv & Hfull).
    exists (S n). simpl in *.
    split; [lia|]. split; [by rewrite Hch, <- app_assoc|].
    split; [done|]. split; [done|].
    intros Hlt'. apply Hfull. lia.
  - exists 0%nat. simpl. rewrite app_nil_r. repeat split; try done; lia.
Qed.

(** X12: one sweep of the dispatcher leaves the store alone and appends to
    the channel a prefix of the pending jobs in dispatch order, of at most
    100 identifiers; it stops short of the first 100 only when the channel is
    full. *)
Theorem enqueuePendingJobs_offers_prefix (w : World) :
  db (enqueuePendingJobs w) = db w
  ∧ ∃ n, (n ≤ 100)%nat
         ∧ Queue.jobCh (q (enqueuePendingJobs w))
           = (Queue.jobCh (q w) ++ take n (selectPending (db w)))%list
         ∧ ((n < 100)%nat → (n < length (selectPending (db w)))%nat →
            (jobChCapacity ≤ length (Queue.jobCh (q (enqueuePendingJobs w))))%nat).
Proof.
  unfold enqueuePendingJobs.
  destruct (offerUntilFull_prefix (take 100 (selectPending (db w))) w)
    as (n & Hn & Hch & Hdb & _ & Hfull).
  split; [done|]. rewrite length_take in Hn, Hfull.
  exists n. split; [lia|]. split.
  - rewrite Hch, take_take. f_equal. f_equal. lia.
  - intros H1 H2. apply Hfull. lia.
Qed.

(** ** Pausing and resuming *)

(** X13: for a job that exists, [PauseJob] succeeds exactly when the job is
    pending or processing; then only the status changes, to paused, and the
    identifier stays in the channel if it was there; otherwise an error is
    returned and nothing changes. *)
Theorem PauseJob_exactly_pending_or_processing (id : Z) (w : World)
    (r : JobRow.t) :
  jobRow id w = Some r →
  ((PauseJob id w).2 = None
   ↔ JobRow.status r = "pending" ∨ JobRow.status r = "processing")
  ∧ ((PauseJob id w).2 = None →
     jobRow id (PauseJob id w).1 = Some (JobRow.set_status "paused" r)
     ∧ (∀ id', id' ≠ id → jobRow id' (PauseJob id w).1 = jobRow id' w)
     ∧ q (PauseJob id w).1 = q w
     ∧ env (PauseJob id w).1 = env w)
  ∧ ((PauseJob id w).2 ≠ None → (PauseJob id w).1 = w).
Proof.
  intros Hr. unfold PauseJob. unfold jobRow in Hr. rewrite Hr.
  destruct (String.eqb (JobRow.status r) "pending"
            || String.eqb (JobRow.status r) "processing") eqn:Hst; simpl.
  - apply eqb_or_true in Hst. split; [done|]. split; [|done].
    intros _. unfold jobRow. simpl. split; [by rewrite lookup_insert_eq|].
    split; [|done]. intros id' Hne. by rewrite lookup_insert_ne.
  - split; [|done]. split; [done|].
    intros Hs. apply eqb_or_true in Hs. congruence.
Qed.

Lemma PausePrinter_rows printerID w id :
  jobRow id (PausePrinter printerID w).1
  = (λ r, if (JobRow.printer_id r =? printerID)
             && String.eqb (JobRow.status r) "pending"
          then JobRow.set_status "paused" r else r) <$> jobRow id w.
Proof. unfold PausePrinter, jobRow. simpl. by rewrite lookup_fmap. Qed.

(** X14: [PausePrinter] always succeeds: it marks the printer paused for the
    workers, turns exactly the pending jobs of that printer into paused jobs
    and changes no other row, no other printer's mark and not the channel. *)
Theorem PausePrinter_parks_pending (printerID : Z) (w : World) :
  (PausePrinter printerID w).2 = None
  ∧ printerPaused printerID (PausePrinter printerID w).1 = true
  ∧ (∀ other, other ≠ printerID →
       printerPaused other (PausePrinter printerID w).1 = printerPaused other w)
  ∧ (∀ id, jobRow id (PausePrinter printerID w).1
           = (λ r, if (JobRow.printer_id r =? printerID)
                      && String.eqb (JobRow.status r) "pending"
                   then JobRow.set_status "paused" r else r) <$> jobRow id w)
  ∧ (∀ id r, jobRow id (PausePrinter printerID w).1 = Some r →
       JobRow.printer_id r = printerID → JobRow.status r ≠ "pending")
  ∧ Queue.jobCh (q (PausePrinter printerID w).1) = Queue.jobCh (q w).
Proof.
  split; [done|]. split.
  { unfold printerPaused, PausePrinter. simpl. by rewrite lookup_insert_eq. }
  split.
  { intros other Hne. unfold printerPaused, PausePrinter. simpl.
    by rewrite lookup_insert_ne. }
  split; [apply PausePrinter_rows|]. split; [|done].
  intros id r. rewrite PausePrinter_rows.
  destruct (jobRow id w) as [r0|]; simpl; [|done].
  intros [= <-] Hp.
  destruct (JobRow.printer_id r0 =? printerID) eqn:Hpid; simpl in *.
  - destruct (String.eqb_spec (JobRow.status r0) "pending"); simpl; done.
  - lia.
Qed.

Lemma jobRow_offer id a w : jobRow id (offer a w).1 = jobRow id w.
Proof. unfold jobRow. by rewrite offer_db. Qed.

Lemma resume_fold_rows ids w id :
  jobRow id
    (foldl (λ w id, (offer id (updateJobStatus id JobStatusPending "" None None w)).1)
       w ids)
  = (λ r, if bool_decide (id ∈ ids)
          then JobRow.set_status_fields "pending" (Some "") None None r else r)
    <$> jobRow id w.
Proof.
  revert w. induction ids as [|a ids IH]; intros w; simpl.
  { by destruct (jobRow id w). }
  rewrite IH, jobRow_offer.
  destruct (decide (a = id)) as [->|Hne].
  - unfold jobRow, updateJobStatus. simpl. rewrite lookup_alter_eq.
    destruct (DB.print_jobs (db w) !! id) as [r|]; simpl; [|done].
    rewrite (bool_decide_eq_true_2 (id ∈ id :: ids)) by by left.
    by case_bool_decide.
  - rewrite jobRow_updateJobStatus_ne by done.
    destruct (jobRow id w) as [r|]; simpl; [|done]. f_equal.
    destruct (decide (id ∈ ids)) as [Hin|Hnin].
    + rewrite !bool_decide_eq_true_2; [done| by right | done].
    + rewrite !bool_decide_eq_false_2; [done| |done].
      intros [?|?]%elem_of_cons; done.
Qed.

Lemma resume_fold_q ids w :
  Queue.pausedPrinters
    (q (foldl (λ w id, (offer id (updateJobStatus id JobStatusPending "" None None w)).1)
          w ids))
  = Queue.pausedPrinters (q w).
Proof.
  revert w. induction ids as [|a ids IH]; intros w; simpl; [done|].
  rewrite IH, offer_pausedPrinters.
  by destruct (updateJobStatus_q a JobStatusPending "" None None w) as (-> & _).
Qed.

Lemma ResumePrinter_rows printerID w id :
  jobRow id (ResumePrinter printerID w).1
  = (λ r, if (JobRow.printer_id r =? printerID)
             && String.eqb (JobRow.status r) "paused"
          then JobRow.set_status_fields "pending" (Some "") None None r
          else r) <$> jobRow id w.
Proof.
  unfold ResumePrinter. cbn [fst]. rewrite resume_fold_rows.
  change (jobRow id (with_q (Queue.with_pausedPrinters (delete printerID)) w))
    with (jobRow id w).
  destruct (jobRow id w) as [r|] eqn:Hr; simpl; [|done]. f_equal.
  set (cond := λ r, (JobRow.printer_id r =? printerID)
                    && String.eqb (JobRow.status r) "paused").
  change ((JobRow.printer_id r =? printerID)
          && String.eqb (JobRow.status r) "paused") with (cond r).
  destruct (cond r) eqn:Hc.
  - rewrite bool_decide_eq_true_2; [done|].
    apply list_elem_of_fmap. exists (id, r). split; [done|].
    by apply selectWhere_elem.
  - rewrite bool_decide_eq_false_2; [done|].
    intros ([k r'] & -> & Hin)%list_elem_of_fmap.
    apply selectWhere_elem in Hin as [Hr' Hc']. simpl in *.
    unfold jobRow in Hr. simpl in Hr'. congruence.
Qed.

(** X15: [ResumePrinter] always succeeds: it clears the printer's paused mark
    and turns every paused job of that printer, whether parked by
    [PausePrinter], by a worker or by [PauseJob], into a pending job with an
    empty error message and no start or completion time; no other row
    changes.  In particular a job that was pending when its printer was paused
    is pending again after the resume. *)
Theorem ResumePrinter_releases_paused (printerID : Z) (w : World) :
  (ResumePrinter printerID w).2 = None
  ∧ printerPaused printerID (ResumePrinter printerID w).1 = false
  ∧ (∀ id, jobRow id (ResumePrinter printerID w).1
           = (λ r, if (JobRow.printer_id r =? printerID)
                      && String.eqb (JobRow.status r) "paused"
                   then JobRow.set_status_fields "pending" (Some "") None None r
                   else r) <$> jobRow id w)
  ∧ (∀ id r, jobRow id w = Some r → JobRow.printer_id r = printerID →
       JobRow.status r = "pending" →
       jobRow id (ResumePrinter printerID (PausePrinter printerID w).1).1
       = Some (JobRow.set_status_fields "pending" (Some "") None None r)).
Proof.
  split; [done|]. split.
  { unfold printerPaused, ResumePrinter. cbn [fst]. rewrite resume_fold_q.
    simpl. by rewrite lookup_delete_eq. }
  split; [apply ResumePrinter_rows|].
  intros id r Hr Hp Hst.
  rewrite ResumePrinter_rows, PausePrinter_rows, Hr. simpl.
  rewrite Hp, Z.eqb_refl, Hst. simpl. by rewrite Hp, Z.eqb_refl.
Qed.

(** ** Retrying and reprinting *)

(** X16: for a job that exists with a readable error message, [RetryJob]
    succeeds exactly when the job is failed; the row is then pending with a
    retry count of zero, an empty error message and no start or completion
    time, and the identifier is offered to the channel; in every other case
    an error is returned and nothing changes. *)
Theorem RetryJob_only_failed (id : Z) (w : World) (r : JobRow.t) :
  jobRow id w = Some r →
  is_Some (JobRow.error_message r) →
  ((RetryJob id w).2 = None ↔ JobRow.status r = "failed")
  ∧ ((RetryJob id w).2 = None →
     jobRow id (RetryJob id w).1
     = Some (JobRow.set_retry_count 0
               (JobRow.set_status_fields "pending" (Some "") None None r))
     ∧ (∀ id', id' ≠ id → jobRow id' (RetryJob id w).1 = jobRow id' w)
     ∧ ((length (Queue.jobCh (q w)) < jobChCapacity)%nat →
        Queue.jobCh (q (RetryJob id w).1) = (Queue.jobCh (q w) ++ [id])%list))
  ∧ ((RetryJob id w).2 ≠ None → (RetryJob id w).1 = w).
Proof.
  intros Hr [msg Hmsg]. unfold RetryJob, GetJob. unfold jobRow in Hr.
  rewrite Hr, Hmsg. cbn [Job.Status].
  destruct (String.eqb_spec (JobRow.status r) JobStatusFailed) as [Hst|Hst];
    cbn [negb fst snd].
  - split; [done|]. split; [|done]. intros _.
    unfold jobRow. rewrite offer_db. simpl.
    split; [by rewrite lookup_alter_eq, Hr|]. split.
    + intros id' Hne. by rewrite lookup_alter_ne.
    + intros Hlen. unfold offer. simpl.
      destruct (Nat.ltb_spec (length (Queue.jobCh (q w))) jobChCapacity);
        [done|lia].
  - split; [|done]. split; [done|]. intros Hs. by destruct Hst.
Qed.

Lemma Enqueue_pending_db (job : Job.t) (w : World) :
  Job.Status job = JobStatusPending →
  (Enqueue job w).2 = Ok (DB.print_jobs_seq (db w) + 1)
  ∧ db (Enqueue job w).1.1
    = DB.with_print_jobs_seq (DB.print_jobs_seq (db w) + 1)
        (DB.with_print_jobs
           <[DB.print_jobs_seq (db w) + 1 :=
               JobRow.mk (DB.print_jobs_seq (db w) + 1) (Job.PrinterID job)
                 (Job.TemplateID job) (Job.VariablesJSON job)
                 (Job.TSPLContent job) "pending" (Job.Priority job) 0 None
                 (Job.Copies job) (Job.SubmittedBy job)
                 (Env.clock (env w) (Env.ticks (env w))) None None]>
           (db w)).
Proof.
  intros Hst. unfold Enqueue.
  set (job1 := if Job.MaxRetries job =? 0 then _ else job).
  assert (H1 : Job.Status job1 = JobStatusPending
               ∧ Job.PrinterID job1 = Job.PrinterID job
               ∧ Job.TemplateID job1 = Job.TemplateID job
               ∧ Job.VariablesJSON job1 = Job.VariablesJSON job
               ∧ Job.TSPLContent job1 = Job.TSPLContent job
               ∧ Job.Priority job1 = Job.Priority job
               ∧ Job.Copies job1 = Job.Copies job
               ∧ Job.SubmittedBy job1 = Job.SubmittedBy job).
  { subst job1. by case_match. }
  clearbody job1. destruct H1 as (Hs1 & <- & <- & <- & <- & <- & <- & <-).
  rewrite Hs1. change (String.eqb JobStatusPending "") with false. cbn iota.
  rewrite Hs1. change (JobRow.status_allowed JobStatusPending) with true.
  cbn [negb timeNow fst snd]. by rewrite offer_db.
Qed.

(** X17: [ReprintJob] on a job with a readable error message in a well-formed
    table stores a new pending row under a fresh identifier, with the
    printer, template, variables, content, priority and copy count of the
    original, a retry count of zero and no error message, and returns that
    identifier; the original row and all others are untouched. *)
Theorem ReprintJob_clones (id : Z) (w : World) (r : JobRow.t) :
  jobs_wf w →
  jobRow id w = Some r →
  is_Some (JobRow.error_message r) →
  ∃ r',
    let newID := DB.print_jobs_seq (db w) + 1 in
    (ReprintJob id w).2 = Ok newID
    ∧ newID ≠ id
    ∧ jobRow newID w = None
    ∧ jobRow newID (ReprintJob id w).1 = Some r'
    ∧ JobRow.id r' = newID
    ∧ JobRow.status r' = "pending"
    ∧ JobRow.printer_id r' = JobRow.printer_id r
    ∧ JobRow.template_id r' = JobRow.template_id r
    ∧ JobRow.variables_json r' = JobRow.variables_json r
    ∧ JobRow.tspl_content r' = JobRow.tspl_content r
    ∧ JobRow.priority r' = JobRow.priority r
    ∧ JobRow.copies r' = JobRow.copies r
    ∧ JobRow.retry_count r' = 0
    ∧ JobRow.error_message r' = None
    ∧ (∀ id', id' ≠ newID → jobRow id' (ReprintJob id w).1 = jobRow id' w)
    ∧ jobs_wf (ReprintJob id w).1.
Proof.
  intros Hwf Hr [msg Hmsg]. unfold ReprintJob, GetJob.
  pose proof Hr as Hr0. unfold jobRow in Hr0. rewrite Hr0, Hmsg.
  set (newJob := Job.mk 0 _ _ _ _ JobStatusPending _ 0 _ _ "" _ 0 None None).
  destruct (Enqueue_pending_db newJob w eq_refl) as [Hres Hdb].
  destruct (Enqueue newJob w) as [[w1 job1] res]. cbn [fst snd] in *. subst res.
  destruct (Hwf id r Hr) as [_ Hle].
  assert (Hfresh : jobRow (DB.print_jobs_seq (db w) + 1) w = None).
  { destruct (jobRow (DB.print_jobs_seq (db w) + 1) w) as [r0|] eqn:H0; [|done].
    destruct (Hwf _ _ H0). lia. }
  eexists. cbn zeta.
  split; [reflexivity|]. split; [lia|]. split; [done|].
  unfold jobRow, jobs_wf. rewrite Hdb. simpl. rewrite lookup_insert_eq.
  split; [reflexivity|]. simpl. do 10 (split; [done|]).
  split.
  - intros id' Hne. by rewrite lookup_insert_ne.
  - intros id' r'. unfold jobRow. rewrite Hdb. simpl.
    destruct (decide (DB.print_jobs_seq (db w) + 1 = id')) as [<-|Hne].
    + rewrite lookup_insert_eq. intros [= <-]. simpl. split; [done|lia].
    + rewrite lookup_insert_ne by done. intros Hr'.
      destruct (Hwf id' r' Hr'). split; [done|lia].
Qed.

(** ** What a worker does with a job *)

(** X18: what a worker does with a stored job it will not print.  A job
    that is not pending is skipped, and so is a job whose error message is
    NULL, which [GetJob] cannot read: nothing changes.  A pending job with a
    readable error message whose printer is paused is parked as paused, with
    an empty error message and no timestamps, without any call to the
    printer manager, without a timer and without a change to its retry
    count. *)
Theorem processJob_guards (id : Z) (w : World) (r : JobRow.t) :
  jobRow id w = Some r →
  (JobRow.status r ≠ "pending" → processJob id w = w)
  ∧ (JobRow.error_message r = None → processJob id w = w)
  ∧ (JobRow.status r = "pending" → is_Some (JobRow.error_message r) →
     printerPaused (JobRow.printer_id r) w = true →
     jobRow id (processJob id w)
     = Some (JobRow.set_status_fields "paused" (Some "") None None r)
     ∧ (∀ id', id' ≠ id → jobRow id' (processJob id w) = jobRow id' w)
     ∧ env (processJob id w) = env w
     ∧ pm (processJob id w) = pm w
     ∧ q (processJob id w) = q w).
Proof.
  intros Hr. unfold processJob, GetJob.
  pose proof Hr as Hr0. unfold jobRow in Hr0. rewrite Hr0.
  split; [|split].
  - intros Hst. destruct (JobRow.error_message r); [|done].
    cbn [Job.Status]. by destruct (String.eqb_spec (JobRow.status r) JobStatusPending).
  - by intros ->.
  - intros Hst [msg Hmsg] Hp. rewrite Hmsg. cbn [Job.Status Job.PrinterID].
    replace (String.eqb (JobRow.status r) JobStatusPending) with true
      by (by rewrite Hst).
    cbn [negb]. rewrite Hp.
    split; [by apply jobRow_updateJobStatus|].
    split; [intros id' Hne; by apply jobRow_updateJobStatus_ne|].
    by destruct (updateJobStatus_q id JobStatusPaused "" None None w)
      as (-> & -> & ->).
Qed.

Lemma handleJobFailure_exhausted job msg w r :
  Job.MaxRetries job ≤ Job.RetryCount job →
  jobRow (Job.ID job) w = Some r →
  jobRow (Job.ID job) (handleJobFailure job msg w)
  = Some (JobRow.set_status_fields JobStatusFailed (Some msg) None
            (Some (Env.clock (env w) (Env.ticks (env w)))) r)
  ∧ Env.timers (env (handleJobFailure job msg w)) = Env.timers (env w).
Proof.
  intros Hge Hr. unfold handleJobFailure, jobRow in *.
  destruct (Z.ltb_spec (Job.RetryCount job) (Job.MaxRetries job)); [lia|].
  unfold sendJobEvent, updateJobStatus. simpl.
  destruct (Queue.webhookSender (q w)); simpl; by rewrite lookup_alter_eq, Hr.
Qed.

Lemma transmitJob_terminal (jobID : Z) (job : Job.t) (w : World) (r : JobRow.t) :
  Job.ID job = jobID →
  Job.MaxRetries job ≤ Job.RetryCount job →
  jobRow jobID w = Some r →
  Env.timers (env (transmitJob jobID job w)) = Env.timers (env w)
  ∧ ∃ r', jobRow jobID (transmitJob jobID job w) = Some r'
          ∧ JobRow.retry_count r' = JobRow.retry_count r
          ∧ (JobRow.status r' = "completed" ∨ JobRow.status r' = "failed").
Proof.
  intros Hid Hge Hr. unfold transmitJob. cbn [timeNow].
  set (now := Env.clock (env w) (Env.ticks (env w))).
  set (w1 := sendJobEvent "job_started" jobID (Job.PrinterID job)
               JobStatusProcessing ""
               (updateJobStatus jobID JobStatusProcessing "" (Some now) None
                  (with_env (Env.with_ticks (S (Env.ticks (env w)))) w))).
  assert (H1 : jobRow jobID w1
               = Some (JobRow.set_status_fields "processing" (Some "")
                         (Some now) None r)
               ∧ Env.timers (env w1) = Env.timers (env w)).
  { subst w1. unfold sendJobEvent, updateJobStatus, jobRow in *. simpl.
    case_match; simpl; by rewrite lookup_alter_eq, Hr. }
  destruct H1 as [Hr1 Ht1]. clearbody w1.
  destruct (Queue.printerManager (q w1)); cbn [negb].
  2:{ rewrite <- Hid in Hr1.
      destruct (handleJobFailure_exhausted job "printer manager not configured"
                  w1 _ Hge Hr1) as [Hrow Ht].
      rewrite Hid in Hrow. rewrite Ht, Ht1. split; [done|].
      eexists. split; [exact Hrow|]. simpl. auto. }
  set (w2 := with_env _ w1).
  pose proof (Print_frame_jobs (Job.PrinterID job) (Job.TSPLContent job)
                (Job.Copies job) w2) as (Hjobs & _ & _ & Htim).
  destruct (Print _ _ _ w2) as [w3 [err|]]; simpl in Hjobs, Htim.
  - assert (Hr3 : jobRow (Job.ID job) w3
                  = Some (JobRow.set_status_fields "processing" (Some "")
                            (Some now) None r)).
    { rewrite Hid. unfold jobRow in *. by rewrite Hjobs. }
    destruct (handleJobFailure_exhausted job err w3 _ Hge Hr3) as [Hrow Ht].
    rewrite Hid in Hrow. rewrite Ht, Htim. split; [done|].
    eexists. split; [exact Hrow|]. simpl. auto.
  - cbn [timeNow].
    unfold incrementPrintCounter, sendJobEvent,
      updateJobStatus, jobRow in *.
    simpl. destruct (Queue.webhookSender (q w3)); simpl;
      rewrite lookup_alter_eq, Hjobs, Hr1, Htim; simpl;
      (split; [done|]); eexists; (split; [reflexivity|]); simpl; auto.
Qed.

Lemma handleJobFailure_no_timer job msg w :
  Job.MaxRetries job ≤ Job.RetryCount job →
  Env.timers (env (handleJobFailure job msg w)) = Env.timers (env w).
Proof.
  intros Hge. unfold handleJobFailure.
  destruct (Z.ltb_spec (Job.RetryCount job) (Job.MaxRetries job)); [lia|].
  unfold sendJobEvent, updateJobStatus. simpl. by repeat case_match.
Qed.

Lemma transmitJob_no_timer (jobID : Z) (job : Job.t) (w : World) :
  Job.MaxRetries job ≤ Job.RetryCount job →
  Env.timers (env (transmitJob jobID job w)) = Env.timers (env w).
Proof.
  intros Hge. unfold transmitJob. cbn [timeNow].
  set (w1 := sendJobEvent _ _ _ _ _ _).
  assert (Ht1 : Env.timers (env w1) = Env.timers (env w)).
  { subst w1. unfold sendJobEvent, updateJobStatus. simpl. by repeat case_match. }
  clearbody w1.
  destruct (Queue.printerManager (q w1)); cbn [negb];
    [|by rewrite handleJobFailure_no_timer].
  set (w2 := with_env _ w1).
  pose proof (Print_frame_jobs (Job.PrinterID job) (Job.TSPLContent job)
                (Job.Copies job) w2) as (_ & _ & _ & Htim).
  destruct (Print _ _ _ w2) as [w3 [err|]]; simpl in Htim.
  - rewrite handleJobFailure_no_timer by done. by rewrite Htim.
  - cbn [timeNow]. unfold incrementPrintCounter, sendJobEvent, updateJobStatus.
    simpl. repeat case_match; simpl; by rewrite Htim.
Qed.

(** X19: a worker never schedules a retry.  [GetJob] does not read a retry
    limit, so the job record the failure handler receives has the limit 0:
    if the stored retry count of the job is not negative, [processJob] arms
    no timer, whatever the state of the job.  When the job is pending with a
    readable error message, is stored under its own identifier and its
    printer is not paused, it ends completed or failed, with the retry count
    as it was. *)
Theorem processJob_never_retries (id : Z) (w : World) :
  (∀ r, jobRow id w = Some r → 0 ≤ JobRow.retry_count r) →
  Env.timers (env (processJob id w)) = Env.timers (env w)
  ∧ ∀ r, jobRow id w = Some r →
         JobRow.id r = id →
         JobRow.status r = "pending" →
         is_Some (JobRow.error_message r) →
         printerPaused (JobRow.printer_id r) w = false →
         ∃ r', jobRow id (processJob id w) = Some r'
               ∧ JobRow.retry_count r' = JobRow.retry_count r
               ∧ (JobRow.status r' = "completed" ∨ JobRow.status r' = "failed").
Proof.
  intros Hcount. split.
  - unfold processJob, GetJob.
    destruct (DB.print_jobs (db w) !! id) as [r|] eqn:Hr; [|done].
    destruct (JobRow.error_message r) as [msg|]; [|done].
    cbn [Job.Status Job.PrinterID Job.TSPLContent Job.TemplateID
           Job.VariablesJSON].
    case_match; [done|].
    case_match.
    { by destruct (updateJobStatus_q id JobStatusPaused "" None None w)
        as (_ & -> & _). }
    specialize (Hcount r Hr).
    set (job := Job.mk _ _ _ _ _ _ _ _ _ _ _ _ _ _ _).
    assert (Hge : Job.MaxRetries job ≤ Job.RetryCount job) by (simpl; lia).
    repeat case_match;
      rewrite ?transmitJob_no_timer, ?handleJobFailure_no_timer; done.
  - intros r Hr Hid Hst [msg Hmsg] Hp.
    pose proof (Hcount r Hr) as Hrc.
    unfold processJob, GetJob.
    pose proof Hr as Hr0. unfold jobRow in Hr0. rewrite Hr0, Hmsg.
    cbn [Job.Status Job.PrinterID Job.TSPLContent Job.TemplateID
           Job.VariablesJSON].
    replace (String.eqb (JobRow.status r) JobStatusPending) with true
      by (by rewrite Hst).
    cbn [negb]. rewrite Hp.
    set (job := Job.mk _ _ _ _ _ _ _ _ _ _ _ _ _ _ _).
    assert (Hjid : Job.ID job = id) by done.
    assert (Hge : Job.MaxRetries job ≤ Job.RetryCount job) by (simpl; lia).
    destruct (transmitJob_terminal id job w r Hjid Hge Hr) as [_ Hdirect].
    destruct (Queue.tsplGenerator (q w)) as [generate|]; [|exact Hdirect].
    destruct (String.eqb (JobRow.tspl_content r) ""); [|exact Hdirect].
    destruct (generate (JobRow.template_id r) (JobRow.variables_json r))
      as [tspl|e].
    + destruct (transmitJob_terminal id (Job.with_TSPLContent tspl job)
                  (updateJobTSPL id tspl w) (JobRow.set_tspl_content tspl r))
        as [_ Hrow]; [done|simpl; lia| |exact Hrow].
      unfold updateJobTSPL, jobRow. simpl. by rewrite lookup_alter_eq, Hr0.
    + rewrite <- Hjid in Hr.
      destruct (handleJobFailure_exhausted job ("TSPL generation failed: " +:+ e)
                  w r Hge Hr) as [Hrow Ht].
      rewrite Hjid in Hrow.
      eexists. split; [exact Hrow|]. simpl. auto.
Qed.

(** X20: a job just stored by [Enqueue] cannot be read back: the INSERT leaves
    [error_message] NULL, [GetJob] cannot scan it into a string, and a worker
    that receives the identifier leaves the job pending and everything else
    as it is. *)
Theorem Enqueue_then_GetJob_fails (job : Job.t) (w : World) :
  Job.Status job = JobStatusPending →
  let id := DB.print_jobs_seq (db w) + 1 in
  (Enqueue job w).2 = Ok id
  ∧ (∃ r, jobRow id (Enqueue job w).1.1 = Some r
          ∧ JobRow.status r = "pending" ∧ JobRow.error_message r = None)
  ∧ (∃ e, GetJob id (Enqueue job w).1.1 = Err e)
  ∧ processJob id (Enqueue job w).1.1 = (Enqueue job w).1.1.
Proof.
  intros Hst. cbn zeta.
  destruct (Enqueue_pending_db job w Hst) as [Hres Hdb].
  split; [done|].
  assert (Hrow : ∃ r, jobRow (DB.print_jobs_seq (db w) + 1) (Enqueue job w).1.1
                      = Some r
                      ∧ JobRow.status r = "pending"
                      ∧ JobRow.error_message r = None).
  { unfold jobRow. rewrite Hdb. simpl. rewrite lookup_insert_eq. eauto. }
  split; [exact Hrow|]. destruct Hrow as (r & Hr & _ & Hmsg).
  unfold processJob, GetJob. unfold jobRow in Hr. rewrite Hr, Hmsg. eauto.
Qed.

(** ** Stopping *)

Lemma Start_running_stop (w : World) :
  Queue.running (q (Start w).1.1) = true
  ∧ Queue.stopCh_closed (q (Start w).1.1) = Queue.stopCh_closed (q w).
Proof.
  unfold Start. destruct (Queue.running (q w)) eqn:Hrun; [done|].
  unfold recoverJobs.
  set (w1 := resetProcessing (with_q (Queue.with_running true) w)).
  assert (H1 : Queue.running (q w1) = true
               ∧ Queue.stopCh_closed (q w1) = Queue.stopCh_closed (q w)) by done.
  clearbody w1.
  assert (H2 : Queue.running (q (offerAll (selectPending (db w1)) w1).1) = true
               ∧ Queue.stopCh_closed (q (offerAll (selectPending (db w1)) w1).1)
                 = Queue.stopCh_closed (q w)).
  { revert H1. generalize (selectPending (db w1)) as ids. intros ids. revert w1.
    induction ids as [|a ids IH]; intros w1 H1; simpl; [done|].
    destruct (offer a w1) as [w2 ok] eqn:Ho.
    specialize (IH w2). destruct (offerAll ids w2) as [w3 acts]. simpl in *.
    apply IH. unfold offer in Ho. case_match; injection Ho as <- <-; done. }
  destruct (offerAll (selectPending (db w1)) w1) as [w2 acts]. simpl in *.
  revert H2. generalize (workerGoroutines (Queue.workers (q w2)) ++ [GoDispatcher])%list.
  intros gs. generalize w2. induction gs as [|g gs IH]; intros w3 H3; simpl;
    [done|]. by apply IH.
Qed.

(** X21: the scheduler cannot be stopped twice.  [Stop] on a running
    scheduler closes the stop channel; [Start] after that runs again without
    making a new channel, and the next [Stop] closes the closed channel, which
    panics. *)
Theorem Stop_after_restart_panics (w : World) :
  Queue.running (q w) = true →
  Queue.stopCh_closed (q w) = false →
  ∃ w1, Stop w = Some w1
        ∧ Queue.running (q w1) = false
        ∧ Queue.stopCh_closed (q w1) = true
        ∧ (Start w1).1.2 = None
        ∧ Stop (Start w1).1.1 = None.
Proof.
  intros Hrun Hopen. unfold Stop at 1. rewrite Hrun. simpl. rewrite Hopen.
  eexists. split; [reflexivity|]. split; [done|]. split; [done|]. split.
  - unfold Start. simpl. unfold recoverJobs.
    by destruct (offerAll _ _).
  - set (w1 := with_q _ _).
    destruct (Start_running_stop w1) as [Hr Hc].
    unfold Stop. rewrite Hr. simpl. by rewrite Hc.
Qed.

(** ** Statistics *)

Lemma bump_keys s groups k :
  k ∈ (bump s groups).*1 ↔ k = s ∨ k ∈ groups.*1.
Proof.
  induction groups as [|[s' n] rest IH]; simpl.
  - rewrite list_elem_of_singleton, elem_of_nil. tauto.
  - destruct (String.eqb_spec s s') as [->|Hne]; simpl.
    + rewrite !elem_of_cons. tauto.
    + rewrite !elem_of_cons, IH. tauto.
Qed.

Lemma bump_NoDup s groups : NoDup groups.*1 → NoDup (bump s groups).*1.
Proof.
  induction groups as [|[s' n] rest IH]; simpl; intros Hnd.
  - apply NoDup_singleton.
  - apply NoDup_cons in Hnd as [Hnin Hnd].
    destruct (String.eqb_spec s s') as [->|Hne]; simpl.
    + by apply NoDup_cons.
    + apply NoDup_cons. split; [|auto].
      rewrite bump_keys. intros [?|?]; done.
Qed.

Lemma bump_count s groups k :
  groupCount k (bump s groups)
  = groupCount k groups + (if String.eqb s k then 1 else 0).
Proof.
  induction groups as [|[s' n] rest IH]; simpl.
  - destruct (String.eqb s k); lia.
  - destruct (String.eqb_spec s s') as [->|Hne]; simpl.
    + destruct (String.eqb s' k); lia.
    + rewrite IH. destruct (String.eqb s' k); lia.
Qed.

Lemma bump_total s groups : groupTotal (bump s groups) = groupTotal groups + 1.
Proof.
  induction groups as [|[s' n] rest IH]; simpl; [done|].
  destruct (String.eqb s s'); simpl; lia.
Qed.

Lemma groups_of_rows (rows : list (Z * JobRow.t)) :
  let groups := foldr (λ kr groups, bump (JobRow.status kr.2) groups) [] rows in
  NoDup groups.*1
  ∧ groupTotal groups = Z.of_nat (length rows)
  ∧ ∀ k, groupCount k groups = countStatus k rows.
Proof.
  induction rows as [|[id r] rows (Hnd & Htot & Hcnt)]; simpl.
  - split; [constructor|]. done.
  - split; [by apply bump_NoDup|]. split.
    + rewrite bump_total, Htot. lia.
    + intros k. rewrite bump_count, Hcnt. unfold countStatus.
      rewrite filter_cons. simpl.
      destruct (String.eqb (JobRow.status r) k); case_decide; simpl; try done; lia.
Qed.

Lemma groupCount_absent k groups : k ∉ groups.*1 → groupCount k groups = 0.
Proof.
  induction groups as [|[s n] rest IH]; simpl; [done|].
  intros Hnin. apply not_elem_of_cons in Hnin as [Hne Hnin].
  destruct (String.eqb_spec s k); [done|auto].
Qed.

Lemma addGroup_field k st s n :
  k ∈ jobStatuses →
  statField k (addGroup st (s, n)) = if String.eqb s k then n else statField k st.
Proof.
  intros Hk. destruct st as [pe pr co fa pa ca to].
  unfold jobStatuses in Hk.
  repeat (apply elem_of_cons in Hk as [->|Hk]);
    [..|by apply elem_of_nil in Hk];
    unfold addGroup, statField, JobStatusPending, JobStatusProcessing,
      JobStatusCompleted, JobStatusFailed, JobStatusPaused, JobStatusCancelled;
    cbn [QueueStats.Total];
    repeat (match goal with
            | |- context [String.eqb s ?c] =>
                destruct (String.eqb_spec s c) as [->|?]
            end; cbn);
    try reflexivity; congruence.
Qed.

Lemma addGroup_total st g :
  QueueStats.Total (addGroup st g) = QueueStats.Total st + g.2.
Proof.
  destruct g as [s n]. unfold addGroup. destruct st. by repeat case_match.
Qed.

Lemma foldl_addGroup groups st k :
  k ∈ jobStatuses → NoDup groups.*1 →
  QueueStats.Total (foldl addGroup st groups)
  = QueueStats.Total st + groupTotal groups
  ∧ statField k (foldl addGroup st groups)
    = if bool_decide (k ∈ groups.*1) then groupCount k groups
      else statField k st.
Proof.
  intros Hk. revert st. induction groups as [|[s n] rest IH]; intros st Hnd.
  { simpl. split; [lia|done]. }
  rewrite fmap_cons in Hnd. apply NoDup_cons in Hnd as [Hnin Hnd].
  destruct (IH (addGroup st (s, n)) Hnd) as [H1 H2].
  cbn [foldl]. rewrite H1, H2, addGroup_total, fmap_cons.
  cbn [fst snd groupTotal groupCount foldr].
  fold (groupTotal rest). fold (groupCount k rest).
  split; [lia|].
  rewrite addGroup_field by done.
  destruct (String.eqb_spec s k) as [->|Hne].
  - rewrite (bool_decide_eq_true_2 (k ∈ k :: rest.*1)) by by left.
    rewrite bool_decide_eq_false_2 by done.
    rewrite groupCount_absent by done. lia.
  - destruct (decide (k ∈ rest.*1)) as [Hin|Hnin'].
    + rewrite !bool_decide_eq_true_2; [done|by right|done].
    + rewrite !bool_decide_eq_false_2; [done| |done].
      intros [?|?]%elem_of_cons; done.
Qed.

Lemma selectWhere_all_length d :
  length (selectWhere (λ _, true) d) = size (DB.print_jobs d).
Proof.
  unfold selectWhere. rewrite <- length_map_to_list.
  rewrite <- (merge_sort_Permutation by_id (map_to_list (DB.print_jobs d))) at 2.
  f_equal. induction (merge_sort by_id _) as [|x l IH]; [done|].
  rewrite filter_cons_True by done. by f_equal.
Qed.

Lemma selectWhere_status_count d s :
  Z.of_nat (length (selectWhere (λ r, String.eqb (JobRow.status r) s) d))
  = countStatus s (selectWhere (λ _, true) d).
Proof.
  unfold countStatus, selectWhere. f_equal. f_equal.
  induction (merge_sort by_id _) as [|x l IH]; [done|].
  rewrite (filter_cons_True (λ _, true = true)) by done.
  rewrite !filter_cons. simpl. case_decide; by rewrite IH.
Qed.

Lemma countStatus_partition (rows : list (Z * JobRow.t)) :
  (∀ kr, kr ∈ rows → JobRow.status_allowed (JobRow.status kr.2) = true) →
  Z.of_nat (length rows)
  = countStatus JobStatusPending rows + countStatus JobStatusProcessing rows
    + countStatus JobStatusCompleted rows + countStatus JobStatusFailed rows
    + countStatus JobStatusPaused rows + countStatus JobStatusCancelled rows.
Proof.
  induction rows as [|[id r] rows IH]; intros Hall; [done|].
  assert (Hr : JobRow.status_allowed (JobRow.status r) = true)
    by (apply (Hall (id, r)); by left).
  assert (IH' := IH (λ kr Hin, Hall kr (proj2 (elem_of_cons _ _ _) (or_intror Hin)))).
  clear IH. rename IH' into IH.
  unfold countStatus in *. rewrite !filter_cons. simpl length.
  unfold JobRow.status_allowed in Hr.
  repeat (apply orb_true_iff in Hr as [Hr|Hr]);
    apply String.eqb_eq in Hr; rewrite Hr; simpl;
    repeat (case_decide; try done); simpl; lia.
Qed.

(** X22: the statistics agree with the table: [Total] is the number of rows,
    the field of each of the six statuses is the count [CountByStatus] gives
    for it, and, the CHECK constraint on the status column holding, [Total]
    is the sum of the six fields. *)
Theorem GetStats_counts_rows (w : World) :
  QueueStats.Total (GetStats w) = Z.of_nat (size (DB.print_jobs (db w)))
  ∧ (∀ status, status ∈ jobStatuses →
       statField status (GetStats w) = CountByStatus status w)
  ∧ ((∀ id r, jobRow id w = Some r →
        JobRow.status_allowed (JobRow.status r) = true) →
     QueueStats.Total (GetStats w)
     = QueueStats.Pending (GetStats w) + QueueStats.Processing (GetStats w)
       + QueueStats.Completed (GetStats w) + QueueStats.Failed (GetStats w)
       + QueueStats.Paused (GetStats w) + QueueStats.Cancelled (GetStats w)).
Proof.
  unfold GetStats, groupByStatus.
  destruct (groups_of_rows (selectWhere (λ _, true) (db w)))
    as (Hnd & Htot & Hcnt).
  set (groups := foldr _ _ _) in *.
  assert (Hfield : ∀ status, status ∈ jobStatuses →
            statField status (foldl addGroup QueueStats.zero groups)
            = countStatus status (selectWhere (λ _, true) (db w))).
  { intros status Hs.
    destruct (foldl_addGroup groups QueueStats.zero status Hs Hnd) as [_ ->].
    rewrite <- Hcnt. case_bool_decide as Hin; [done|].
    rewrite groupCount_absent by done.
    unfold jobStatuses in Hs.
    repeat (apply elem_of_cons in Hs as [->|Hs]; [done|]).
    by apply elem_of_nil in Hs. }
  assert (Htotal : QueueStats.Total (foldl addGroup QueueStats.zero groups)
                   = Z.of_nat (length (selectWhere (λ _, true) (db w)))).
  { destruct (foldl_addGroup groups QueueStats.zero JobStatusPending) as [-> _];
      [by left|done|]. simpl. lia. }
  split; [by rewrite Htotal, selectWhere_all_length|]. split.
  - intros status Hs. rewrite Hfield by done. unfold CountByStatus.
    by rewrite selectWhere_status_count.
  - intros Hall. rewrite Htotal.
    rewrite (countStatus_partition (selectWhere (λ _, true) (db w))).
    + rewrite <- !Hfield by (unfold jobStatuses; set_solver). done.
    + intros [k r] Hin. apply selectWhere_elem in Hin as [Hr _].
      by apply (Hall k r).
Qed.

(** ** The paused printers *)

Lemma GetPausedPrinters_keys id w :
  id ∈ GetPausedPrinters w ↔ is_Some (Queue.pausedPrinters (q w) !! id).
Proof.
  unfold GetPausedPrinters. rewrite merge_sort_Permutation.
  rewrite list_elem_of_fmap. split.
  - intros [[k b] [-> Hin]]. apply elem_of_map_to_list in Hin. by exists b.
  - intros [b Hb]. exists (id, b). split; [done|]. by apply elem_of_map_to_list.
Qed.

Lemma PausePrinter_paused printerID w :
  Queue.pausedPrinters (q (PausePrinter printerID w).1)
  = <[printerID := true]> (Queue.pausedPrinters (q w)).
Proof. by destruct w as [d [] m e]. Qed.

Lemma ResumePrinter_paused printerID w :
  Queue.pausedPrinters (q (ResumePrinter printerID w).1)
  = delete printerID (Queue.pausedPrinters (q w)).
Proof.
  unfold ResumePrinter. cbn [fst]. rewrite resume_fold_q.
  by destruct w as [d [] m e].
Qed.

(** X23: [pausedPrinters] only ever holds [true]: under that invariant, which
    pausing and resuming a printer keep, [GetPausedPrinters] lists exactly the
    printers for which [IsPrinterPaused] answers true; pausing makes the
    answer true and resuming false for that printer, and neither changes the
    answer for another one. *)
Theorem paused_printers_listing (w : World) (printerID : Z) :
  paused_flags_true w →
  (∀ id, id ∈ GetPausedPrinters w ↔ IsPrinterPaused id w = true)
  ∧ paused_flags_true (PausePrinter printerID w).1
  ∧ paused_flags_true (ResumePrinter printerID w).1
  ∧ IsPrinterPaused printerID (PausePrinter printerID w).1 = true
  ∧ IsPrinterPaused printerID (ResumePrinter printerID w).1 = false
  ∧ (∀ id, id ≠ printerID →
       IsPrinterPaused id (PausePrinter printerID w).1 = IsPrinterPaused id w
       ∧ IsPrinterPaused id (ResumePrinter printerID w).1 = IsPrinterPaused id w).
Proof.
  intros Hinv. unfold paused_flags_true, IsPrinterPaused, printerPaused in *.
  rewrite PausePrinter_paused, ResumePrinter_paused.
  split; [|split; [|split; [|split; [|split]]]].
  - intros id. rewrite GetPausedPrinters_keys. split.
    + intros [b Hb]. rewrite Hb. simpl. by apply (Hinv id).
    + destruct (Queue.pausedPrinters (q w) !! id); [by eexists|done].
  - intros id b. destruct (decide (id = printerID)) as [->|Hne].
    + rewrite lookup_insert_eq. congruence.
    + rewrite lookup_insert_ne by done. apply Hinv.
  - intros id b. destruct (decide (id = printerID)) as [->|Hne].
    + by rewrite lookup_delete_eq.
    + rewrite lookup_delete_ne by done. apply Hinv.
  - by rewrite lookup_insert_eq.
  - by rewrite lookup_delete_eq.
  - intros id Hne.
    by rewrite lookup_insert_ne, lookup_delete_ne by done.
Qed.

(** ** The label codec *)

Lemma wanting_elem sv vars name def :
  (name, def) ∈ filter (λ nd : string * VariableDef.t,
                          notProvided vars nd.1 = true
                          ∧ VariableDef.Required nd.2 = true
                          ∧ VariableDef.Default nd.2 = "")
                       (map_to_list sv)
  ↔ sv !! name = Some def
    ∧ VariableDef.Required def = true
    ∧ VariableDef.Default def = ""
    ∧ notProvided vars name = true.
Proof.
  rewrite list_elem_of_filter, elem_of_map_to_list. simpl. tauto.
Qed.

(** X24: [ValidateVariables] returns nil exactly when no definition of the
    schema is required, without default, and not given a non-empty value;
    otherwise its error names such a variable, one that
    [GetRequiredVariables] lists. *)
Theorem ValidateVariables_nil_iff (sv : gmap string VariableDef.t)
    (vars : gmap string string) :
  (ValidateVariables sv vars = None ↔ ∀ name, ¬ wanting sv vars name)
  ∧ ∀ err, ValidateVariables sv vars = Some err →
           ∃ name, wanting sv vars name
                   ∧ name ∈ GetRequiredVariables sv
                   ∧ err = "required variable '" +:+ name +:+ "' is missing".
Proof.
  unfold ValidateVariables, wanting.
  destruct (filter _ (map_to_list sv)) as [|[n d] l] eqn:Hf.
  - split; [|done]. split; [|done].
    intros _ name (def & H1 & H2 & H3 & H4).
    assert (Hin : (name, def) ∈ @nil (string * VariableDef.t)); [|by inversion Hin].
    rewrite <- Hf. by apply wanting_elem.
  - assert (Hin : sv !! n = Some d ∧ VariableDef.Required d = true
                  ∧ VariableDef.Default d = "" ∧ notProvided vars n = true).
    { apply wanting_elem. rewrite Hf. by left. }
    split.
    + split; [done|]. intros Hnone. destruct (Hnone n). by exists d.
    + intros err [= <-]. exists n. split; [by exists d|]. split; [|done].
      unfold GetRequiredVariables. apply list_elem_of_fmap.
      exists (n, d). split; [done|].
      apply list_elem_of_filter. split; [tauto|].
      apply elem_of_map_to_list. tauto.
Qed.

Lemma MergeVariablesWithDefaults_lookup sv vars name :
  MergeVariablesWithDefaults sv vars !! name
  = match vars !! name with
    | Some value => Some value
    | None =>
        match sv !! name with
        | Some def =>
            if decide (VariableDef.Default def = "") then None
            else Some (VariableDef.Default def)
        | None => None
        end
    end.
Proof.
  unfold MergeVariablesWithDefaults.
  destruct (vars !! name) as [v|] eqn:Hv.
  - by apply lookup_union_Some_l.
  - rewrite lookup_union_r by done. rewrite lookup_fmap.
    destruct (sv !! name) as [def|] eqn:Hs.
    + case_decide as Hd.
      * rewrite (proj2 (map_lookup_filter_None _ sv name)); [done|].
        right. intros x Hx. simpl. congruence.
      * rewrite (map_lookup_filter_Some_2 _ sv name def); done.
    + rewrite (proj2 (map_lookup_filter_None _ sv name)); [done|]. by left.
Qed.

Lemma filter_ext_elem {A} (P Q : A → Prop) `{!∀ x, Decision (P x)}
    `{!∀ x, Decision (Q x)} (l : list A) :
  (∀ x, x ∈ l → P x ↔ Q x) → filter P l = filter Q l.
Proof.
  induction l as [|a l IH]; intros Hall; [done|].
  rewrite !filter_cons.
  rewrite IH by (intros x Hx; apply Hall; by right).
  destruct (decide (P a)) as [Hp|Hp], (decide (Q a)) as [Hq|Hq]; try done;
    exfalso; apply (Hall a (proj2 (elem_of_cons _ _ _) (or_introl eq_refl))) in Hp
    || (apply Hp; by apply (Hall a (proj2 (elem_of_cons _ _ _) (or_introl eq_refl)))); done.
Qed.

(** X25: in the merged variables a given value stands, also an empty one;
    a variable not given takes the default of its definition when that is
    not empty, and is absent otherwise.  Merging therefore never changes the
    verdict of [ValidateVariables]. *)
Theorem MergeVariablesWithDefaults_given_first (sv : gmap string VariableDef.t)
    (vars : gmap string string) :
  (∀ name value, vars !! name = Some value →
     MergeVariablesWithDefaults sv vars !! name = Some value)
  ∧ (∀ name def, vars !! name = None → sv !! name = Some def →
       MergeVariablesWithDefaults sv vars !! name
       = if decide (VariableDef.Default def = "") then None
         else Some (VariableDef.Default def))
  ∧ (∀ name, vars !! name = None → sv !! name = None →
       MergeVariablesWithDefaults sv vars !! name = None)
  ∧ ValidateVariables sv (MergeVariablesWithDefaults sv vars)
    = ValidateVariables sv vars.
Proof.
  split; [|split; [|split]].
  - intros name value H. by rewrite MergeVariablesWithDefaults_lookup, H.
  - intros name def H1 H2. by rewrite MergeVariablesWithDefaults_lookup, H1, H2.
  - intros name H1 H2. by rewrite MergeVariablesWithDefaults_lookup, H1, H2.
  - unfold ValidateVariables.
    rewrite (filter_ext_elem _
               (λ nd : string * VariableDef.t,
                  notProvided vars nd.1 = true
                  ∧ VariableDef.Required nd.2 = true
                  ∧ VariableDef.Default nd.2 = "")); [done|].
    intros [name def] Hin. apply elem_of_map_to_list in Hin. simpl.
    destruct (decide (VariableDef.Default def = "")) as [Hd|Hd]; [|tauto].
    assert (Heq : notProvided (MergeVariablesWithDefaults sv vars) name
                  = notProvided vars name); [|rewrite Heq; tauto].
    unfold notProvided. rewrite MergeVariablesWithDefaults_lookup, Hin.
    destruct (vars !! name); [done|]. by rewrite decide_True.
Qed.

Lemma string_app_cons c s t : String c s +:+ t = String c (s +:+ t).
Proof. reflexivity. Qed.

Lemma string_app_nil t : "" +:+ t = t.
Proof. reflexivity. Qed.

Lemma escapeTSPLString_cons c s :
  escapeTSPLString (String c s) = escapedByte c +:+ escapeTSPLString s.
Proof.
  unfold escapeTSPLString, escapedByte. cbn [replaceAllByte].
  destruct (Ascii.eqb_spec c backslash) as [->|H1];
    [by rewrite !string_app_cons, !string_app_nil|].
  cbn [replaceAllByte].
  destruct (Ascii.eqb_spec c quote) as [->|H2];
    [by rewrite !string_app_cons, !string_app_nil|].
  cbn [replaceAllByte].
  destruct (Ascii.eqb_spec c LF) as [->|H3];
    [by rewrite !string_app_cons, !string_app_nil|].
  cbn [replaceAllByte].
  destruct (Ascii.eqb_spec c CR) as [->|H4];
    [by rewrite !string_app_cons, !string_app_nil|].
  cbn [replaceAllByte].
  destruct (Ascii.eqb_spec c TAB) as [->|H5];
    [by rewrite !string_app_cons, !string_app_nil|].
  by rewrite !string_app_cons, !string_app_nil.
Qed.

Lemma escapeTSPLString_bytes s : escapeTSPLString s = escapeBytes s.
Proof.
  induction s as [|c s IH]; [done|].
  rewrite escapeTSPLString_cons. cbn [escapeBytes]. by rewrite IH.
Qed.

Lemma unescape_escapeBytes s : unescapeTSPLString (escapeBytes s) = s.
Proof.
  induction s as [|c s IH]; [done|].
  cbn [escapeBytes]. unfold escapedByte.
  destruct (Ascii.eqb_spec c backslash) as [->|H1];
    [rewrite !string_app_cons, string_app_nil; cbn; by rewrite IH|].
  destruct (Ascii.eqb_spec c quote) as [->|H2];
    [rewrite !string_app_cons, string_app_nil; cbn; by rewrite IH|].
  destruct (Ascii.eqb_spec c LF) as [->|H3];
    [rewrite !string_app_cons, string_app_nil; cbn; by rewrite IH|].
  destruct (Ascii.eqb_spec c CR) as [->|H4];
    [rewrite !string_app_cons, string_app_nil; cbn; by rewrite IH|].
  destruct (Ascii.eqb_spec c TAB) as [->|H5];
    [rewrite !string_app_cons, string_app_nil; cbn; by rewrite IH|].
  rewrite string_app_cons, string_app_nil. cbn [unescapeTSPLString].
  apply Ascii.eqb_neq in H1. rewrite H1. by rewrite IH.
Qed.

Lemma occurs_escapeBytes c s :
  c = LF ∨ c = CR ∨ c = TAB → occurs c (escapeBytes s) = false.
Proof.
  intros Hc. induction s as [|d s IH]; [done|].
  cbn [escapeBytes]. unfold escapedByte.
  destruct (Ascii.eqb_spec d backslash) as [->|H1];
    [rewrite !string_app_cons, string_app_nil; cbn [occurs]; rewrite IH;
     by destruct Hc as [->|[->| ->]]|].
  destruct (Ascii.eqb_spec d quote) as [->|H2];
    [rewrite !string_app_cons, string_app_nil; cbn [occurs]; rewrite IH;
     by destruct Hc as [->|[->| ->]]|].
  destruct (Ascii.eqb_spec d LF) as [->|H3];
    [rewrite !string_app_cons, string_app_nil; cbn [occurs]; rewrite IH;
     by destruct Hc as [->|[->| ->]]|].
  destruct (Ascii.eqb_spec d CR) as [->|H4];
    [rewrite !string_app_cons, string_app_nil; cbn [occurs]; rewrite IH;
     by destruct Hc as [->|[->| ->]]|].
  destruct (Ascii.eqb_spec d TAB) as [->|H5];
    [rewrite !string_app_cons, string_app_nil; cbn [occurs]; rewrite IH;
     by destruct Hc as [->|[->| ->]]|].
  rewrite string_app_cons, string_app_nil. cbn [occurs]. rewrite IH.
  rewrite orb_false_r. apply Ascii.eqb_neq.
  by destruct Hc as [->|[->| ->]].
Qed.

(** X26: the five replacements of [escapeTSPLString], made one after the
    other, amount to escaping the input byte by byte; the input is read back
    from the result, so that no two inputs are escaped alike, and the result
    holds no line feed, carriage return or tabulator. *)
Theorem escapeTSPLString_reversible (s : string) :
  escapeTSPLString s = escapeBytes s
  ∧ unescapeTSPLString (escapeTSPLString s) = s
  ∧ occurs LF (escapeTSPLString s) = false
  ∧ occurs CR (escapeTSPLString s) = false
  ∧ occurs TAB (escapeTSPLString s) = false.
Proof.
  rewrite escapeTSPLString_bytes.
  split; [done|]. split; [apply unescape_escapeBytes|].
  split; [|split]; apply occurs_escapeBytes; auto.
Qed.

(** ** Identifiers of the job table *)

Lemma ids_kept_refl w : ids_kept w w.
Proof. split; [done|]. intros id r Hr. by exists r. Qed.

Lemma ids_kept_trans w1 w2 w3 : ids_kept w1 w2 → ids_kept w2 w3 → ids_kept w1 w3.
Proof.
  intros [S1 R1] [S2 R2]. split; [congruence|].
  intros id r3 H3. destruct (R2 id r3 H3) as (r2 & H2 & E2).
  destruct (R1 id r2 H2) as (r1 & H1 & E1). exists r1. split; [done|congruence].
Qed.

Lemma ids_kept_wf w w' : jobs_wf w → ids_kept w w' → jobs_wf w'.
Proof.
  intros Hwf [Hseq Hrows] id r' Hr'.
  destruct (Hrows id r' Hr') as (r & Hr & Hid).
  destruct (Hwf id r Hr) as [H1 H2]. rewrite Hseq, Hid. done.
Qed.

Lemma ids_kept_same w w' :
  DB.print_jobs (db w') = DB.print_jobs (db w) →
  DB.print_jobs_seq (db w') = DB.print_jobs_seq (db w) →
  ids_kept w w'.
Proof.
  intros Hj Hs. split; [done|]. intros id r Hr. exists r. split; [|done].
  unfold jobRow in *. by rewrite <- Hj.
Qed.

Lemma ids_kept_alter f id w :
  (∀ r, JobRow.id (f r) = JobRow.id r) →
  ids_kept w (with_db (DB.with_print_jobs (alter f id)) w).
Proof.
  intros Hf. split; [done|]. intros id' r'. unfold jobRow. simpl.
  destruct (decide (id = id')) as [<-|Hne].
  - rewrite lookup_alter_eq. destruct (DB.print_jobs (db w) !! id) as [r|]; [|done].
    intros [= <-]. by exists r.
  - rewrite lookup_alter_ne by done. intros Hr. by exists r'.
Qed.

Lemma ids_kept_fmap f w :
  (∀ r, JobRow.id (f r) = JobRow.id r) →
  ids_kept w (with_db (DB.with_print_jobs (fmap f)) w).
Proof.
  intros Hf. split; [done|]. intros id' r'. unfold jobRow. simpl.
  rewrite lookup_fmap. destruct (DB.print_jobs (db w) !! id') as [r|]; [|done].
  intros [= <-]. by exists r.
Qed.

Lemma ids_kept_insert id r r' w :
  jobRow id w = Some r → JobRow.id r' = JobRow.id r →
  ids_kept w (with_db (DB.with_print_jobs <[id := r']>) w).
Proof.
  intros Hr Hid. split; [done|]. intros id' r''. unfold jobRow in *. simpl.
  destruct (decide (id = id')) as [<-|Hne].
  - rewrite lookup_insert_eq. intros [= <-]. by exists r.
  - rewrite lookup_insert_ne by done. intros H. by exists r''.
Qed.

Lemma updateJobStatus_ids id st msg started completed w :
  ids_kept w (updateJobStatus id st msg started completed w).
Proof.
  unfold updateJobStatus. case_match; [|apply ids_kept_refl].
  by apply ids_kept_alter.
Qed.

Lemma sendJobEvent_ids ev id pid st msg w :
  ids_kept w (sendJobEvent ev id pid st msg w).
Proof.
  apply ids_kept_same;
    by destruct (sendJobEvent_q ev id pid st msg w) as (_ & -> & _).
Qed.

Lemma offer_ids id w : ids_kept w (offer id w).1.
Proof. apply ids_kept_same; by rewrite offer_db. Qed.

Lemma retryJob_ids id w : ids_kept w (retryJob id w).
Proof.
  unfold retryJob.
  eapply ids_kept_trans; [apply updateJobStatus_ids|apply offer_ids].
Qed.

Lemma fireTimer_ids n w : ids_kept w (fireTimer n w).
Proof.
  unfold fireTimer. destruct (Env.timers (env w) !! n) as [[d id]|];
    [|apply ids_kept_refl].
  eapply ids_kept_trans; [|apply retryJob_ids]. by apply ids_kept_same.
Qed.

Lemma handleJobFailure_ids job msg w : ids_kept w (handleJobFailure job msg w).
Proof.
  unfold handleJobFailure. case_match.
  - unfold incrementRetryCount.
    eapply ids_kept_trans; [|by apply ids_kept_alter]. by apply ids_kept_same.
  - cbn [timeNow].
    eapply ids_kept_trans; [|apply sendJobEvent_ids].
    eapply ids_kept_trans; [|apply updateJobStatus_ids]. by apply ids_kept_same.
Qed.

Lemma connect_seq id w :
  DB.print_jobs_seq (db (connect id w).1) = DB.print_jobs_seq (db w).
Proof. unfold connect. by repeat case_match. Qed.

Lemma connWrite_seq id payload w :
  DB.print_jobs_seq (db (connWrite id payload w).1) = DB.print_jobs_seq (db w).
Proof. unfold connWrite. by repeat case_match. Qed.

Lemma updatePrinterStatus_seq id st w :
  DB.print_jobs_seq (db (updatePrinterStatus id st w)) = DB.print_jobs_seq (db w).
Proof. unfold updatePrinterStatus. simpl. by repeat case_match. Qed.

Lemma failOffline_seq id err w :
  DB.print_jobs_seq (db (failOffline id err w).1.1) = DB.print_jobs_seq (db w).
Proof.
  unfold failOffline, offlineStatus. cbn [timeNow fst snd].
  by rewrite updatePrinterStatus_seq.
Qed.

Lemma writeStatusCommand_seq id w :
  DB.print_jobs_seq (db (writeStatusCommand id w).1) = DB.print_jobs_seq (db w).
Proof.
  unfold writeStatusCommand, reconnect.
  pose proof (connWrite_seq id statusCommand w) as H1.
  destruct (connWrite id statusCommand w) as [w1 [e1|]]; [|exact H1].
  pose proof (connect_seq id (disconnect id w1)) as H2.
  destruct (connect id (disconnect id w1)) as [w2 [e2|]]; simpl in *;
    [congruence|].
  pose proof (connWrite_seq id statusCommand w2) as H3.
  destruct (connWrite id statusCommand w2) as [w3 [e3|]]; simpl in *; congruence.
Qed.

Lemma readStatus_seq id w :
  DB.print_jobs_seq (db (readStatus id w).1.1) = DB.print_jobs_seq (db w).
Proof.
  unfold readStatus.
  destruct (readLoop (Env.reads (env w)) []) as [[got|e] rest].
  - case_match.
    + unfold offlineStatus. cbn [timeNow fst snd].
      by rewrite updatePrinterStatus_seq.
    + cbn [timeNow fst snd]. case_match; cbn [fst snd]; [|done].
      by rewrite updatePrinterStatus_seq.
  - by rewrite failOffline_seq.
Qed.

Lemma CheckStatus_seq id w :
  DB.print_jobs_seq (db (CheckStatus id w).1.1) = DB.print_jobs_seq (db w).
Proof.
  unfold CheckStatus.
  destruct (PrinterManager.printers (pm w) !! id); [|done].
  pose proof (connect_seq id w) as Hc.
  destruct (connect id w) as [w1 [err|]]; simpl in Hc.
  { by rewrite failOffline_seq. }
  pose proof (writeStatusCommand_seq id w1) as Hw.
  destruct (writeStatusCommand id w1) as [w2 [[drop e]|]]; simpl in Hw.
  - rewrite failOffline_seq. destruct drop; simpl; congruence.
  - rewrite readStatus_seq. congruence.
Qed.

Lemma SendCommand_seq id tspl w :
  DB.print_jobs_seq (db (SendCommand id tspl w).1) = DB.print_jobs_seq (db w).
Proof.
  unfold SendCommand.
  destruct (PrinterManager.printers (pm w) !! id); [|done].
  pose proof (connect_seq id w) as Hc.
  destruct (connect id w) as [w1 [err|]]; simpl in *; [done|].
  pose proof (connWrite_seq id tspl w1) as Hw.
  destruct (connWrite id tspl w1) as [w2 [e|]]; simpl in *; congruence.
Qed.

Lemma Print_ids id tspl copies w : ids_kept w (Print id tspl copies w).1.
Proof.
  apply ids_kept_same; [by destruct (Print_frame_jobs id tspl copies w)|].
  unfold Print.
  pose proof (CheckStatus_seq id w) as Hc.
  destruct (CheckStatus id w) as [[w1 [status|]] [err|]]; simpl in Hc; try done.
  do 2 (case_match; [done|]).
  set (full := if 1 <? copies then _ else tspl).
  pose proof (SendCommand_seq id full w1) as Hs.
  destruct (SendCommand id full w1) as [w2 [err|]]; simpl in *; congruence.
Qed.

Lemma transmitJob_ids jobID job w : ids_kept w (transmitJob jobID job w).
Proof.
  unfold transmitJob. cbn [timeNow].
  set (w1 := sendJobEvent _ _ _ _ _ _).
  assert (H1 : ids_kept w w1).
  { subst w1. eapply ids_kept_trans; [|apply sendJobEvent_ids].
    eapply ids_kept_trans; [|apply updateJobStatus_ids]. by apply ids_kept_same. }
  clearbody w1.
  destruct (Queue.printerManager (q w1)); cbn [negb];
    [|eapply ids_kept_trans; [exact H1|apply handleJobFailure_ids]].
  set (w2 := with_env _ w1).
  assert (H2 : ids_kept w w2)
    by (eapply ids_kept_trans; [exact H1|by apply ids_kept_same]).
  clearbody w2.
  pose proof (Print_ids (Job.PrinterID job) (Job.TSPLContent job)
                (Job.Copies job) w2) as H3.
  destruct (Print _ _ _ w2) as [w3 [err|]]; simpl in H3.
  { eapply ids_kept_trans; [|apply handleJobFailure_ids].
    eapply ids_kept_trans; [exact H2|exact H3]. }
  cbn [timeNow]. unfold incrementPrintCounter.
  cbn [timeNow fst snd].
  eapply ids_kept_trans; [eapply ids_kept_trans; [exact H2|exact H3]|].
  set (w4 := sendJobEvent _ _ _ _ _ _).
  assert (H4 : ids_kept w3 w4).
  { subst w4. eapply ids_kept_trans; [|apply sendJobEvent_ids].
    eapply ids_kept_trans; [|apply updateJobStatus_ids]. by apply ids_kept_same. }
  clearbody w4.
  eapply ids_kept_trans; [exact H4|]. by apply ids_kept_same.
Qed.

Lemma processJob_ids jobID w : ids_kept w (processJob jobID w).
Proof.
  unfold processJob. destruct (GetJob jobID w) as [job|e]; [|apply ids_kept_refl].
  case_match; [apply ids_kept_refl|].
  case_match; [apply updateJobStatus_ids|].
  repeat case_match;
    try apply transmitJob_ids; try apply handleJobFailure_ids.
  eapply ids_kept_trans; [|apply transmitJob_ids].
  unfold updateJobTSPL. by apply ids_kept_alter.
Qed.

Lemma Enqueue_wf job w : jobs_wf w → jobs_wf (Enqueue job w).1.1.
Proof.
  intros Hwf. unfold Enqueue. cbv zeta.
  set (job1 := if Job.MaxRetries job =? 0 then _ else job).
  set (job2 := if String.eqb (Job.Status job1) "" then _ else job1).
  destruct (JobRow.status_allowed (Job.Status job2)); cbn [negb]; [|done].
  cbn [timeNow fst snd].
  eapply ids_kept_wf; [|apply offer_ids].
  intros id r. unfold jobRow. simpl.
  destruct (decide (DB.print_jobs_seq (db w) + 1 = id)) as [<-|Hne].
  - rewrite lookup_insert_eq. intros [= <-]. simpl. lia.
  - rewrite lookup_insert_ne by done. intros Hr.
    destruct (Hwf id r Hr). split; [done|lia].
Qed.

Lemma resume_fold_ids ids w :
  ids_kept w
    (foldl (λ w id, (offer id (updateJobStatus id JobStatusPending "" None None w)).1)
       w ids).
Proof.
  revert w. induction ids as [|id ids IH]; intros w; simpl; [apply ids_kept_refl|].
  eapply ids_kept_trans; [|apply IH].
  eapply ids_kept_trans; [apply updateJobStatus_ids|apply offer_ids].
Qed.

(** X27: every row of the job table is stored under its own identifier and
    no identifier is beyond the AUTOINCREMENT counter; the operations of the
    scheduler, the retry timers, the dispatcher and the workers keep that,
    so that a new job always gets an identifier no stored job has. *)
Theorem jobs_stay_well_formed (w : World) (job : Job.t) (id : Z) (n : nat) :
  jobs_wf w →
  jobs_wf (Enqueue job w).1.1
  ∧ jobs_wf (ReprintJob id w).1
  ∧ jobs_wf (CancelJob id w).1
  ∧ jobs_wf (PauseJob id w).1
  ∧ jobs_wf (ResumeJob id w).1
  ∧ jobs_wf (RetryJob id w).1
  ∧ jobs_wf (PausePrinter id w).1
  ∧ jobs_wf (ResumePrinter id w).1
  ∧ jobs_wf (Dequeue w).1
  ∧ jobs_wf (fireTimer n w)
  ∧ jobs_wf (enqueuePendingJobs w)
  ∧ jobs_wf (Start w).1.1
  ∧ jobs_wf (workerReceive w)
  ∧ jobRow (DB.print_jobs_seq (db w) + 1) w = None.
Proof.
  intros Hwf. repeat apply conj.
  - by apply Enqueue_wf.
  - unfold ReprintJob. destruct (GetJob id w) as [j|e]; [|done].
    set (newJob := Job.mk 0 _ _ _ _ JobStatusPending _ 0 _ _ "" _ 0 None None).
    pose proof (Enqueue_wf newJob w Hwf) as H.
    by destruct (Enqueue newJob w) as [[w1 j1] r1].
  - eapply ids_kept_wf; [done|]. unfold CancelJob.
    destruct (DB.print_jobs (db w) !! id) as [r|] eqn:Hr; [|apply ids_kept_refl].
    case_match; [|apply ids_kept_refl]. cbn [timeNow fst snd].
    eapply ids_kept_trans; [|by eapply (ids_kept_insert id r)].
    by apply ids_kept_same.
  - eapply ids_kept_wf; [done|]. unfold PauseJob.
    destruct (DB.print_jobs (db w) !! id) as [r|] eqn:Hr; [|apply ids_kept_refl].
    case_match; [|apply ids_kept_refl]. by eapply (ids_kept_insert id r).
  - eapply ids_kept_wf; [done|]. unfold ResumeJob.
    destruct (GetJob id w) as [j|e]; [|apply ids_kept_refl].
    do 2 (case_match; [apply ids_kept_refl|]). cbn [fst].
    eapply ids_kept_trans; [apply updateJobStatus_ids|apply offer_ids].
  - eapply ids_kept_wf; [done|]. unfold RetryJob.
    destruct (GetJob id w) as [j|e]; [|apply ids_kept_refl].
    case_match; [apply ids_kept_refl|]. cbn [fst].
    eapply ids_kept_trans; [|apply offer_ids]. by apply ids_kept_alter.
  - eapply ids_kept_wf; [done|]. unfold PausePrinter. cbn [fst].
    eapply ids_kept_trans; [|apply ids_kept_fmap].
    + by apply ids_kept_same.
    + intros r. by case_match.
  - eapply ids_kept_wf; [done|]. unfold ResumePrinter. cbn [fst].
    eapply ids_kept_trans; [|apply resume_fold_ids]. by apply ids_kept_same.
  - eapply ids_kept_wf; [done|]. unfold Dequeue.
    destruct (selectPendingRows (db w)) as [|[k r] l]; [apply ids_kept_refl|].
    destruct (JobRow.error_message r); [|apply ids_kept_refl].
    cbn [timeNow fst snd].
    eapply ids_kept_trans; [|by apply ids_kept_alter]. by apply ids_kept_same.
  - eapply ids_kept_wf; [done|apply fireTimer_ids].
  - eapply ids_kept_wf; [done|]. unfold enqueuePendingJobs.
    destruct (offerUntilFull_prefix (take 100 (selectPending (db w))) w)
      as (k & _ & _ & Hdb & _).
    apply ids_kept_same; by rewrite Hdb.
  - eapply ids_kept_wf; [done|]. unfold Start.
    destruct (Queue.running (q w)); [apply ids_kept_refl|].
    unfold recoverJobs.
    set (w1 := resetProcessing _).
    assert (H1 : ids_kept w w1).
    { subst w1. unfold resetProcessing.
      eapply ids_kept_trans; [|apply ids_kept_fmap].
      - by apply ids_kept_same.
      - intros r. by case_match. }
    clearbody w1.
    pose proof (offerAll_db (selectPending (db w1)) w1) as Ho.
    destruct (offerAll (selectPending (db w1)) w1) as [w2 acts]. simpl in Ho.
    cbn [fst].
    eapply ids_kept_trans; [exact H1|].
    apply ids_kept_same;
      by destruct (goroutines_launch
                     (workerGoroutines (Queue.workers (q w2)) ++ [GoDispatcher])
                     w2) as [_ ->]; rewrite Ho.
  - eapply ids_kept_wf; [done|]. unfold workerReceive.
    destruct (Queue.jobCh (q w)) as [|j rest]; [apply ids_kept_refl|].
    eapply ids_kept_trans; [|apply processJob_ids]. by apply ids_kept_same.
  - destruct (jobRow (DB.print_jobs_seq (db w) + 1) w) as [r|] eqn:Hr; [|done].
    destruct (Hwf _ r Hr). lia.
Qed.

(** ** Transmitting *)

(** X28: [SendCommand] never touches the store or the registry: unlike a
    failed poll, a failed transmission is not recorded as offline.  On
    success the payload, and nothing else, has gone to the registered
    printer over a connection that stays cached.  An error is "printer not
    found" for an unknown printer, with no effect at all; "printer is
    offline" when no connection was cached and the dial failed; or a
    connection failure of the write, after which no connection is cached.
    In each of these nothing has gone on the wire. *)
Theorem SendCommand_outcomes (id : Z) (tspl : string) (w : World) :
  db (SendCommand id tspl w).1 = db w
  ∧ PrinterManager.printers (pm (SendCommand id tspl w).1)
    = PrinterManager.printers (pm w)
  ∧ match (SendCommand id tspl w).2 with
    | None =>
        is_Some (PrinterManager.printers (pm w) !! id)
        ∧ Env.wire (env (SendCommand id tspl w).1)
          = (Env.wire (env w) ++ [(id, tspl)])%list
        ∧ id ∈ PrinterManager.connections (pm (SendCommand id tspl w).1)
    | Some err =>
        Env.wire (env (SendCommand id tspl w).1) = Env.wire (env w)
        ∧ ((err = ErrPrinterNotFound
            ∧ PrinterManager.printers (pm w) !! id = None
            ∧ (SendCommand id tspl w).1 = w)
           ∨ (err = ErrPrinterOffline
              ∧ (id ∉ PrinterManager.connections (pm w))
              ∧ PrinterManager.connections (pm (SendCommand id tspl w).1)
                = PrinterManager.connections (pm w))
           ∨ ((∃ detail, err = connectionFailed detail)
              ∧ id ∉ PrinterManager.connections (pm (SendCommand id tspl w).1)))
    end.
Proof.
  unfold SendCommand, connect.
  destruct (PrinterManager.printers (pm w) !! id) as [p|] eqn:Hp; simpl;
    [|repeat split; try done; by left].
  case_bool_decide as Hin.
  - unfold connWrite.
    destruct (Env.writes (env w)) as [|[msg|] rest]; simpl.
    + repeat split; try done. right. right. split; [eexists; reflexivity|];
        rewrite elem_of_difference, elem_of_singleton; tauto.
    + repeat split; try done. right. right. split; [eexists; reflexivity|];
        rewrite elem_of_difference, elem_of_singleton; tauto.
    + repeat split; try done.
  - destruct (Env.dials (env w)) as [|[msg|] rest]; simpl.
    + repeat split; try done. right. left. done.
    + repeat split; try done. right. left. done.
    + unfold connWrite. simpl.
      destruct (Env.writes (env w)) as [|[msg|] rest']; simpl.
      * repeat split; try done. right. right. split; [eexists; reflexivity|];
        rewrite elem_of_difference, elem_of_singleton; tauto.
      * repeat split; try done. right. right. split; [eexists; reflexivity|];
        rewrite elem_of_difference, elem_of_singleton; tauto.
      * repeat split; try done. set_solver.
Qed.

(** ** The two ways of pausing a printer *)

Lemma offer_pm id w : pm (offer id w).1 = pm w.
Proof. unfold offer. by case_match. Qed.

Lemma updateJobStatus_printers id st msg started completed w :
  DB.printers (db (updateJobStatus id st msg started completed w))
  = DB.printers (db w).
Proof. unfold updateJobStatus. by case_match. Qed.

Lemma resume_fold_pm ids w :
  let w' := foldl (λ w id, (offer id (updateJobStatus id JobStatusPending ""
                                        None None w)).1) w ids in
  pm w' = pm w ∧ DB.printers (db w') = DB.printers (db w).
Proof.
  revert w. induction ids as [|id ids IH]; intros w; simpl; [done|].
  destruct (IH (offer id (updateJobStatus id JobStatusPending "" None None w)).1)
    as [-> ->].
  rewrite offer_pm, offer_db, updateJobStatus_printers.
  by destruct (updateJobStatus_q id JobStatusPending "" None None w)
    as (_ & _ & ->).
Qed.

Lemma setStatus_scheduler id st w :
  q (Manager.setStatus id st w).1 = q w
  ∧ DB.print_jobs (db (Manager.setStatus id st w).1) = DB.print_jobs (db w).
Proof.
  unfold Manager.setStatus.
  destruct (PrinterManager.printers (pm w) !! id); [|done].
  simpl. by repeat case_match.
Qed.

Lemma setStatus_known id st w p :
  PrinterManager.printers (pm w) !! id = Some p →
  PrinterRow.status_allowed st = true →
  (Manager.setStatus id st w).2 = None
  ∧ registryStatus id (Manager.setStatus id st w).1 = Some st
  ∧ storedStatus id (Manager.setStatus id st w).1
    = (λ _, st) <$> storedStatus id w.
Proof.
  intros Hp Hst. unfold Manager.setStatus, registryStatus, storedStatus.
  rewrite Hp, Hst. simpl.
  case_match; simpl; rewrite lookup_insert_eq, lookup_alter_eq;
    (repeat split; try done); by destruct (DB.printers (db w) !! id).
Qed.

(** X29: the scheduler and the printer manager each pause a printer on their
    own.  [PausePrinter] and [ResumePrinter] of the printer manager leave the
    scheduler, its paused set included, and the job table alone, so that a
    worker goes on printing on a printer paused there; those of the scheduler
    leave the registry and the stored printers alone.  The printer manager's
    [ResumePrinter] records a registered printer as online without polling
    the device, and both fail with "printer not found", changing nothing,
    for an unknown printer. *)
Theorem pause_mechanisms_independent (id : Z) (w : World) :
  (q (Manager.PausePrinter id w).1 = q w
   ∧ DB.print_jobs (db (Manager.PausePrinter id w).1) = DB.print_jobs (db w))
  ∧ (q (Manager.ResumePrinter id w).1 = q w
     ∧ DB.print_jobs (db (Manager.ResumePrinter id w).1) = DB.print_jobs (db w))
  ∧ (pm (PausePrinter id w).1 = pm w
     ∧ DB.printers (db (PausePrinter id w).1) = DB.printers (db w))
  ∧ (pm (ResumePrinter id w).1 = pm w
     ∧ DB.printers (db (ResumePrinter id w).1) = DB.printers (db w))
  ∧ match PrinterManager.printers (pm w) !! id with
    | None =>
        Manager.PausePrinter id w = (w, Some ErrPrinterNotFound)
        ∧ Manager.ResumePrinter id w = (w, Some ErrPrinterNotFound)
    | Some _ =>
        (Manager.ResumePrinter id w).2 = None
        ∧ registryStatus id (Manager.ResumePrinter id w).1 = Some "online"
        ∧ storedStatus id (Manager.ResumePrinter id w).1
          = (λ _, "online") <$> storedStatus id w
        ∧ Env.wire (env (Manager.ResumePrinter id w).1) = Env.wire (env w)
    end.
Proof.
  split; [apply setStatus_scheduler|]. split; [apply setStatus_scheduler|].
  split; [done|]. split.
  { unfold ResumePrinter. cbn [fst].
    by destruct (resume_fold_pm
                   (selectWhere
                      (λ r, (JobRow.printer_id r =? id)
                            && String.eqb (JobRow.status r) "paused")
                      (db (with_q (Queue.with_pausedPrinters (delete id)) w))).*1
                   (with_q (Queue.with_pausedPrinters (delete id)) w))
      as [-> ->]. }
  destruct (PrinterManager.printers (pm w) !! id) as [p|] eqn:Hp.
  - destruct (setStatus_known id "online" w p Hp eq_refl) as (H1 & H2 & H3).
    split; [exact H1|]. split; [exact H2|]. split; [exact H3|].
    unfold Manager.ResumePrinter, Manager.setStatus. rewrite Hp. simpl.
    by case_match.
  - unfold Manager.PausePrinter, Manager.ResumePrinter, Manager.setStatus.
    by rewrite Hp.
Qed.

(** ** The further properties at work on the example installation *)

Lemma submittedWorld_jobs :
  DB.print_jobs (db submittedWorld) = {[1 := pendingRow]}.
Proof. vm_compute. reflexivity. Qed.

Lemma submittedWorld_wf : jobs_wf submittedWorld.
Proof.
  intros id r. unfold jobRow. rewrite submittedWorld_jobs.
  intros [<- <-]%lookup_singleton_Some. by vm_compute.
Qed.

Lemma CheckStatus_records_outcome_witness :
  PrinterManager.printers (pm exampleWorld) !! 7 = Some examplePrinter
  ∧ ∃ s st seen,
      (CheckStatus 7 exampleWorld).1.2 = Some s
      ∧ PrinterManager.printers (pm (CheckStatus 7 exampleWorld).1.1) !! 7
        = Some (Printer.with_Status st (Some seen) examplePrinter).
Proof.
  assert (Hp : PrinterManager.printers (pm exampleWorld) !! 7 = Some examplePrinter)
    by (vm_compute; reflexivity).
  split; [exact Hp|].
  destruct (CheckStatus_records_outcome 7 exampleWorld examplePrinter Hp)
    as (s & st & seen & Hs & Hreg & _).
  exists s, st, seen. split; [exact Hs|exact Hreg].
Defined.

(** The device is feeding a label: the registry says busy, the store still
    says online. *)
Lemma CheckStatus_busy_not_stored_witness :
  PrinterManager.printers (pm feedingWorld) !! 7 = Some examplePrinter
  ∧ (CheckStatus 7 feedingWorld).2 = None
  ∧ registryStatus 7 (CheckStatus 7 feedingWorld).1.1 = Some "busy"
  ∧ storedStatus 7 (CheckStatus 7 feedingWorld).1.1 = Some "online".
Proof.
  assert (Hp : PrinterManager.printers (pm feedingWorld) !! 7 = Some examplePrinter)
    by (vm_compute; reflexivity).
  assert (Herr : (CheckStatus 7 feedingWorld).2 = None)
    by (vm_compute; reflexivity).
  assert (Hs : (CheckStatus 7 feedingWorld).1.2
               = Some (PrinterStatus.mk ("F"%byte, "@"%byte, "@"%byte, "@"%byte)
                         "feeding" "none" "none" "none" true false 1000))
    by (vm_compute; reflexivity).
  destruct (CheckStatus_busy_not_stored 7 feedingWorld examplePrinter _ Hp Hs Herr)
    as [Hreg Hst].
  split; [exact Hp|]. split; [exact Herr|]. split.
  - rewrite Hreg. reflexivity.
  - rewrite Hst. vm_compute. reflexivity.
Defined.

(** Two copies: the poll, then the label twice; the counter goes from 40 to
    42. *)
Lemma Print_transmits_copies_witness :
  (Print 7 "PRINT 1" 2 exampleWorld).2 = None
  ∧ Env.wire (env (Print 7 "PRINT 1" 2 exampleWorld).1)
    = [(7, statusCommand); (7, "PRINT 1" +:+ CRLF +:+ "PRINT 1")]
  ∧ lifetime 7 (Print 7 "PRINT 1" 2 exampleWorld).1 = Some 42
  ∧ lifetime_persisted 7 (Print 7 "PRINT 1" 2 exampleWorld).1 = Some 42.
Proof.
  assert (Herr : (Print 7 "PRINT 1" 2 exampleWorld).2 = None)
    by (vm_compute; reflexivity).
  destruct (Print_transmits_copies 7 "PRINT 1" 2 exampleWorld Herr)
    as (Hwire & Hlife & Hstored).
  split; [exact Herr|]. split; [|split].
  - rewrite Hwire. reflexivity.
  - rewrite Hlife. vm_compute. reflexivity.
  - rewrite Hstored. vm_compute. reflexivity.
Defined.

Lemma Print_failure_counts_nothing_witness :
  (Print 7 "PRINT 1" 2 unreachableWorld).2 ≠ None
  ∧ lifetime 7 (Print 7 "PRINT 1" 2 unreachableWorld).1 = Some 40
  ∧ q (Print 7 "PRINT 1" 2 unreachableWorld).1 = q unreachableWorld.
Proof.
  assert (Herr : (Print 7 "PRINT 1" 2 unreachableWorld).2 ≠ None)
    by (vm_compute; discriminate).
  destruct (Print_failure_counts_nothing 7 "PRINT 1" 2 unreachableWorld Herr)
    as (Hlife & _ & Hq).
  split; [exact Herr|]. split; [|exact Hq].
  destruct (Hlife 7) as [-> _]. vm_compute. reflexivity.
Defined.

Lemma exampleWorld_connections : connections_registered exampleWorld.
Proof. intros id Hin. by apply not_elem_of_empty in Hin. Qed.

Lemma connections_stay_registered_witness :
  connections_registered exampleWorld
  ∧ connections_registered (Print 7 "PRINT 1" 2 exampleWorld).1
  ∧ connections_registered (SendCommand 7 "PRINT 1" exampleWorld).1.
Proof.
  split; [exact exampleWorld_connections|].
  destruct (connections_stay_registered 7 "PRINT 1" 2 exampleWorld
              exampleWorld_connections) as (_ & Hsend & Hprint & _).
  split; [exact Hprint|exact Hsend].
Defined.

(** The operator pauses printer 7 in the printer manager; the next poll finds
    the device ready and records it as online. *)
Lemma Manager_pause_overwritten_by_poll_witness :
  PrinterManager.printers (pm exampleWorld) !! 7 = Some examplePrinter
  ∧ registryStatus 7 (Manager.PausePrinter 7 exampleWorld).1 = Some "paused"
  ∧ registryStatus 7 (CheckStatus 7 (Manager.PausePrinter 7 exampleWorld).1).1.1
    = Some "online".
Proof.
  assert (Hp : PrinterManager.printers (pm exampleWorld) !! 7 = Some examplePrinter)
    by (vm_compute; reflexivity).
  destruct (Manager_pause_overwritten_by_poll 7 exampleWorld examplePrinter Hp)
    as (_ & Hreg & _ & _ & _ & Hpoll).
  split; [exact Hp|]. split; [exact Hreg|].
  destruct Hpoll as (s & Hs & ->); [vm_compute; reflexivity|].
  assert (Hs' : (CheckStatus 7 (Manager.PausePrinter 7 exampleWorld).1).1.2
                = Some (PrinterStatus.mk ("@"%byte, "@"%byte, "@"%byte, "@"%byte)
                          "normal" "none" "none" "none" true true 1001))
    by (vm_compute; reflexivity).
  rewrite Hs in Hs'. injection Hs' as ->. reflexivity.
Defined.

Lemma RemovePrinter_forgets_witness :
  PrinterManager.printers (pm exampleWorld) !! 7 = Some examplePrinter
  ∧ (Manager.RemovePrinter 7 exampleWorld).2 = None
  ∧ GetPrinter 7 (Manager.RemovePrinter 7 exampleWorld).1 = Err ErrPrinterNotFound
  ∧ (Print 7 "PRINT 1" 2 (Manager.RemovePrinter 7 exampleWorld).1).2
    = Some ErrPrinterNotFound.
Proof.
  assert (Hp : PrinterManager.printers (pm exampleWorld) !! 7 = Some examplePrinter)
    by (vm_compute; reflexivity).
  destruct (RemovePrinter_forgets 7 exampleWorld examplePrinter "PRINT 1" 2 Hp)
    as (Herr & _ & _ & _ & _ & _ & Hget & _ & Hprint & _).
  split; [exact Hp|]. split; [exact Herr|]. split; [exact Hget|].
  rewrite Hprint. reflexivity.
Defined.

Lemma Dequeue_takes_first_pending_witness :
  jobs_wf submittedWorld
  ∧ ∃ job, (Dequeue submittedWorld).2 = Ok (Some job)
           ∧ Job.ID job = 1
           ∧ Job.Status job = JobStatusProcessing
           ∧ Job.StartedAt job = Some 1001.
Proof.
  split; [exact submittedWorld_wf|].
  pose proof (Dequeue_takes_first_pending submittedWorld submittedWorld_wf) as H.
  destruct ((Dequeue submittedWorld).2) as [[job|]|e] eqn:Hd;
    [|vm_compute in Hd; discriminate..].
  destruct H as (r & Hr & _ & _ & _ & _ & Hst & Hat & _).
  exists job. split; [reflexivity|]. split; [|split; [exact Hst|]].
  - unfold jobRow in Hr. rewrite submittedWorld_jobs in Hr.
    by apply lookup_singleton_Some in Hr as [<- _].
  - rewrite Hat. vm_compute. reflexivity.
Defined.

Lemma exampleWorld_channel : channel_bounded exampleWorld.
Proof. unfold channel_bounded. simpl. unfold jobChCapacity. lia. Qed.

Lemma channel_stays_bounded_witness :
  channel_bounded exampleWorld
  ∧ channel_bounded (Enqueue exampleJob exampleWorld).1.1
  ∧ channel_bounded (Start exampleWorld).1.1
  ∧ channel_bounded (workerReceive exampleWorld).
Proof.
  split; [exact exampleWorld_channel|].
  destruct (channel_stays_bounded exampleWorld exampleJob 1 0 exampleWorld_channel)
    as (Henq & _ & _ & _ & _ & _ & _ & Hstart & Hrecv).
  split; [exact Henq|]. split; [exact Hstart|exact Hrecv].
Defined.

Lemma PauseJob_exactly_pending_or_processing_witness :
  jobRow 1 submittedWorld = Some pendingRow
  ∧ (PauseJob 1 submittedWorld).2 = None
  ∧ jobRow 1 pausedJobWorld = Some pausedRow.
Proof.
  assert (Hrow : jobRow 1 submittedWorld = Some pendingRow)
    by (vm_compute; reflexivity).
  destruct (PauseJob_exactly_pending_or_processing 1 submittedWorld pendingRow Hrow)
    as (Hiff & Hok & _).
  assert (Herr : (PauseJob 1 submittedWorld).2 = None)
    by (apply Hiff; left; reflexivity).
  split; [exact Hrow|]. split; [exact Herr|].
  destruct (Hok Herr) as [Hr _]. exact Hr.
Defined.

Lemma RetryJob_only_failed_witness :
  jobRow 1 failedWorld = Some failedRow
  ∧ (RetryJob 1 failedWorld).2 = None
  ∧ jobRow 1 (RetryJob 1 failedWorld).1 = Some pendingRow
  ∧ Queue.jobCh (q (RetryJob 1 failedWorld).1)
    = (Queue.jobCh (q failedWorld) ++ [1])%list.
Proof.
  assert (Hrow : jobRow 1 failedWorld = Some failedRow)
    by (vm_compute; reflexivity).
  assert (Hmsg : is_Some (JobRow.error_message failedRow)) by (by eexists).
  destruct (RetryJob_only_failed 1 failedWorld failedRow Hrow Hmsg)
    as (Hiff & Hok & _).
  assert (Herr : (RetryJob 1 failedWorld).2 = None)
    by (apply Hiff; reflexivity).
  destruct (Hok Herr) as (Hr & _ & Hch).
  split; [exact Hrow|]. split; [exact Herr|]. split.
  - rewrite Hr. reflexivity.
  - apply Hch. vm_compute. lia.
Defined.

Lemma ReprintJob_clones_witness :
  jobs_wf submittedWorld
  ∧ jobRow 1 submittedWorld = Some pendingRow
  ∧ (ReprintJob 1 submittedWorld).2 = Ok 2
  ∧ ∃ r', jobRow 2 (ReprintJob 1 submittedWorld).1 = Some r'
          ∧ JobRow.status r' = "pending"
          ∧ JobRow.copies r' = 2
          ∧ JobRow.error_message r' = None.
Proof.
  assert (Hrow : jobRow 1 submittedWorld = Some pendingRow)
    by (vm_compute; reflexivity).
  assert (Hmsg : is_Some (JobRow.error_message pendingRow)) by (by eexists).
  destruct (ReprintJob_clones 1 submittedWorld pendingRow submittedWorld_wf
              Hrow Hmsg)
    as (r' & Hres & _ & _ & Hnew & _ & Hst & _ & _ & _ & _ & _ & Hcp & _ & Hem & _).
  split; [exact submittedWorld_wf|]. split; [exact Hrow|].
  split; [exact Hres|]. exists r'.
  split; [exact Hnew|]. split; [exact Hst|]. split; [exact Hcp|exact Hem].
Defined.

(** The worker receives the retried job while its printer is paused. *)
Lemma processJob_guards_witness :
  jobRow 1 parkedWorld = Some pendingRow
  ∧ printerPaused 7 parkedWorld = true
  ∧ jobRow 1 (processJob 1 parkedWorld)
    = Some (JobRow.set_status_fields "paused" (Some "") None None pendingRow)
  ∧ env (processJob 1 parkedWorld) = env parkedWorld.
Proof.
  assert (Hrow : jobRow 1 parkedWorld = Some pendingRow)
    by (vm_compute; reflexivity).
  assert (Hpaused : printerPaused 7 parkedWorld = true)
    by (vm_compute; reflexivity).
  destruct (processJob_guards 1 parkedWorld pendingRow Hrow) as (_ & _ & Hpark).
  destruct Hpark as (Hr & _ & Henv & _); [reflexivity|by eexists|exact Hpaused|].
  split; [exact Hrow|]. split; [exact Hpaused|]. split; [exact Hr|exact Henv].
Defined.

Lemma processJob_never_retries_witness :
  jobRow 1 submittedWorld = Some pendingRow
  ∧ printerPaused 7 submittedWorld = false
  ∧ Env.timers (env (processJob 1 submittedWorld)) = []
  ∧ ∃ r', jobRow 1 (processJob 1 submittedWorld) = Some r'
          ∧ JobRow.retry_count r' = 0.
Proof.
  assert (Hrow : jobRow 1 submittedWorld = Some pendingRow)
    by (vm_compute; reflexivity).
  assert (Hrun : printerPaused 7 submittedWorld = false)
    by (vm_compute; reflexivity).
  assert (Hcount : ∀ r, jobRow 1 submittedWorld = Some r → 0 ≤ JobRow.retry_count r).
  { intros r Hr. rewrite Hrow in Hr. injection Hr as <-. simpl. lia. }
  destruct (processJob_never_retries 1 submittedWorld Hcount) as [Htimers Hend].
  destruct (Hend pendingRow Hrow) as (r' & Hr & Hc & _);
    [reflexivity|reflexivity|by eexists|exact Hrun|].
  split; [exact Hrow|]. split; [exact Hrun|]. split.
  - rewrite Htimers. vm_compute. reflexivity.
  - exists r'. split; [exact Hr|exact Hc].
Defined.

Lemma Enqueue_then_GetJob_fails_witness :
  Job.Status exampleJob = JobStatusPending
  ∧ (Enqueue exampleJob exampleWorld).2 = Ok 1
  ∧ (∃ e, GetJob 1 (Enqueue exampleJob exampleWorld).1.1 = Err e)
  ∧ processJob 1 (Enqueue exampleJob exampleWorld).1.1
    = (Enqueue exampleJob exampleWorld).1.1.
Proof.
  assert (Hst : Job.Status exampleJob = JobStatusPending) by reflexivity.
  destruct (Enqueue_then_GetJob_fails exampleJob exampleWorld Hst)
    as (Hres & _ & Hget & Hproc).
  split; [exact Hst|]. split; [exact Hres|]. split; [exact Hget|exact Hproc].
Defined.

Lemma Stop_after_restart_panics_witness :
  Queue.running (q runningWorld) = true
  ∧ Queue.stopCh_closed (q runningWorld) = false
  ∧ ∃ w1, Stop runningWorld = Some w1 ∧ Stop (Start w1).1.1 = None.
Proof.
  assert (Hrun : Queue.running (q runningWorld) = true)
    by (vm_compute; reflexivity).
  assert (Hopen : Queue.stopCh_closed (q runningWorld) = false)
    by (vm_compute; reflexivity).
  destruct (Stop_after_restart_panics runningWorld Hrun Hopen)
    as (w1 & Hstop & _ & _ & _ & Hpanic).
  split; [exact Hrun|]. split; [exact Hopen|].
  exists w1. split; [exact Hstop|exact Hpanic].
Defined.

Lemma exampleWorld_paused_flags : paused_flags_true exampleWorld.
Proof.
  intros id b H.
  change (Queue.pausedPrinters (q exampleWorld)) with (∅ : gmap Z bool) in H.
  by rewrite lookup_empty in H.
Qed.

Lemma paused_printers_listing_witness :
  paused_flags_true exampleWorld
  ∧ IsPrinterPaused 7 (PausePrinter 7 exampleWorld).1 = true
  ∧ IsPrinterPaused 7 (ResumePrinter 7 exampleWorld).1 = false
  ∧ (7 ∈ GetPausedPrinters exampleWorld ↔ IsPrinterPaused 7 exampleWorld = true).
Proof.
  destruct (paused_printers_listing exampleWorld 7 exampleWorld_paused_flags)
    as (Hlist & _ & _ & Hp & Hr & _).
  split; [exact exampleWorld_paused_flags|].
  split; [exact Hp|]. split; [exact Hr|exact (Hlist 7)].
Defined.

Lemma jobs_stay_well_formed_witness :
  jobs_wf submittedWorld
  ∧ jobs_wf (ReprintJob 1 submittedWorld).1
  ∧ jobs_wf (workerReceive submittedWorld)
  ∧ jobRow 2 submittedWorld = None.
Proof.
  destruct (jobs_stay_well_formed submittedWorld exampleJob 1 0 submittedWorld_wf)
    as (_ & Hre & _ & _ & _ & _ & _ & _ & _ & _ & _ & _ & Hrecv & Hfresh).
  split; [exact submittedWorld_wf|]. split; [exact Hre|].
  split; [exact Hrecv|exact Hfresh].
Defined.
